(** * Rocky GDAL driver: tile extraction

    A shallow embedding of [src/rocky/GDAL.cpp] (the GDAL-backed tile
    driver of rocky): dataset bootstrap ([GDAL::Driver::open]), the
    pixel/geographic coordinate transform, the validity policy, and the
    two tile builders ([createImage], [createHeightfield]).

    Numeric model.  The C++ [double] and [float] values are embedded as
    exact rationals ([Q]): every arithmetic expression of the source is
    kept as written, and rounding of IEEE arithmetic is not modelled.  A
    statement whose conclusion a rounded result could change is made
    where the results concerned are exact, which it says through the
    predicates [binary64] and [binary32].  Machine integers are embedded
    as [Z]; conversions to [int] are written out where the source
    performs them.  Equality of rationals is [Qeq] ([==]). *)

From Stdlib Require Import ZArith QArith Qround Qabs Lia Lqa Bool List String.
From Stdlib Require Import DecimalString.
From stdpp Require Import base list.

Import ListNotations.
Open Scope Q_scope.

(** ** Numeric helpers *)

(** [a < b] on doubles, as a boolean. *)
Definition Qltb (a b : Q) : bool := negb (Qle_bool b a).
(** [a > b] *)
Definition Qgtb (a b : Q) : bool := Qltb b a.
(** [a >= b] *)
Definition Qgeb (a b : Q) : bool := Qle_bool b a.
(** [a == b] of the source (value comparison). *)
Definition Qeqb (a b : Q) : bool := Qeq_bool a b.

(** C [floor] and [ceil] on doubles; the result is still a double. *)
Definition floor (x : Q) : Q := inject_Z (Qfloor x).
Definition ceil (x : Q) : Q := inject_Z (Qceiling x).

(** C [round]: to nearest, halfway cases away from zero. *)
Definition round (x : Q) : Q :=
  if Qle_bool 0 x then inject_Z (Qfloor (x + (1#2)))
  else inject_Z (Qceiling (x - (1#2))).

(** Wrap-around of a 32-bit two's complement [int]. *)
Definition wrap_int32 (z : Z) : Z :=
  ((z + 2147483648) mod 4294967296 - 2147483648)%Z.

(** Wrap-around of a 32-bit [unsigned]. *)
Definition wrap_uint32 (z : Z) : Z := (z mod 4294967296)%Z.

(** The conversion [(int)x] of a double: truncation toward zero.  The
    source leaves out-of-range conversions undefined; the embedding wraps
    them. *)
Definition trunc (x : Q) : Z :=
  if Qle_bool 0 x then Qfloor x else Qceiling x.
Definition to_int (x : Q) : Z := wrap_int32 (trunc x).

(** Modelled from the spec: [equiv(x, y, eps)] of rocky's [Math.h], which
    is not among the sources.  The spec describes its use in [geoToPixel]
    as "snaps results within 1e-4 of 0 or of the raster's width/height":
    the two values are at most [eps] apart. *)
Definition equiv (x y eps : Q) : bool :=
  let delta := x - y in
  if Qltb delta 0 then Qle_bool (- eps) delta else Qle_bool delta eps.

(** Modelled from the spec: [clamp(x, lo, hi)] of rocky's [Math.h], which
    is not among the sources: "clamp our sampling unit coordinates to the
    valid range". *)
Definition clamp (x lo hi : Q) : Q :=
  if Qltb x lo then lo else if Qgtb x hi then hi else x.

(** The same [clamp], on [int]. *)
Definition clampZ (x lo hi : Z) : Z :=
  if (x <? lo)%Z then lo else if (x >? hi)%Z then hi else x.

(** ** Coordinate transform *)

(** The six coefficients of a GDAL affine geotransform
    ([double _geotransform[6]]). *)
Record GeoTransform := mkGT {
  g0 : Q; g1 : Q; g2 : Q; g3 : Q; g4 : Q; g5 : Q
}.

Definition pixelToGeo (gt : GeoTransform) (x y : Q) : Q * Q :=
  (g0 gt + g1 gt * x + g2 gt * y,
   g3 gt + g4 gt * x + g5 gt * y).

Definition geoToPixel (inv : GeoTransform) (rasterXSize rasterYSize : Z)
    (geoX geoY : Q) : Q * Q :=
  let x := g0 inv + g1 inv * geoX + g2 inv * geoY in
  let y := g3 inv + g4 inv * geoX + g5 inv * geoY in
  let eps := 1 # 10000 in
  let x := if equiv x 0 eps then 0 else x in
  let y := if equiv y 0 eps then 0 else y in
  let x := if equiv x (inject_Z rasterXSize) eps then inject_Z rasterXSize else x in
  let y := if equiv y (inject_Z rasterYSize) eps then inject_Z rasterYSize else y in
  (x, y).

(** ** Status codes and results *)

(** The codes of rocky's [Status] that the driver returns ([Status.h] is
    not among the sources): [NoError] for [StatusOK], the two named codes,
    and [GeneralError] for a status built from a message alone. *)
Inductive StatusCode :=
  | NoError | ResourceUnavailable | ConfigurationError | GeneralError.

(** [Result<T>]: a value, or a failing status. *)
Inductive Result (A : Type) :=
  | Ok (a : A)
  | Failure (code : StatusCode).
Arguments Ok {A} a.
Arguments Failure {A} code.

(** ** The raster capability (GDAL), as the driver sees it *)

Inductive Interpolation :=
  | NEAREST | AVERAGE | BILINEAR | CUBIC | CUBICSPLINE.

Definition Interpolation_eqb (a b : Interpolation) : bool :=
  match a, b with
  | NEAREST, NEAREST | AVERAGE, AVERAGE | BILINEAR, BILINEAR
  | CUBIC, CUBIC | CUBICSPLINE, CUBICSPLINE => true
  | _, _ => false
  end.

Inductive GDALRIOResampleAlg :=
  | GRIORA_NearestNeighbour | GRIORA_Bilinear | GRIORA_Cubic
  | GRIORA_CubicSpline | GRIORA_Average.

Inductive GDALColorInterp :=
  | GCI_Undefined | GCI_GrayIndex | GCI_PaletteIndex
  | GCI_RedBand | GCI_GreenBand | GCI_BlueBand | GCI_AlphaBand.

Definition GDALColorInterp_eqb (a b : GDALColorInterp) : bool :=
  match a, b with
  | GCI_Undefined, GCI_Undefined | GCI_GrayIndex, GCI_GrayIndex
  | GCI_PaletteIndex, GCI_PaletteIndex | GCI_RedBand, GCI_RedBand
  | GCI_GreenBand, GCI_GreenBand | GCI_BlueBand, GCI_BlueBand
  | GCI_AlphaBand, GCI_AlphaBand => true
  | _, _ => false
  end.

Inductive GDALDataType :=
  | GDT_Unknown | GDT_Byte | GDT_UInt16 | GDT_Int16 | GDT_UInt32 | GDT_Int32
  | GDT_Float32 | GDT_Float64
  | GDT_CInt16 | GDT_CInt32 | GDT_CFloat32 | GDT_CFloat64.

Inductive GDALPaletteInterp := GPI_Gray | GPI_RGB | GPI_CMYK | GPI_HLS.

(** [GDALColorEntry]: four [short] components. *)
Record GDALColorEntry := mkEntry { c1 : Z; c2 : Z; c3 : Z; c4 : Z }.

Record GDALColorTable := mkColorTable {
  paletteInterpretation : GDALPaletteInterp;
  colorEntries : list GDALColorEntry
}.

(** [GetColorEntry(index)]: null outside the table. *)
Definition GetColorEntry (t : GDALColorTable) (index : Z) : option GDALColorEntry :=
  if (index <? 0)%Z then None else colorEntries t !! Z.to_nat index.

(** The resampling request that accompanies a windowed read. *)
Record GDALRasterIOExtraArg := mkExtraArg {
  eResampleAlg : GDALRIOResampleAlg;
  bFloatingPointWindowValidity : bool;
  dfXOff : Q; dfYOff : Q; dfXSize : Q; dfYSize : Q
}.

(** The arguments of [GDALRasterBand::RasterIO(GF_Read, ...)].  Pixel and
    line spacing are 0 (the defaults) at every call of the source. *)
Record RasterIOArgs := mkRasterIOArgs {
  nXOff : Z; nYOff : Z; nXSize : Z; nYSize : Z;
  nBufXSize : Z; nBufYSize : Z;
  eBufType : GDALDataType;
  psExtraArg : option GDALRasterIOExtraArg
}.

(** A raster band.  [RasterIO] is the external windowed read: [None] is a
    failed read ([CE_Failure]), [Some samples] the samples it stores in
    the buffer, row by row from the top.  [InterpolateAtPoint] is the
    point interpolation of GDAL 3.10 and later.  The source dereferences
    [GetColorTable()] without a null check; the embedding carries a table
    on every band. *)
Record GDALRasterBand := mkBand {
  GetColorInterpretation : GDALColorInterp;
  GetNoDataValue : option Q;
  GetScale : Q;
  GetOffset : Q;
  GetRasterDataType : GDALDataType;
  GetColorTable : GDALColorTable;
  GetXSize : Z;
  GetYSize : Z;
  RasterIO : RasterIOArgs -> option (list Q);
  InterpolateAtPoint : Q -> Q -> GDALRIOResampleAlg -> option Q
}.

(** A dataset handle.  [SUBDATASETS] is the metadata list of that domain,
    one (name, value) pair per entry; [GetGeoTransform] is the status of
    the call ([true] for [CE_None]) with the coefficients it stores. *)
Record GDALDataset := mkDataset {
  SUBDATASETS : list (string * string);
  GetProjectionRef : string;
  GetGCPCount : Z;
  GetGCPProjection : option string;
  GetGeoTransform : bool * GeoTransform;
  GetRasterXSize : Z;
  GetRasterYSize : Z;
  AREA_OR_POINT : option string;
  rasterBands : list GDALRasterBand
}.

Definition GetRasterCount (ds : GDALDataset) : Z :=
  Z.of_nat (length (rasterBands ds)).

(** [GetRasterBand(i)], bands numbered from 1. *)
Definition GetRasterBand (ds : GDALDataset) (i : Z) : option GDALRasterBand :=
  if (i <? 1)%Z then None else rasterBands ds !! Z.to_nat (i - 1).

(** ** [namespace detail] *)

(** From easyrgb.com *)
Definition Hue_2_RGB (v1 v2 vH : Q) : Q :=
  let vH := if Qltb vH 0 then vH + 1 else vH in
  let vH := if Qgtb vH 1 then vH - 1 else vH in
  if Qltb (6 * vH) 1 then v1 + (v2 - v1) * 6 * vH
  else if Qltb (2 * vH) 1 then v2
  else if Qltb (3 * vH) 2 then v1 + (v2 - v1) * ((2 / 3) - vH) * 6
  else v1.

(** Finds a raster band based on color interpretation *)
Definition findBandByColorInterp (ds : GDALDataset) (colorInterp : GDALColorInterp)
    : option GDALRasterBand :=
  List.find (fun b => GDALColorInterp_eqb (GetColorInterpretation b) colorInterp)
            (rasterBands ds).

(** [glm::u8vec4]: four [unsigned char] components. *)
Record u8vec4 := mkU8 { u8r : Z; u8g : Z; u8b : Z; u8a : Z }.

(** Conversions to [unsigned char]: of an integer (wrap-around), and of a
    float (truncation, then wrap-around where the source is undefined). *)
Definition to_u8 (z : Z) : Z := (z mod 256)%Z.
Definition float_to_u8 (x : Q) : Z := to_u8 (trunc x).

(** [getPalleteIndexColor<glm::u8vec4>]: the success flag and the colour
    stored in the caller's variable.  [GDALPaletteInterp] has the four
    values tested, so the closing [else] of the source is not reached. *)
Definition getPalleteIndexColor (band : GDALRasterBand) (index : Z) : bool * u8vec4 :=
  let colorEntry := GetColorEntry (GetColorTable band) index in
  let interp := paletteInterpretation (GetColorTable band) in
  match colorEntry with
  | None =>
      (* What to do here? Let's return a red pixel for now. *)
      (false, mkU8 255 0 0 1)
  | Some e =>
      match interp with
      | GPI_RGB =>
          (true, mkU8 (to_u8 (c1 e)) (to_u8 (c2 e)) (to_u8 (c3 e)) (to_u8 (c4 e)))
      | GPI_CMYK =>
          let C := c1 e in let M := c2 e in let Y := c3 e in let K := c4 e in
          (true, mkU8 (to_u8 (255 - C * (255 - K) - K))
                      (to_u8 (255 - M * (255 - K) - K))
                      (to_u8 (255 - Y * (255 - K) - K))
                      255)
      | GPI_HLS =>
          let H := inject_Z (c1 e) in
          let S := inject_Z (c3 e) in
          let L := inject_Z (c2 e) in
          let '(R, G, B) :=
            if Qeqb S 0 then (L, L, L)
            else
              let var_2 := if Qltb L (1 # 2) then L * (1 + S) else (L + S) - (S * L) in
              let var_1 := 2 * L - var_2 in
              (Hue_2_RGB var_1 var_2 (H + (1 / 3)),
               Hue_2_RGB var_1 var_2 H,
               Hue_2_RGB var_1 var_2 (H - (1 / 3))) in
          (true, mkU8 (float_to_u8 (R * 255)) (float_to_u8 (G * 255))
                      (float_to_u8 (B * 255)) 255)
      | GPI_Gray =>
          let g := float_to_u8 (inject_Z (c1 e) * 255) in
          (true, mkU8 g g g 255)
      end
  end.

(** The sample types [applyScaleAndOffset<T>] is instantiated at. *)
Inductive SampleType := T_float | T_double | T_short | T_int | T_char.

Definition wrap_signed (bits : Z) (z : Z) : Z :=
  ((z + 2 ^ (bits - 1)) mod 2 ^ bits - 2 ^ (bits - 1))%Z.

(** Reading a stored sample as a [T], and [static_cast<T>] of a double.
    Samples of integer buffers are kept as the numbers stored; seen as a
    signed [T] they wrap into its range ([char] is signed here). *)
Definition load_as (T : SampleType) (v : Q) : Q :=
  match T with
  | T_float | T_double => v
  | T_short => inject_Z (wrap_signed 16 (trunc v))
  | T_int => inject_Z (wrap_signed 32 (trunc v))
  | T_char => inject_Z (wrap_signed 8 (trunc v))
  end.

Definition static_cast (T : SampleType) (v : Q) : Q := load_as T v.

(** [applyScaleAndOffset<T>(data, count, scale, offset)]: the first [count]
    samples are rescaled in place. *)
Fixpoint applyScaleAndOffsetT (T : SampleType) (data : list Q) (count : nat)
    (scale offset : Q) : list Q :=
  match count, data with
  | S n, f :: rest =>
      let value := load_as T f * scale + offset in
      static_cast T value :: applyScaleAndOffsetT T rest n scale offset
  | _, _ => data
  end.

(** The dispatch on the buffer type in [detail::rasterIO]. *)
Definition detail_sampleType (eBufType : GDALDataType) : option SampleType :=
  match eBufType with
  | GDT_Float32 => Some T_float
  | GDT_Float64 => Some T_double
  | GDT_Int16 | GDT_UInt16 => Some T_short
  | GDT_Int32 | GDT_UInt32 => Some T_int
  | GDT_Byte => Some T_char
  | _ => None
  end.

(** The buffer after a successful read: the samples GDAL stored, over the
    previous content of the buffer. *)
Definition stored (samples buffer : list Q) : list Q :=
  take (length buffer) (samples ++ drop (length samples) buffer).

(** The resampling algorithm [detail::rasterIO] selects; the extra
    argument is initialised to nearest neighbour, which [NEAREST] keeps. *)
Definition resampleAlgFor (interpolation : Interpolation) : GDALRIOResampleAlg :=
  match interpolation with
  | AVERAGE =>
      (* for some reason gdal's average resampling produces artifacts
         occasionally for imagery at higher levels; bilinear is used. *)
      GRIORA_Bilinear
  | BILINEAR => GRIORA_Bilinear
  | CUBIC => GRIORA_Cubic
  | CUBICSPLINE => GRIORA_CubicSpline
  | NEAREST => GRIORA_NearestNeighbour
  end.

(** [detail::rasterIO]: GDALRasterBand::RasterIO helper method.  [pData]
    is the buffer before the call; the result is the success flag and the
    buffer after the call (unchanged when the read fails). *)
Definition rasterIO (band : GDALRasterBand)
    (nXOff nYOff nXSize nYSize : Q) (pData : list Q)
    (nBufXSize nBufYSize : Z) (eBufType : GDALDataType)
    (interpolation : Interpolation) : bool * list Q :=
  let psExtraArg :=
    {| eResampleAlg := resampleAlgFor interpolation;
       bFloatingPointWindowValidity := true;
       dfXOff := nXOff; dfYOff := nYOff; dfXSize := nXSize; dfYSize := nYSize |} in
  let err :=
    RasterIO band
      {| nXOff := to_int nXOff; nYOff := to_int nYOff;
         nXSize := to_int (ceil nXSize); nYSize := to_int (ceil nYSize);
         nBufXSize := nBufXSize; nBufYSize := nBufYSize;
         eBufType := eBufType; psExtraArg := Some psExtraArg |} in
  match err with
  | None => (false, pData)
  | Some samples =>
      let pData := stored samples pData in
      let scale := GetScale band in
      let offset := GetOffset band in
      if negb (Qeqb scale 1) || negb (Qeqb offset 0) then
        let count := wrap_int32 (nBufXSize * nBufYSize) in
        match detail_sampleType eBufType with
        | Some T => (true, applyScaleAndOffsetT T pData (Z.to_nat count) scale offset)
        | None => (true, pData)
        end
      else (true, pData)
  end.

(** ** Geospatial collaborators *)

(** A spatial reference, as far as the driver inspects it: validity,
    geodetic-ness and its WKT.  Construction and equivalence belong to the
    external SRS capability. *)
Record SRS := mkSRS {
  srs_valid : bool;
  isGeodetic : bool;
  wkt : string
}.

Definition invalidSRS : SRS := mkSRS false false EmptyString.

(** rocky's [Box], restricted to the horizontal bounds. *)
Record Box := mkBox { xmin : Q; ymin : Q; xmax : Q; ymax : Q }.

(** Modelled from the spec: [GeoExtent] (GeoExtent.h/.cpp are not among
    the sources): a box in a spatial reference, with a validity flag; the
    invalid extent stands for an empty intersection. *)
Record GeoExtent := mkGeoExtent {
  ge_valid : bool;
  ge_srs : SRS;
  ge_box : Box
}.

Definition ge_width (e : GeoExtent) : Q := xmax (ge_box e) - xmin (ge_box e).
Definition ge_height (e : GeoExtent) : Q := ymax (ge_box e) - ymin (ge_box e).

(** Modelled from the spec: the constructor [GeoExtent(srs, box)]; an
    extent is valid when its reference is and its box is not inverted. *)
Definition makeGeoExtent (srs : SRS) (b : Box) : GeoExtent :=
  mkGeoExtent (srs_valid srs && Qle_bool (xmin b) (xmax b) && Qle_bool (ymin b) (ymax b))
              srs b.

Definition Qmax (a b : Q) : Q := if Qltb a b then b else a.
Definition Qmin (a b : Q) : Q := if Qltb b a then b else a.

(** Modelled from the spec: [GeoExtent::intersects], the coverage
    predicate: both extents are valid and their boxes overlap. *)
Definition intersects (a b : GeoExtent) : bool :=
  ge_valid a && ge_valid b
  && Qltb (Qmax (xmin (ge_box a)) (xmin (ge_box b)))
          (Qmin (xmax (ge_box a)) (xmax (ge_box b)))
  && Qltb (Qmax (ymin (ge_box a)) (ymin (ge_box b)))
          (Qmin (ymax (ge_box a)) (ymax (ge_box b))).

(** Modelled from the spec: [GeoExtent::intersectionSameSRS], "the
    geometric intersection of the tile's extent and the dataset's extent
    in the same SRS"; the result is invalid when the intersection is
    empty. *)
Definition intersectionSameSRS (a b : GeoExtent) : GeoExtent :=
  if intersects a b then
    mkGeoExtent true (ge_srs a)
      (mkBox (Qmax (xmin (ge_box a)) (xmin (ge_box b)))
             (Qmax (ymin (ge_box a)) (ymin (ge_box b)))
             (Qmin (xmax (ge_box a)) (xmax (ge_box b)))
             (Qmin (ymax (ge_box a)) (ymax (ge_box b))))
  else mkGeoExtent false invalidSRS (mkBox 0 0 0 0).

(** Modelled from the spec: [Profile] (Profile.h/.cpp are not among the
    sources), the "canonical mapping from tile keys to geographic extents
    at each level": validity, reference, extent and the geographic
    dimensions of one tile at a level. *)
Record Profile := mkProfile {
  profile_valid : bool;
  profile_srs : SRS;
  profile_extent : GeoExtent;
  tileDimensions : Z -> Q * Q
}.

Definition invalidProfile : Profile :=
  mkProfile false invalidSRS (mkGeoExtent false invalidSRS (mkBox 0 0 0 0))
            (fun _ => (0, 0)).

(** Modelled from the spec: [TileKey] (TileKey.h/.cpp are not among the
    sources), "level + row/column addressing into the tiling profile;
    derives a geographic extent".  The derived extent is carried with the
    key. *)
Record TileKey := mkTileKey {
  level : Z;
  tile_x : Z;
  tile_y : Z;
  extent : GeoExtent
}.

(** [DataExtent]: an extent with an optional level range. *)
Record DataExtent := mkDataExtent {
  de_extent : GeoExtent;
  de_minLevel : option Z;
  de_maxLevel : option Z
}.

Definition DataExtentList := list DataExtent.

(** [IOOptions], as far as the driver consults it. *)
Record IOOptions := mkIO { canceled : bool }.

(** ** Tiles *)

(** [glm::fvec4] *)
Record fvec4 := mkF4 { r : Q; g : Q; b : Q; a : Q }.

Definition fvec4_div (c : fvec4) (k : Q) : fvec4 :=
  mkF4 (r c / k) (g c / k) (b c / k) (a c / k).

Definition set_a (c : fvec4) (v : Q) : fvec4 := mkF4 (r c) (g c) (b c) v.

Inductive PixelFormat := R8G8B8A8_UNORM | R32_SFLOAT.

(** Modelled from the spec: [Image] (Image.h is not among the sources), a
    "freshly allocated buffer of fixed tileSize x tileSize".  Pixels are
    kept as the colour vectors handed to [write], row by row; the
    single-channel float format keeps the red component only. *)
Record Image := mkImage {
  pixelFormat : PixelFormat;
  img_width : Z;
  img_height : Z;
  img_data : list fvec4
}.

Definition encode (f : PixelFormat) (c : fvec4) : fvec4 :=
  match f with
  | R8G8B8A8_UNORM => c
  | R32_SFLOAT => mkF4 (r c) 0 0 0
  end.

Definition Image_fill (f : PixelFormat) (w h : Z) (c : fvec4) : Image :=
  mkImage f w h (replicate (Z.to_nat (w * h)) (encode f c)).

(** [image->write(c, x, y)] with unsigned coordinates.  A write outside
    the buffer is undefined in the source; the embedding drops it. *)
Definition Image_write (img : Image) (c : fvec4) (x y : Z) : Image :=
  if (0 <=? x)%Z && (x <? img_width img)%Z && (0 <=? y)%Z && (y <? img_height img)%Z
  then mkImage (pixelFormat img) (img_width img) (img_height img)
               (<[Z.to_nat (y * img_width img + x) := encode (pixelFormat img) c]>
                  (img_data img))
  else img.

(** Modelled from the spec: [Heightfield] (Heightfield.h is not among the
    sources), a "fixed-size float buffer"; [heightAt(c, r)] is the sample
    of column [c] in row [r]. *)
Record Heightfield := mkHeightfield {
  hf_width : Z;
  hf_height : Z;
  hf_data : list Q
}.

Definition Heightfield_fill (w h : Z) (v : Q) : Heightfield :=
  mkHeightfield w h (replicate (Z.to_nat (w * h)) v).

Definition set_heightAt (hf : Heightfield) (c r : Z) (v : Q) : Heightfield :=
  if (0 <=? c)%Z && (c <? hf_width hf)%Z && (0 <=? r)%Z && (r <? hf_height hf)%Z
  then mkHeightfield (hf_width hf) (hf_height hf)
                     (<[Z.to_nat (r * hf_width hf + c) := v]> (hf_data hf))
  else hf.

(** [heightAt(c, r)], read. *)
Definition heightAt (hf : Heightfield) (c r : Z) : option Q :=
  if (0 <=? c)%Z && (c <? hf_width hf)%Z && (0 <=? r)%Z && (r <? hf_height hf)%Z
  then hf_data hf !! Z.to_nat (r * hf_width hf + c)
  else None.

(** ** The driver *)

Record URI := mkURI { base : string; full : string }.

(** [GDAL::Options], the layer configuration the driver reads. *)
Record Options := mkOptions {
  uri : option URI;
  connection : option string;
  subDataset : option Z;
  interpolation : Interpolation
}.

(** [GDAL::Driver]: the public validity settings and the state [open]
    establishes.  [_external] is an externally supplied, already open
    dataset. *)
Record Driver := mkDriver {
  noDataValue : option Q;
  minValidValue : option Q;
  maxValidValue : option Q;
  maxDataLevel : option Z;
  _external : option GDALDataset;
  _name : string;
  _layer : Options;
  _srcDS : option GDALDataset;
  _warpedDS : option GDALDataset;
  _geotransform : GeoTransform;
  _invtransform : GeoTransform;
  _profile : Profile;
  _bounds : Box;
  _extents : GeoExtent;
  _linearUnits : Q;
  _pixelIsArea : bool;
  _open : bool
}.

(** The same driver with another interpolation configured. *)
Definition with_interpolation (i : Interpolation) (d : Driver) : Driver :=
  mkDriver (noDataValue d) (minValidValue d) (maxValidValue d) (maxDataLevel d)
           (_external d) (_name d)
           (mkOptions (uri (_layer d)) (connection (_layer d)) (subDataset (_layer d)) i)
           (_srcDS d) (_warpedDS d) (_geotransform d) (_invtransform d) (_profile d)
           (_bounds d) (_extents d) (_linearUnits d) (_pixelIsArea d) (_open d).

(** [option<float>::has_value(v)]: set, and equal to [v]. *)
Definition has_value (o : option Q) (v : Q) : bool :=
  match o with Some x => Qeqb x v | None => false end.

Definition below (o : option Q) (v : Q) : bool :=
  match o with Some m => Qltb v m | None => false end.

Definition above (o : option Q) (v : Q) : bool :=
  match o with Some m => Qgtb v m | None => false end.

(** [isValidValue(float v, GDALRasterBand* band)] *)
Definition isValidValue_band (d : Driver) (v : Q) (band : GDALRasterBand) : bool :=
  let bandNoData :=
    match GetNoDataValue band with Some value => value | None => - 32767 end in
  (* Check to see if the value is equal to the bands specified no data *)
  if Qeqb bandNoData v then false
  (* Check to see if the value is equal to the user specified nodata value *)
  else if has_value (noDataValue d) v then false
  (* Check to see if the user specified a custom min/max *)
  else if below (minValidValue d) v then false
  else if above (maxValidValue d) v then false
  else true.

(** [isValidValue(float v, float noDataValue) const] *)
Definition isValidValue (d : Driver) (v : Q) (noDataValue : Q) : bool :=
  if Qeqb noDataValue v then false
  else if below (minValidValue d) v then false
  else if above (maxValidValue d) v then false
  else true.

Definition getValidElevationValue (d : Driver) (v noDataValueFromBand replacement : Q) : Q :=
  if has_value (noDataValue d) v || Qeqb noDataValueFromBand v then replacement
  else if below (minValidValue d) v then replacement
  else if above (maxValidValue d) v then replacement
  else v.

Definition Driver_intersects (d : Driver) (key : TileKey) : bool :=
  intersects (extent key) (_extents d).

(** ** Tile builders *)

(** The integers [0, 1, ..., n-1], the range of a counting [for] loop. *)
Definition Zrange (n : Z) : list Z := List.map Z.of_nat (seq 0 (Z.to_nat n)).

(** The nested row/column loops of the builders: [step row col] is run
    for every column of every row, rows outermost. *)
Definition for_pixels {A : Type} (width height : Z) (step : Z -> Z -> A -> A)
    (init : A) : A :=
  fold_left
    (fun acc row => fold_left (fun acc col => step row col acc) (Zrange width) acc)
    (Zrange height) init.

(** The loops that bring the intersection's west/east bounds into the
    longitude frame of the dataset, each run for the number of rounds its
    condition holds:
    [while (west < _bounds.xmin) { west += 360.0; east = west + width; }]
    [while (west > _bounds.xmax) { west -= 360.0; east = west + width; }] *)
Fixpoint shift_east (rounds : nat) (west east width bxmin : Q) : Q * Q :=
  match rounds with
  | O => (west, east)
  | S n =>
      if Qltb west bxmin then
        let west := west + 360 in
        shift_east n west (west + width) width bxmin
      else (west, east)
  end.

Fixpoint shift_west (rounds : nat) (west east width bxmax : Q) : Q * Q :=
  match rounds with
  | O => (west, east)
  | S n =>
      if Qgtb west bxmax then
        let west := west - 360 in
        shift_west n west (west + width) width bxmax
      else (west, east)
  end.

Definition rewrap (west east width : Q) (bounds : Box) : Q * Q :=
  let '(west, east) :=
    shift_east (Z.to_nat (Qceiling ((xmin bounds - west) / 360)))
               west east width (xmin bounds) in
  shift_west (Z.to_nat (Qceiling ((west - xmax bounds) / 360)))
             west east width (xmax bounds).

(** The band roles [createImage] resolves. *)
Record BandRoles := mkRoles {
  bandRed : option GDALRasterBand;
  bandGreen : option GDALRasterBand;
  bandBlue : option GDALRasterBand;
  bandAlpha : option GDALRasterBand;
  bandGray : option GDALRasterBand;
  bandPalette : option GDALRasterBand
}.

Definition is_null {A : Type} (o : option A) : bool :=
  match o with Some _ => false | None => true end.

Definition resolveBands (ds : GDALDataset) : BandRoles :=
  let roles :=
    mkRoles (findBandByColorInterp ds GCI_RedBand)
            (findBandByColorInterp ds GCI_GreenBand)
            (findBandByColorInterp ds GCI_BlueBand)
            (findBandByColorInterp ds GCI_AlphaBand)
            (findBandByColorInterp ds GCI_GrayIndex)
            (findBandByColorInterp ds GCI_PaletteIndex) in
  if is_null (bandRed roles) && is_null (bandGreen roles) && is_null (bandBlue roles)
     && is_null (bandAlpha roles) && is_null (bandGray roles)
     && is_null (bandPalette roles)
  then
    (* We couldn't find any valid bands based on the color interp, so just
       make an educated guess based on the number of bands in the file *)
    if (GetRasterCount ds =? 3)%Z then
      mkRoles (GetRasterBand ds 1) (GetRasterBand ds 2) (GetRasterBand ds 3)
              None None None
    else if (GetRasterCount ds =? 4)%Z then
      mkRoles (GetRasterBand ds 1) (GetRasterBand ds 2) (GetRasterBand ds 3)
              (GetRasterBand ds 4) None None
    else if (GetRasterCount ds =? 1)%Z then
      mkRoles None None None None (GetRasterBand ds 1) None
    else if (GetRasterCount ds =? 2)%Z then
      mkRoles None None None (GetRasterBand ds 2) (GetRasterBand ds 1) None
    else roles
  else roles.

(** The source window and the destination placement computed for a tile
    request. *)
Record Window := mkWindow {
  src_min_x : Q; src_min_y : Q; src_width : Q; src_height : Q;
  target_width : Z; target_height : Z;
  tile_offset_left : Z; tile_offset_top : Z
}.

Section TileBuilders.

(** [NO_DATA_VALUE], the nodata sentinel of heightfields; its definition
    (ElevationLayer.h) is not among the sources. *)
Variable NO_DATA_VALUE : Q.

(** The value found in memory the program has not written: a fresh
    [new T[n]] buffer, a local without initialiser. *)
Variable indeterminate : Q.

(** Whether GDAL is 3.10 or later ([GDAL_VERSION_NUM >= 3100000]). *)
Variable GDAL_3_10 : bool.

Definition new_buffer (n : Z) : list Q := replicate (Z.to_nat n) indeterminate.

Definition peek (buf : list Q) (i : Z) : Q :=
  if (i <? 0)%Z then indeterminate
  else match buf !! Z.to_nat i with Some v => v | None => indeterminate end.

(** A sample of an [unsigned char] buffer. *)
Definition byte_at (buf : list Q) (i : Z) : Q := inject_Z (to_u8 (trunc (peek buf i))).

(** A sample of a [short] buffer. *)
Definition short_at (buf : list Q) (i : Z) : Q := load_as T_short (peek buf i).

Definition band_valid (d : Driver) (v : Q) (band : option GDALRasterBand) : bool :=
  match band with Some bnd => isValidValue_band d v bnd | None => true end.

(** The window planning shared by the image branches of [createImage]. *)
Definition planWindow (d : Driver) (ds : GDALDataset) (key : TileKey)
    (tileSize : Z) (intersection : GeoExtent) : Window :=
  (* Get the extents of the tile *)
  let xmin_ := xmin (ge_box (extent key)) in
  let ymax_ := ymax (ge_box (extent key)) in
  let west := xmin (ge_box intersection) in
  let east := xmax (ge_box intersection) in
  let '(west, east) :=
    if isGeodetic (ge_srs (_extents d))
    then rewrap west east (ge_width intersection) (_bounds d)
    else (west, east) in
  (* Get the pixel coordinates of the intersection *)
  let rasterWidth := GetRasterXSize ds in
  let rasterHeight := GetRasterYSize ds in
  let '(src_min_x, src_min_y) :=
    geoToPixel (_invtransform d) rasterWidth rasterHeight
               west (ymax (ge_box intersection)) in
  let '(src_max_x, src_max_y) :=
    geoToPixel (_invtransform d) rasterWidth rasterHeight
               east (ymin (ge_box intersection)) in
  let src_width := src_max_x - src_min_x in
  let src_height := src_max_y - src_min_y in
  let src_width :=
    if Qgtb (src_min_x + src_width) (inject_Z rasterWidth)
    then inject_Z rasterWidth - src_min_x else src_width in
  let src_height :=
    if Qgtb (src_min_y + src_height) (inject_Z rasterHeight)
    then inject_Z rasterHeight - src_min_y else src_height in
  (* Compute the offsets in geo coordinates of the intersection from the TileKey *)
  let offset_left := xmin (ge_box intersection) - xmin_ in
  let offset_top := ymax_ - ymax (ge_box intersection) in
  let target_width :=
    to_int (ceil ((ge_width intersection / ge_width (extent key)) * inject_Z tileSize)) in
  let target_height :=
    to_int (ceil ((ge_height intersection / ge_height (extent key)) * inject_Z tileSize)) in
  let tile_offset_left :=
    to_int (floor ((offset_left / ge_width (extent key)) * inject_Z tileSize)) in
  let tile_offset_top :=
    to_int (floor ((offset_top / ge_height (extent key)) * inject_Z tileSize)) in
  mkWindow src_min_x src_min_y src_width src_height
           target_width target_height tile_offset_left tile_offset_top.

(** One read of [createImage] through [detail::rasterIO]; the success flag
    is not looked at. *)
Definition readBand (band : GDALRasterBand) (w : Window) (buf : list Q)
    (ty : GDALDataType) (interp : Interpolation) : list Q :=
  snd (rasterIO band (src_min_x w) (src_min_y w) (src_width w) (src_height w)
                buf (target_width w) (target_height w) ty interp).

(** The destination of source pixel [(src_col, src_row)]: column and
    vertically flipped row, both unsigned. *)
Definition dst_col (w : Window) (src_col : Z) : Z :=
  wrap_uint32 (tile_offset_left w + src_col).
Definition flippedRow (w : Window) (tileSize src_row : Z) : Z :=
  wrap_uint32 (tileSize - (tile_offset_top w + src_row) - 1).

Definition createImage_rgb (d : Driver) (w : Window) (tileSize : Z)
    (bR bG bB : GDALRasterBand) (bA : option GDALRasterBand) : Image :=
  let n := (target_width w * target_height w)%Z in
  let red := new_buffer n in
  let green := new_buffer n in
  let blue := new_buffer n in
  (* Initialize the alpha values to 255. *)
  let alpha := replicate (Z.to_nat n) 255 in
  let image := Image_fill R8G8B8A8_UNORM tileSize tileSize (mkF4 0 0 0 0) in
  let red := readBand bR w red GDT_Byte (interpolation (_layer d)) in
  let green := readBand bG w green GDT_Byte (interpolation (_layer d)) in
  let blue := readBand bB w blue GDT_Byte (interpolation (_layer d)) in
  let alpha :=
    match bA with
    | Some bnd => readBand bnd w alpha GDT_Byte (interpolation (_layer d))
    | None => alpha
    end in
  for_pixels (target_width w) (target_height w)
    (fun src_row src_col image =>
       let i := (src_col + src_row * target_width w)%Z in
       let c := fvec4_div (mkF4 (byte_at red i) (byte_at green i)
                                (byte_at blue i) (byte_at alpha i)) 255 in
       let c :=
         if negb (isValidValue_band d (r c) bR)
            || negb (isValidValue_band d (g c) bG)
            || negb (isValidValue_band d (b c) bB)
            || negb (band_valid d (a c) bA)
         then set_a c 0 else c in
       Image_write image c (dst_col w src_col) (flippedRow w tileSize src_row))
    image.

Definition createImage_gray (d : Driver) (w : Window) (tileSize : Z)
    (bGray : GDALRasterBand) (bA : option GDALRasterBand) : Image :=
  let n := (target_width w * target_height w)%Z in
  (* This might be single-channel elevation data ... try to detect that
     by assuming 16- or 32-bit data is elevation. *)
  let gdalDataType := GetRasterDataType bGray in
  let isElevation :=
    match gdalDataType with
    | GDT_Int16 | GDT_UInt16 | GDT_Float32 => true
    | _ => false
    end in
  if isElevation then
    let image := Image_fill R32_SFLOAT tileSize tileSize
                   (mkF4 NO_DATA_VALUE NO_DATA_VALUE NO_DATA_VALUE NO_DATA_VALUE) in
    match gdalDataType with
    | GDT_Int16 =>
        let temp := new_buffer n in
        let temp := readBand bGray w temp gdalDataType (interpolation (_layer d)) in
        let noDataValueFromBand :=
          match GetNoDataValue bGray with
          | Some v => static_cast T_short v
          | None => - 32767
          end in
        for_pixels (target_width w) (target_height w)
          (fun src_row src_col image =>
             let v := short_at temp (src_col + src_row * target_width w) in
             let v := getValidElevationValue d v noDataValueFromBand NO_DATA_VALUE in
             Image_write image (mkF4 v indeterminate indeterminate indeterminate)
                         (dst_col w src_col) (flippedRow w tileSize src_row))
          image
    | _ =>
        let temp := new_buffer n in
        let temp := readBand bGray w temp gdalDataType (interpolation (_layer d)) in
        let noDataValueFromBand :=
          match GetNoDataValue bGray with
          | Some v => v
          | None => NO_DATA_VALUE
          end in
        for_pixels (target_width w) (target_height w)
          (fun src_row src_col image =>
             let v := peek temp (src_col + src_row * target_width w) in
             let v := getValidElevationValue d v noDataValueFromBand NO_DATA_VALUE in
             Image_write image (mkF4 v indeterminate indeterminate indeterminate)
                         (dst_col w src_col) (flippedRow w tileSize src_row))
          image
    end
  else
    (* grey + alpha color *)
    let image := Image_fill R8G8B8A8_UNORM tileSize tileSize (mkF4 0 0 0 0) in
    let gray := new_buffer n in
    let alpha :=
      match bA with
      | Some _ => Some (replicate (Z.to_nat n) 255)
      | None => None
      end in
    let gray := readBand bGray w gray GDT_Byte (interpolation (_layer d)) in
    let alpha :=
      match bA, alpha with
      | Some bnd, Some buf =>
          Some (readBand bnd w buf GDT_Byte (interpolation (_layer d)))
      | _, _ => alpha
      end in
    for_pixels (target_width w) (target_height w)
      (fun src_row src_col image =>
         let i := (src_col + src_row * target_width w)%Z in
         let v := byte_at gray i in
         let al := match alpha with Some buf => byte_at buf i | None => 255 end in
         let c := mkF4 v v v al in
         let c :=
           if negb (isValidValue_band d (r c) bGray) || negb (band_valid d (a c) bA)
           then set_a c 0 else c in
         let c := fvec4_div c 255 in
         Image_write image c (dst_col w src_col) (flippedRow w tileSize src_row))
      image.

Definition fvec4_of_u8 (c : u8vec4) : fvec4 :=
  mkF4 (inject_Z (u8r c)) (inject_Z (u8g c)) (inject_Z (u8b c)) (inject_Z (u8a c)).

(** The colour the palette branch writes for palette index [p]. *)
Definition paletteColor (d : Driver) (bPalette : GDALRasterBand) (p : Z) : fvec4 :=
  let '(found, color) := getPalleteIndexColor bPalette p in
  let color :=
    if negb found then mkU8 (u8r color) (u8g color) (u8b color) 0
    else if negb (isValidValue_band d (inject_Z (u8r color)) bPalette)
         (* is this applicable for palettized data? *)
    then mkU8 (u8r color) (u8g color) (u8b color) 0
    else color in
  fvec4_div (fvec4_of_u8 color) 255.

Definition createImage_palette (d : Driver) (w : Window) (tileSize : Z)
    (bPalette : GDALRasterBand) : Image :=
  let n := (target_width w * target_height w)%Z in
  (* Palette indexed imagery doesn't support interpolation currently and
     only uses nearest b/c interpolating palette indexes doesn't make sense. *)
  let palette := new_buffer n in
  let image := Image_fill R8G8B8A8_UNORM tileSize tileSize (mkF4 0 0 0 0) in
  let palette := readBand bPalette w palette GDT_Byte NEAREST in
  for_pixels (target_width w) (target_height w)
    (fun src_row src_col image =>
       let p := to_u8 (trunc (peek palette (src_col + src_row * target_width w))) in
       Image_write image (paletteColor d bPalette p)
                   (dst_col w src_col) (flippedRow w tileSize src_row))
    image.

(** [GDAL::Driver::createImage].  The outer [option] is [None] where the
    source dereferences a null [_warpedDS]. *)
Definition createImage (d : Driver) (key : TileKey) (tileSize : Z) (io : IOOptions)
    : option (Result Image) :=
  if match maxDataLevel d with Some m => (level key >? m)%Z | None => false end
  then Some (Failure ResourceUnavailable)
  else if canceled io then Some (Failure ResourceUnavailable)
  else
    (* Compute the intersection of the incoming key with the data extents
       of the dataset *)
    let intersection := intersectionSameSRS (extent key) (_extents d) in
    if negb (ge_valid intersection) then Some (Failure ResourceUnavailable)
    else
      match _warpedDS d with
      | None => None
      | Some ds =>
          let w := planWindow d ds key tileSize intersection in
          (* Return if parameters are out of range. *)
          if Qle_bool (src_width w) 0 || Qle_bool (src_height w) 0
             || (target_width w <=? 0)%Z || (target_height w <=? 0)%Z
          then Some (Failure ResourceUnavailable)
          else
            let roles := resolveBands ds in
            match bandRed roles, bandGreen roles, bandBlue roles with
            | Some bR, Some bG, Some bB =>
                Some (Ok (createImage_rgb d w tileSize bR bG bB (bandAlpha roles)))
            | _, _, _ =>
                match bandGray roles with
                | Some bGray =>
                    Some (Ok (createImage_gray d w tileSize bGray (bandAlpha roles)))
                | None =>
                    match bandPalette roles with
                    | Some bPalette =>
                        Some (Ok (createImage_palette d w tileSize bPalette))
                    | None => Some (Failure ResourceUnavailable)
                    end
                end
            end
      end.

(** The dispatch on the buffer type in the heightfield's own
    [applyScaleAndOffset(band, pData, eBufType, nBufXSize, nBufYSize)]. *)
Definition sampleType (eBufType : GDALDataType) : option SampleType :=
  match eBufType with
  | GDT_Float32 => Some T_float
  | GDT_Float64 => Some T_double
  | GDT_Int16 => Some T_short
  | GDT_Int32 => Some T_int
  | GDT_Byte => Some T_char
  | _ => None
  end.

Definition applyScaleAndOffset (band : GDALRasterBand) (pData : list Q)
    (eBufType : GDALDataType) (nBufXSize nBufYSize : Z) : list Q :=
  let scale := GetScale band in
  let offset := GetOffset band in
  if negb (Qeqb scale 1) || negb (Qeqb offset 0) then
    let count := wrap_int32 (nBufXSize * nBufYSize) in
    match sampleType eBufType with
    | Some T => applyScaleAndOffsetT T pData (Z.to_nat count) scale offset
    | None => pData
    end
  else pData.

Definition getInterpolatedDEMValueWorkspace (d : Driver) (band : GDALRasterBand)
    (u v : Q) (data : list Q) (width height : Z) : Q :=
  (* extract the no-data value: *)
  let noDataValue :=
    match GetNoDataValue band with Some value => value | None => - 32767 end in
  (* clamp our sampling unit coordinates to the valid range
     note: (u,v) progresses from north/+y at the top to south/-y at the bottom. *)
  let c := clamp u 0 1 * inject_Z width in
  let r := clamp v 0 1 * inject_Z height in
  if Interpolation_eqb (interpolation (_layer d)) NEAREST then
    let x := to_int (clamp c 0 (inject_Z width - 1)) in
    let y := to_int (clamp r 0 (inject_Z height - 1)) in
    let result := peek data (y * width + x) in
    if negb (isValidValue d result noDataValue) then NO_DATA_VALUE else result
  else
    (* Get the four nearest pixels: *)
    let col_min := clampZ (to_int (floor c)) 0 (width - 1) in
    let col_max := clampZ (to_int (ceil c)) 0 (width - 1) in
    let row_min := clampZ (to_int (floor r)) 0 (height - 1) in
    let row_max := clampZ (to_int (ceil r)) 0 (height - 1) in
    let NW := peek data (row_min * width + col_min) in
    let NE := peek data (row_min * width + col_max) in
    let SW := peek data (row_max * width + col_min) in
    let SE := peek data (row_max * width + col_max) in
    if negb (isValidValue d NW noDataValue) || negb (isValidValue d NE noDataValue)
       || negb (isValidValue d SW noDataValue) || negb (isValidValue d SE noDataValue)
    then NO_DATA_VALUE
    else
      let west_weight := clamp ((inject_Z col_max + (1 # 2)) - c) 0 1 in
      let south_weight := clamp ((inject_Z row_max + (1 # 2)) - r) 0 1 in
      if Interpolation_eqb (interpolation (_layer d)) AVERAGE then
        let h0 := west_weight * south_weight * SW in
        let h1 := west_weight * (1 - south_weight) * NW in
        let h2 := (1 - west_weight) * south_weight * SE in
        let h3 := (1 - west_weight) * (1 - south_weight) * NE in
        h0 + h1 + h2 + h3
      else
        let south := west_weight * SW + (1 - west_weight) * SE in
        let north := west_weight * NW + (1 - west_weight) * NE in
        south_weight * south + (1 - south_weight) * north.

(** The algorithm handed to [InterpolateAtPoint] (GDAL 3.10 and later). *)
Definition pointAlgFor (interpolation : Interpolation) : GDALRIOResampleAlg :=
  match interpolation with
  | AVERAGE => GRIORA_Average
  | BILINEAR => GRIORA_Bilinear
  | CUBIC => GRIORA_Cubic
  | CUBICSPLINE => GRIORA_CubicSpline
  | NEAREST => GRIORA_NearestNeighbour
  end.

(** A one-sample read into a [float] local holding [before]; the success
    flag of [detail::rasterIO] is not looked at. *)
Definition readSample (band : GDALRasterBand) (col row : Q) (before : Q) : Q :=
  peek (snd (rasterIO band col row 1 1 [before] 1 1 GDT_Float32 NEAREST)) 0.

Definition getInterpolatedDEMValue (d : Driver) (ds : GDALDataset)
    (band : GDALRasterBand) (x y : Q) (applyOffset : bool) : Q :=
  let '(c, r) := geoToPixel (_invtransform d) (GetRasterXSize ds) (GetRasterYSize ds) x y in
  let fast :=
    if GDAL_3_10
    then InterpolateAtPoint band c r (pointAlgFor (interpolation (_layer d)))
    else None in
  match fast with
  | Some realPart => realPart
  | None =>
      let xs := inject_Z (GetRasterXSize ds) in
      let ys := inject_Z (GetRasterYSize ds) in
      let '(c, r) :=
        if applyOffset then
          (* Apply half pixel offset *)
          let r := r - (1 # 2) in
          let c := c - (1 # 2) in
          (* If we are within a half pixel above or a half pixel below the
             dataset just use the edge values *)
          let c :=
            if Qltb c 0 && Qgeb c (- (1 # 2)) then 0
            else if Qgtb c (xs - 1) && Qle_bool c (xs - (1 # 2)) then xs - 1
            else c in
          let r :=
            if Qltb r 0 && Qgeb r (- (1 # 2)) then 0
            else if Qgtb r (ys - 1) && Qle_bool r (ys - (1 # 2)) then ys - 1
            else r in
          (c, r)
        else (c, r) in
      (* If the location is outside of the pixel values of the dataset,
         just return 0 *)
      if Qltb c 0 || Qltb r 0 || Qgtb c (xs - 1) || Qgtb r (ys - 1)
      then NO_DATA_VALUE
      else if Interpolation_eqb (interpolation (_layer d)) NEAREST then
        let result := readSample band (round c) (round r) 0 in
        if negb (isValidValue_band d result band) then NO_DATA_VALUE else result
      else
        let rowMin := Z.max (to_int (floor r)) 0 in
        let rowMax := Z.max (Z.min (to_int (ceil r)) (wrap_int32 (GetRasterYSize ds - 1))) 0 in
        let colMin := Z.max (to_int (floor c)) 0 in
        let colMax := Z.max (Z.min (to_int (ceil c)) (wrap_int32 (GetRasterXSize ds - 1))) 0 in
        let rowMin := if (rowMin >? rowMax)%Z then rowMax else rowMin in
        let colMin := if (colMin >? colMax)%Z then colMax else colMin in
        let llHeight := readSample band (inject_Z colMin) (inject_Z rowMin) indeterminate in
        let ulHeight := readSample band (inject_Z colMin) (inject_Z rowMax) indeterminate in
        let lrHeight := readSample band (inject_Z colMax) (inject_Z rowMin) indeterminate in
        let urHeight := readSample band (inject_Z colMax) (inject_Z rowMax) indeterminate in
        if negb (isValidValue_band d urHeight band) || negb (isValidValue_band d llHeight band)
           || negb (isValidValue_band d ulHeight band) || negb (isValidValue_band d lrHeight band)
        then NO_DATA_VALUE
        else
          match interpolation (_layer d) with
          | AVERAGE =>
              let x_rem := c - inject_Z (to_int c) in
              let y_rem := r - inject_Z (to_int r) in
              let w00 := (1 - y_rem) * (1 - x_rem) * llHeight in
              let w01 := (1 - y_rem) * x_rem * lrHeight in
              let w10 := y_rem * (1 - x_rem) * ulHeight in
              let w11 := y_rem * x_rem * urHeight in
              w00 + w01 + w10 + w11
          | BILINEAR =>
              (* Check for exact value *)
              if (colMax =? colMin)%Z && (rowMax =? rowMin)%Z then llHeight
              else if (colMax =? colMin)%Z then
                (* Linear interpolate vertically *)
                (inject_Z rowMax - r) * llHeight + (r - inject_Z rowMin) * ulHeight
              else if (rowMax =? rowMin)%Z then
                (* Linear interpolate horizontally *)
                (inject_Z colMax - c) * llHeight + (c - inject_Z colMin) * lrHeight
              else
                (* Bilinear interpolate *)
                let r1 := (inject_Z colMax - c) * llHeight + (c - inject_Z colMin) * lrHeight in
                let r2 := (inject_Z colMax - c) * ulHeight + (c - inject_Z colMin) * urHeight in
                (inject_Z rowMax - r) * r1 + (r - inject_Z rowMin) * r2
          | _ => 0
          end
  end.

(** The branch of [createHeightfield] taken for area convention with an
    interpolation other than nearest: one call of
    [getInterpolatedDEMValue] per output sample. *)
Definition sampleByPoint (d : Driver) (ds : GDALDataset) (band : GDALRasterBand)
    (tileSize : Z) (tile_xmin tile_ymin dx dy : Q) (hf : Heightfield) : Heightfield :=
  for_pixels tileSize tileSize
    (fun r c hf =>
       let y := tile_ymin + dy * inject_Z r in
       let x := tile_xmin + dx * inject_Z c in
       let h := getInterpolatedDEMValue d ds band x y true * _linearUnits d in
       set_heightAt hf c r h)
    hf.

(** One output sample of the workspace branch: the height of column [c]
    in row [r], looked up in the workspace, whose pixels cover the box
    [buf] of geographic coordinates. *)
Definition workspaceHeight (d : Driver) (band : GDALRasterBand)
    (tile_xmin tile_ymin dx dy : Q) (buf : Box) (workspace : list Q)
    (workspace_width workspace_height : Z) (r c : Z) : Q :=
  (* Just to deal with floating point precision issues *)
  let epsilon := 1 # 1000000 in
  let y := tile_ymin + dy * inject_Z r in
  let v := (y - ymin buf) / (ymax buf - ymin buf) in
  let v := if equiv v 0 epsilon then 0 else v in
  let x := tile_xmin + dx * inject_Z c in
  let u := (x - xmin buf) / (xmax buf - xmin buf) in
  let u := if equiv u 0 epsilon then 0 else u in
  (* invert v since the buffer from rasterio is top-down: *)
  getInterpolatedDEMValueWorkspace d band u (1 - v) workspace
    workspace_width workspace_height * _linearUnits d.

(** The window of source pixels the workspace branch reads. *)
Definition workspaceWindow (d : Driver) (ds : GDALDataset) (band : GDALRasterBand)
    (tile_xmin tile_ymin tile_xmax tile_ymax : Q) : Z * Z * Z * Z :=
  (* Calculate the pixel extents of the tile: *)
  let '(tile_col_min, tile_row_max) :=
    geoToPixel (_invtransform d) (GetRasterXSize ds) (GetRasterYSize ds)
               tile_xmin tile_ymin in
  let '(tile_col_max, tile_row_min) :=
    geoToPixel (_invtransform d) (GetRasterXSize ds) (GetRasterYSize ds)
               tile_xmax tile_ymax in
  let ws_buffer := 1 # 2 in
  let col_min := to_int (Qmax 0 (floor (tile_col_min - ws_buffer))) in
  let col_max := to_int (Qmin (ceil (tile_col_max + ws_buffer)) (inject_Z (GetXSize band) - 1)) in
  let row_min := to_int (Qmax 0 (floor (tile_row_min - ws_buffer))) in
  let row_max := to_int (Qmin (ceil (tile_row_max + ws_buffer)) (inject_Z (GetYSize band) - 1)) in
  (col_min, col_max, row_min, row_max).

(** The other branch: one windowed read into the workspace, then one
    workspace lookup per output sample, then the band's scale and offset. *)
Definition sampleByWorkspace (d : Driver) (ds : GDALDataset) (band : GDALRasterBand)
    (tileSize : Z) (tile_xmin tile_ymin tile_xmax tile_ymax dx dy : Q)
    (hf : Heightfield) : Result Heightfield :=
  let '(col_min, col_max, row_min, row_max) :=
    workspaceWindow d ds band tile_xmin tile_ymin tile_xmax tile_ymax in
  (* Allocate a read workspace for RasterIO. *)
  let workspace_width := wrap_int32 tileSize in
  let workspace_height := wrap_int32 tileSize in
  let workspace :=
    replicate (Z.to_nat (workspace_width * workspace_height)) NO_DATA_VALUE in
  (* Read the data, filling the workspace vector from north to south: *)
  let read_error :=
    RasterIO band
      {| nXOff := col_min; nYOff := row_min;
         nXSize := wrap_int32 (col_max - col_min + 1);
         nYSize := wrap_int32 (row_max - row_min + 1);
         nBufXSize := workspace_width; nBufYSize := workspace_height;
         eBufType := GDT_Float32; psExtraArg := None |} in
  match read_error with
  | None => Failure ResourceUnavailable
  | Some samples =>
      let workspace := stored samples workspace in
      (* Calculate the actual extents of the pixel data in buffer.
         The "+1"s expand the maximums to include the full extent of the
         last pixel *)
      let '(buf_xmin, buf_ymin) :=
        pixelToGeo (_geotransform d) (inject_Z col_min) (inject_Z (wrap_int32 (row_max + 1))) in
      let '(buf_xmax, buf_ymax) :=
        pixelToGeo (_geotransform d) (inject_Z (wrap_int32 (col_max + 1))) (inject_Z row_min) in
      (* Fill the heightfield by transforming the tile's coordinates to the
         buffer's coordinates and sampling the buffer. *)
      let hf :=
        for_pixels tileSize tileSize
          (fun r c hf =>
             set_heightAt hf c r
               (workspaceHeight d band tile_xmin tile_ymin dx dy
                  (mkBox buf_xmin buf_ymin buf_xmax buf_ymax) workspace
                  workspace_width workspace_height r c))
          hf in
      (* Apply any scale/offset found in the source: *)
      Ok (mkHeightfield (hf_width hf) (hf_height hf)
            (applyScaleAndOffset band (hf_data hf) GDT_Float32 tileSize tileSize))
  end.

(** [GDAL::Driver::createHeightfield].  The outer [option] is [None] where
    the source dereferences a null [_warpedDS] or a null first band. *)
Definition createHeightfield (d : Driver) (key : TileKey) (tileSize : Z)
    (io : IOOptions) : option (Result Heightfield) :=
  if match maxDataLevel d with Some m => (level key >? m)%Z | None => false end
  then Some (Failure ResourceUnavailable)
  else if canceled io then Some (Failure ResourceUnavailable)
  else
    (* Compute the intersection of the incoming key with the data extents
       of the dataset *)
    let intersection := intersectionSameSRS (extent key) (_extents d) in
    if negb (ge_valid intersection) then Some (Failure ResourceUnavailable)
    else
      (* Allocate the heightfield *)
      let hf := Heightfield_fill tileSize tileSize NO_DATA_VALUE in
      (* Extract the extents of the tile *)
      let tile_xmin := xmin (ge_box (extent key)) in
      let tile_ymin := ymin (ge_box (extent key)) in
      let tile_xmax := xmax (ge_box (extent key)) in
      let tile_ymax := ymax (ge_box (extent key)) in
      (* Sampling intervals: *)
      let dx := (tile_xmax - tile_xmin) / inject_Z (wrap_uint32 (tileSize - 1)) in
      let dy := (tile_ymax - tile_ymin) / inject_Z (wrap_uint32 (tileSize - 1)) in
      match _warpedDS d with
      | None => None
      | Some ds =>
          (* Assume the first band contains our data *)
          match GetRasterBand ds 1 with
          | None => None
          | Some band =>
              if _pixelIsArea d
                 && negb (Interpolation_eqb (interpolation (_layer d)) NEAREST)
              then
                (* Note. This method always works, but it's slow. *)
                Some (Ok (sampleByPoint d ds band tileSize tile_xmin tile_ymin dx dy hf))
              else
                Some (sampleByWorkspace d ds band tileSize
                        tile_xmin tile_ymin tile_xmax tile_ymax dx dy hf)
          end
      end.

End TileBuilders.

(** ** Dataset bootstrap *)

(** Assignments to the members [open] establishes. *)
Definition set_maxDataLevel (v : option Z) (d : Driver) : Driver :=
  mkDriver (noDataValue d) (minValidValue d) (maxValidValue d) v (_external d)
           (_name d) (_layer d) (_srcDS d) (_warpedDS d) (_geotransform d)
           (_invtransform d) (_profile d) (_bounds d) (_extents d)
           (_linearUnits d) (_pixelIsArea d) (_open d).
Definition set__name (v : string) (d : Driver) : Driver :=
  mkDriver (noDataValue d) (minValidValue d) (maxValidValue d)
           (maxDataLevel d) (_external d) v (_layer d) (_srcDS d)
           (_warpedDS d) (_geotransform d) (_invtransform d) (_profile d)
           (_bounds d) (_extents d) (_linearUnits d) (_pixelIsArea d)
           (_open d).
Definition set__layer (v : Options) (d : Driver) : Driver :=
  mkDriver (noDataValue d) (minValidValue d) (maxValidValue d)
           (maxDataLevel d) (_external d) (_name d) v (_srcDS d) (_warpedDS d)
           (_geotransform d) (_invtransform d) (_profile d) (_bounds d)
           (_extents d) (_linearUnits d) (_pixelIsArea d) (_open d).
Definition set__srcDS (v : option GDALDataset) (d : Driver) : Driver :=
  mkDriver (noDataValue d) (minValidValue d) (maxValidValue d)
           (maxDataLevel d) (_external d) (_name d) (_layer d) v (_warpedDS d)
           (_geotransform d) (_invtransform d) (_profile d) (_bounds d)
           (_extents d) (_linearUnits d) (_pixelIsArea d) (_open d).
Definition set__warpedDS (v : option GDALDataset) (d : Driver) : Driver :=
  mkDriver (noDataValue d) (minValidValue d) (maxValidValue d)
           (maxDataLevel d) (_external d) (_name d) (_layer d) (_srcDS d) v
           (_geotransform d) (_invtransform d) (_profile d) (_bounds d)
           (_extents d) (_linearUnits d) (_pixelIsArea d) (_open d).
Definition set__geotransform (v : GeoTransform) (d : Driver) : Driver :=
  mkDriver (noDataValue d) (minValidValue d) (maxValidValue d)
           (maxDataLevel d) (_external d) (_name d) (_layer d) (_srcDS d)
           (_warpedDS d) v (_invtransform d) (_profile d) (_bounds d)
           (_extents d) (_linearUnits d) (_pixelIsArea d) (_open d).
Definition set__invtransform (v : GeoTransform) (d : Driver) : Driver :=
  mkDriver (noDataValue d) (minValidValue d) (maxValidValue d)
           (maxDataLevel d) (_external d) (_name d) (_layer d) (_srcDS d)
           (_warpedDS d) (_geotransform d) v (_profile d) (_bounds d)
           (_extents d) (_linearUnits d) (_pixelIsArea d) (_open d).
Definition set__profile (v : Profile) (d : Driver) : Driver :=
  mkDriver (noDataValue d) (minValidValue d) (maxValidValue d)
           (maxDataLevel d) (_external d) (_name d) (_layer d) (_srcDS d)
           (_warpedDS d) (_geotransform d) (_invtransform d) v (_bounds d)
           (_extents d) (_linearUnits d) (_pixelIsArea d) (_open d).
Definition set__bounds (v : Box) (d : Driver) : Driver :=
  mkDriver (noDataValue d) (minValidValue d) (maxValidValue d)
           (maxDataLevel d) (_external d) (_name d) (_layer d) (_srcDS d)
           (_warpedDS d) (_geotransform d) (_invtransform d) (_profile d) v
           (_extents d) (_linearUnits d) (_pixelIsArea d) (_open d).
Definition set__extents (v : GeoExtent) (d : Driver) : Driver :=
  mkDriver (noDataValue d) (minValidValue d) (maxValidValue d)
           (maxDataLevel d) (_external d) (_name d) (_layer d) (_srcDS d)
           (_warpedDS d) (_geotransform d) (_invtransform d) (_profile d)
           (_bounds d) v (_linearUnits d) (_pixelIsArea d) (_open d).
Definition set__linearUnits (v : Q) (d : Driver) : Driver :=
  mkDriver (noDataValue d) (minValidValue d) (maxValidValue d)
           (maxDataLevel d) (_external d) (_name d) (_layer d) (_srcDS d)
           (_warpedDS d) (_geotransform d) (_invtransform d) (_profile d)
           (_bounds d) (_extents d) v (_pixelIsArea d) (_open d).
Definition set__open (v : bool) (d : Driver) : Driver :=
  mkDriver (noDataValue d) (minValidValue d) (maxValidValue d)
           (maxDataLevel d) (_external d) (_name d) (_layer d) (_srcDS d)
           (_warpedDS d) (_geotransform d) (_invtransform d) (_profile d)
           (_bounds d) (_extents d) (_linearUnits d) (_pixelIsArea d) v.

(** The external capabilities [open] calls: opening a dataset by name,
    the warped virtual view, inversion of a geotransform ([None] when it
    is singular), construction and comparison of spatial references,
    construction of profiles, reprojection of an extent, and the trimmed
    text of the [.prj] file next to a source (when it can be read and is
    not empty). *)
Record External := mkExternal {
  GDALOpen : string -> option GDALDataset;
  GDALAutoCreateWarpedVRT : GDALDataset -> string -> string -> option GDALDataset;
  GDALInvGeoTransform : GeoTransform -> option GeoTransform;
  SRS_of : string -> SRS;
  equivalentTo : SRS -> SRS -> bool;
  Profile_of_SRS : SRS -> Profile;
  Profile_of_SRS_Box : SRS -> Box -> Profile;
  transform : GeoExtent -> SRS -> GeoExtent;
  read_prj : string -> option string
}.

Definition string_empty (s : string) : bool :=
  match s with EmptyString => true | _ => false end.

Definition startsWith (s pre : string) : bool := String.prefix pre s.

Definition toLower_ascii (c : Ascii.ascii) : Ascii.ascii :=
  let n := Ascii.nat_of_ascii c in
  if (65 <=? n)%nat && (n <=? 90)%nat then Ascii.ascii_of_nat (n + 32) else c.

Fixpoint toLower (s : string) : string :=
  match s with
  | EmptyString => EmptyString
  | String c rest => String (toLower_ascii c) (toLower rest)
  end.

(** [CSLFetchNameValue]: the value of the first entry with that name. *)
Fixpoint CSLFetchNameValue (l : list (string * string)) (name : string) : option string :=
  match l with
  | [] => None
  | (n, v) :: rest => if String.eqb n name then Some v else CSLFetchNameValue rest name
  end.

(** [CPLStrdup]: a copy; of a null pointer, the empty string. *)
Definition CPLStrdup (s : option string) : string :=
  match s with Some v => v | None => EmptyString end.

Definition decimal (z : Z) : string := NilZero.string_of_int (Z.to_int z).

(** The index of the sub-dataset [open] reopens, given the number of
    entries of the [SUBDATASETS] metadata list. *)
Definition subDatasetIndex (layer : Options) (numSubDatasets : Z) : Z :=
  let subDataset :=
    match subDataset layer with
    | Some v => wrap_int32 v   (* static_cast<int> *)
    | None => 1%Z
    end in
  if (subDataset <? 1)%Z || (subDataset >? numSubDatasets)%Z then 1%Z else subDataset.

(** Create the source dataset: [GDALOpen], then the reopening of a
    sub-dataset when the source exposes some. *)
Definition openSource (E : External) (layer : Options) (input : string)
    : option GDALDataset :=
  match GDALOpen E input with
  | Some srcDS =>
      let subDatasets := SUBDATASETS srcDS in
      let numSubDatasets := Z.of_nat (length subDatasets) in
      if (numSubDatasets >? 0)%Z then
        let subDataset := subDatasetIndex layer numSubDatasets in
        let buf := ("SUBDATASET_" ++ decimal subDataset ++ "_NAME")%string in
        let pszSubdatasetName := CPLStrdup (CSLFetchNameValue subDatasets buf) in
        GDALOpen E pszSubdatasetName
      else Some srcDS
  | None => None
  end.

(** The loop of the maximum-level computation:
    [while (w >= maxResolution && h >= maxResolution)
       { maxDataLevel = maxDataLevel.value() + 1; w *= 0.5, h *= 0.5; }]
    run for at most [rounds] rounds. *)
Fixpoint halve (rounds : nat) (maxDataLevel : Z) (w h maxResolution : Q) : Z :=
  match rounds with
  | O => maxDataLevel
  | S n =>
      if Qgeb w maxResolution && Qgeb h maxResolution
      then halve n (wrap_uint32 (maxDataLevel + 1)) (w * (1 # 2)) (h * (1 # 2)) maxResolution
      else maxDataLevel
  end.

(** A number of rounds after which the loop has left: [w] halved that
    often is below a positive [maxResolution]. *)
Definition halvings (w maxResolution : Q) : nat :=
  Z.to_nat (Z.log2_up (Qceiling (w / maxResolution)) + 1).

(** Compute the min and max data levels *)
Definition computeMaxDataLevel (maxDataLevel : option Z) (maxResolution : Q)
    (dims0 : Q * Q) (tileSize : Z) : option Z :=
  match maxDataLevel with
  | Some v => Some v   (* nop *)
  | None =>
      if Qgtb maxResolution 0 then
        (* calculate the maximum LOD at which to use GDAL to read data *)
        let w := fst dims0 / inject_Z tileSize in
        let h := snd dims0 / inject_Z tileSize in
        Some (halve (halvings w maxResolution) 0%Z w h maxResolution)
      else Some 1%Z
  end.

(** The extent clamping of [open]; the result is the bounds and the local
    [clamped] flag. *)
Definition clampBounds (geodetic is_area : bool) (bounds : Box)
    (resolutionX resolutionY : Q) : Box * bool :=
  let clamped := false in
  if geodetic then
    let bounds :=
      if is_area && (Qltb (xmin bounds) (- 180) || Qgtb (xmax bounds) 180)
      then mkBox (xmin bounds + resolutionX * (1 # 2)) (ymin bounds)
                 (xmax bounds - resolutionX * (1 # 2)) (ymax bounds)
      else bounds in
    let '(bounds, clamped) :=
      if Qgtb (xmax bounds - xmin bounds) 360
      then (mkBox (- 180) (ymin bounds) 180 (ymax bounds), true)
      else (bounds, clamped) in
    let bounds :=
      if is_area && (Qltb (ymin bounds) (- 90) || Qgtb (ymax bounds) 90)
      then mkBox (xmin bounds) (ymin bounds + resolutionY * (1 # 2))
                 (xmax bounds) (ymax bounds - resolutionY * (1 # 2))
      else bounds in
    let '(bounds, clamped) :=
      if Qgtb (ymax bounds - ymin bounds) 180
      then (mkBox (xmin bounds) (- 90) (xmax bounds) 90, true)
      else (bounds, clamped) in
    (bounds, clamped)
  else (bounds, clamped).

(** The data bounds [open] derives from the final geotransform: the
    geographic positions of the two diagonal raster corners. *)
Definition cornerBounds (gt : GeoTransform) (ds : GDALDataset) : Box :=
  let '(minX, minY) := pixelToGeo gt 0 (inject_Z (GetRasterYSize ds)) in
  let '(maxX, maxY) := pixelToGeo gt (inject_Z (GetRasterXSize ds)) 0 in
  mkBox minX minY maxX maxY.

(** The per-pixel resolutions [open] computes from the data bounds:
    [(maxX - minX) / (double)GetRasterXSize()] and its vertical
    counterpart. *)
Definition resolutionX (gt : GeoTransform) (ds : GDALDataset) : Q :=
  (xmax (cornerBounds gt ds) - xmin (cornerBounds gt ds)) / inject_Z (GetRasterXSize ds).
Definition resolutionY (gt : GeoTransform) (ds : GDALDataset) : Q :=
  (ymax (cornerBounds gt ds) - ymin (cornerBounds gt ds)) / inject_Z (GetRasterYSize ds).

Definition is_area_of (srcDS : GDALDataset) : bool :=
  match AREA_OR_POINT srcDS with
  | Some pora => String.eqb (toLower pora) "area"
  | None => false
  end.

(** The last part of [open], from the inversion of the geotransform on,
    once the final sampling dataset [warpedDS] exists. *)
Definition finishOpen (E : External) (d : Driver) (srcDS warpedDS : GDALDataset)
    (warpedSRSWKT : string) (tileSize : Z) (layerDataExtents : option DataExtentList)
    : StatusCode * Driver * option DataExtentList :=
  (* calculate the inverse of the geotransform: *)
  let d :=
    match GDALInvGeoTransform E (_geotransform d) with
    | Some inv => set__invtransform inv d
    | None => d
    end in
  let corners := cornerBounds (_geotransform d) warpedDS in
  let minX := xmin corners in let minY := ymin corners in
  let maxX := xmax corners in let maxY := ymax corners in
  (* If we don't have a profile yet, that means this is a projected dataset
     so we will create the profile from the actual data extents. *)
  let d :=
    if negb (profile_valid (_profile d)) then
      let srs := SRS_of E warpedSRSWKT in
      if srs_valid srs
      then set__profile (Profile_of_SRS_Box E srs (mkBox minX minY maxX maxY)) d
      else d
    else d in
  if negb (profile_valid (_profile d)) then (GeneralError, d, layerDataExtents)
  else
    (* Compute the min and max data levels *)
    let resolutionX := resolutionX (_geotransform d) warpedDS in
    let resolutionY := resolutionY (_geotransform d) warpedDS in
    let maxResolution := Qmin resolutionX resolutionY in
    let d :=
      set_maxDataLevel
        (computeMaxDataLevel (maxDataLevel d) maxResolution
                             (tileDimensions (_profile d) 0) tileSize) d in
    let srs := SRS_of E warpedSRSWKT in
    (* record the data extent in profile space: *)
    let bounds := mkBox minX minY maxX maxY in
    let is_area := is_area_of srcDS in
    let '(bounds, clamped) :=
      clampBounds (isGeodetic srs) is_area bounds resolutionX resolutionY in
    let d := set__bounds bounds d in
    let d := set__extents (makeGeoExtent srs (_bounds d)) d in
    let layerDataExtents :=
      match layerDataExtents with
      | Some l =>
          let profile_extent := transform E (_extents d) (profile_srs (_profile d)) in
          (* Use the extents of the whole file. *)
          Some (l ++ [match maxDataLevel d with
                      | Some m => mkDataExtent profile_extent (Some 0%Z) (Some m)
                      | None => mkDataExtent profile_extent None None
                      end])
      | None => None
      end in
    (* Get the linear units of the SRS for scaling elevation values *)
    let d := set__linearUnits 1 d in
    let d := set__open true d in
    (NoError, d, layerDataExtents).

(** The source connection [open] works with. *)
Definition sourceOf (layer : Options) : string :=
  match uri layer, connection layer with
  | Some u, _ =>
      (* Use the base instead of the full if this is a gdal virtual file system *)
      if startsWith (base u) "/vsi" || startsWith (base u) "<"
      then base u else full u
  | None, Some c => c
  | None, None => EmptyString
  end.

(** The first part of [open]: [_srcDS] is the dataset opened from the
    layer's source, or the externally supplied one. *)
Definition acquireSource (E : External) (layer : Options) (source : string)
    (d : Driver) : StatusCode * Driver :=
  match _external d with
  | None =>
      let input := match uri layer with Some u => full u | None => source end in
      if string_empty input then (ResourceUnavailable, d)
      else
        (* Create the source dataset: *)
        let d := set__srcDS (openSource E layer input) d in
        if is_null (_srcDS d) then (ResourceUnavailable, d) else (NoError, d)
  | Some dataset => (NoError, set__srcDS (Some dataset) d)
  end.

(** Establish the source spatial reference: *)
Definition sourceSRS (E : External) (srcDS : GDALDataset) (source : string) : SRS :=
  let srcProj := GetProjectionRef srcDS in
  (* If the projection is empty and we have GCP's then use the GCP projection. *)
  let srcProj :=
    if string_empty srcProj && (GetGCPCount srcDS >? 0)%Z
    then CPLStrdup (GetGCPProjection srcDS) else srcProj in
  let src_srs := if negb (string_empty srcProj) then SRS_of E srcProj else invalidSRS in
  (* still no luck? try to read a .prj file: *)
  if negb (srs_valid src_srs) then
    match read_prj E source with
    | Some data => SRS_of E data
    | None => src_srs
    end
  else src_srs.

(** The middle part of [open]: geotransform, profile of a geographic
    source, and the final sampling dataset [_warpedDS] with the WKT of its
    spatial reference. *)
Definition prepareSampling (E : External) (d : Driver) (srcDS : GDALDataset)
    (src_srs : SRS) : StatusCode * Driver * string :=
  (* These are the actual extents of the data: *)
  let hasGeoTransform := fst (GetGeoTransform srcDS) in
  let d := set__geotransform (snd (GetGeoTransform srcDS)) d in
  let hasGCP := (GetGCPCount srcDS >? 0)%Z && negb (is_null (GetGCPProjection srcDS)) in
  let isRotated :=
    hasGeoTransform
    && (negb (Qeqb (g2 (_geotransform d)) 0) || negb (Qeqb (g4 (_geotransform d)) 0)) in
  let requiresReprojection := hasGCP || isRotated in
  (* For a geographic SRS, use the whole-globe profile for performance.
     Otherwise, collect information and make the profile later. *)
  let d := if isGeodetic src_srs then set__profile (Profile_of_SRS E src_srs) d else d in
  if isGeodetic src_srs && negb (profile_valid (_profile d))
  then (ResourceUnavailable, d, EmptyString)
  else
    (* no xform an geographic? Match the profile. *)
    let d :=
      if isGeodetic src_srs && negb hasGeoTransform then
        let e := profile_extent (_profile d) in
        set__geotransform
          (mkGT (xmin (ge_box e))
                (ge_width e / inject_Z (GetRasterXSize srcDS))
                0
                (ymax (ge_box e))
                0
                (- ge_height e / inject_Z (GetRasterYSize srcDS))) d
      else d in
    (* Handle some special cases. *)
    if requiresReprojection
       || (profile_valid (_profile d)
           && negb (equivalentTo E (profile_srs (_profile d)) src_srs))
    then
      let destWKT :=
        if profile_valid (_profile d) then wkt (profile_srs (_profile d))
        else wkt src_srs in
      let d := set__warpedDS (GDALAutoCreateWarpedVRT E srcDS (wkt src_srs) destWKT) d in
      match _warpedDS d with
      | Some w =>
          (NoError, set__geotransform (snd (GetGeoTransform w)) d, GetProjectionRef w)
      | None => (GeneralError, d, EmptyString)
      end
    else
      let d := set__warpedDS (Some srcDS) d in
      (* re-read the extents from the new DS: *)
      (NoError, set__geotransform (snd (GetGeoTransform srcDS)) d, wkt src_srs).

(** [GDAL::Driver::open]: open the data source and prepare it for
    reading.  The result is the status, the driver as the call leaves it,
    and the caller's extent list. *)
Definition open (E : External) (d : Driver) (name : string) (layer : Options)
    (tileSize : Z) (layerDataExtents : option DataExtentList) (io : IOOptions)
    : StatusCode * Driver * option DataExtentList :=
  let d := set__layer layer (set__name name d) in
  (* Is a valid external GDAL dataset specified ? *)
  let useExternalDataset := negb (is_null (_external d)) in
  let uri_missing :=
    match uri layer with Some u => string_empty (full u) | None => true end in
  let connection_missing :=
    match connection layer with Some c => string_empty c | None => true end in
  if negb useExternalDataset && uri_missing && connection_missing
  then (ConfigurationError, d, layerDataExtents)
  else
    (* source connection: *)
    let source := sourceOf layer in
    match acquireSource E layer source d with
    | (NoError, d) =>
        match _srcDS d with
        | None => (ResourceUnavailable, d, layerDataExtents)
        | Some srcDS =>
            let src_srs := sourceSRS E srcDS source in
            if negb (srs_valid src_srs) then (ResourceUnavailable, d, layerDataExtents)
            else
              match prepareSampling E d srcDS src_srs with
              | (NoError, d, warpedSRSWKT) =>
                  match _warpedDS d with
                  | None => (GeneralError, d, layerDataExtents)
                  | Some warpedDS =>
                      finishOpen E d srcDS warpedDS warpedSRSWKT tileSize layerDataExtents
                  end
              | (code, d, _) => (code, d, layerDataExtents)
              end
        end
    | (code, d) => (code, d, layerDataExtents)
    end.

(** ** Decoding an image held in memory ([GDAL::readImage])

    [readImage] hands the bytes to GDAL as a file in memory, opens it with
    the named driver, and copies the bands into a fresh image.  The name
    of the temporary file and the release of the handles are left out. *)

Module InMemory.

(** The pixel formats [readImage] selects among. *)
Inductive PixelFormat :=
  | UNDEFINED | R8_SRGB | R8G8B8_SRGB | R8G8B8A8_SRGB | R32_SFLOAT.

(** Modelled from the spec: [Image::numComponents] (Image.h is not among
    the sources); the spec lists the buffers as "single-channel float",
    "8-bit gray, 8-bit RGB, 8-bit RGBA". *)
Definition numComponents (f : PixelFormat) : Z :=
  match f with
  | UNDEFINED => 0
  | R8_SRGB => 1
  | R8G8B8_SRGB => 3
  | R8G8B8A8_SRGB => 4
  | R32_SFLOAT => 1
  end.

(** Modelled from the spec: the image [Image::create(format, width,
    height)] allocates, as the component buffer [readImage] writes
    through [data<unsigned char>()] and [data<float>()]: the components of
    the pixels one after another, row by row. *)
Record Image := mkImage {
  pixelFormat : PixelFormat;
  width : Z;
  height : Z;
  components : list Q
}.

Section ReadImage.

(** The value found in memory the program has not written. *)
Variable indeterminate : Q.

(** [VSIFileFromMemBuffer] followed by [GDALOpenEx] with the named driver:
    the dataset decoded from the bytes, when both succeed. *)
Variable GDALOpenEx : list Byte.byte -> string -> option GDALDataset.

(** [Image::create(format, width, height)]: a buffer of
    [numComponents] components per pixel that nothing has been written
    to yet. *)
Definition create (format : PixelFormat) (width height : Z) : Image :=
  mkImage format width height
          (replicate (Z.to_nat (width * height * numComponents format)) indeterminate).

(** [band->RasterIO(GF_Read, 0, 0, width, height, ..., width, height,
    type, ...)] without resampling request. *)
Definition readAll (band : GDALRasterBand) (width height : Z) (ty : GDALDataType)
    : option (list Q) :=
  RasterIO band
    {| nXOff := 0; nYOff := 0; nXSize := width; nYSize := height;
       nBufXSize := width; nBufYSize := height;
       eBufType := ty; psExtraArg := None |}.

(** The samples of a read stored from position [pos] on, [spacing]
    positions apart (the pixel spacing handed to [RasterIO]). *)
Fixpoint scatter (samples data : list Q) (pos spacing : nat) : list Q :=
  match samples with
  | [] => data
  | s :: rest => scatter rest (<[pos := s]> data) (pos + spacing) spacing
  end.

(** One of the reads of the colour branch:
    [if (X) { X->RasterIO(..., data + (offset++), ..., GDT_Byte, spacing, 0, nullptr); }];
    the status of the read is only asserted on. *)
Definition readChannel (band : option GDALRasterBand) (width height spacing : Z)
    (st : list Q * Z) : list Q * Z :=
  let '(data, offset) := st in
  match band with
  | Some X =>
      (match readAll X width height GDT_Byte with
       | Some samples =>
           scatter (take (Z.to_nat (width * height)) samples) data
                   (Z.to_nat offset) (Z.to_nat spacing)
       | None => data
       end,
       (offset + 1)%Z)
  | None => (data, offset)
  end.

(** One round of the loop of the palette branch: the four components of
    the colour of palette index [temp[i]] are stored at [offset]. *)
Definition paletteStep (P : GDALRasterBand) (temp : list Q) (st : list Q * Z) (i : Z)
    : list Q * Z :=
  let '(data, offset) := st in
  let color := snd (getPalleteIndexColor P (to_u8 (trunc (peek indeterminate temp i)))) in
  let data := <[Z.to_nat offset := inject_Z (u8r color)]> data in
  let data := <[Z.to_nat (offset + 1) := inject_Z (u8g color)]> data in
  let data := <[Z.to_nat (offset + 2) := inject_Z (u8b color)]> data in
  let data := <[Z.to_nat (offset + 3) := inject_Z (u8a color)]> data in
  (data, (offset + 4)%Z).

(** The loop of the palette branch, over [count] palette indices. *)
Definition expandPalette (P : GDALRasterBand) (temp data : list Q) (count : Z) : list Q :=
  fst (fold_left (paletteStep P temp) (Zrange count) (data, 0%Z)).

(** [GDAL::readImage]: [None] is the null image pointer the source
    returns when nothing could be decoded.  The loop of the grey branch,
    [*ptr = *ptr * value_scale + value_offset] over the first
    [width * height] floats, is the computation of
    [applyScaleAndOffset<float>]. *)
Definition readImage (data : list Byte.byte) (name : string) : option Image :=
  match GDALOpenEx data name with
  | None => None
  | Some ds =>
      let width := GetRasterXSize ds in
      let height := GetRasterYSize ds in
      let R := findBandByColorInterp ds GCI_RedBand in
      let G := findBandByColorInterp ds GCI_GreenBand in
      let B := findBandByColorInterp ds GCI_BlueBand in
      let A := findBandByColorInterp ds GCI_AlphaBand in
      let M := findBandByColorInterp ds GCI_GrayIndex in
      let P := findBandByColorInterp ds GCI_PaletteIndex in
      let has {X : Type} (o : option X) := negb (is_null o) in
      (* Note: we are assuming sRGB encoding by default for RGB! *)
      let format :=
        if has P then R8G8B8A8_SRGB
        else if has M then R32_SFLOAT
        else if has R && negb (has G) && negb (has B) && negb (has A) then R8_SRGB
        else if has R && has G && negb (has B) && negb (has A) then R8G8B8_SRGB
        else if has R && has G && has B && negb (has A) then R8G8B8_SRGB
        else if has R && has G && has B && has A then R8G8B8A8_SRGB
        else UNDEFINED in
      match format with
      | UNDEFINED => None
      | _ =>
          let result := create format width height in
          let spacing := numComponents format in
          let count := wrap_int32 (width * height) in
          match P, M with
          | Some P, _ =>
              let temp := new_buffer indeterminate count in
              let temp :=
                match readAll P width height GDT_Byte with
                | Some samples => stored samples temp
                | None => temp
                end in
              Some (mkImage format width height
                      (expandPalette P temp (components result) count))
          | None, Some M =>
              let value_scale := GetScale M in
              let value_offset := GetOffset M in
              let data :=
                match readAll M width height GDT_Float32 with
                | Some samples => stored samples (components result)
                | None => components result
                end in
              Some (mkImage format width height
                      (applyScaleAndOffsetT T_float data (Z.to_nat count)
                                            value_scale value_offset))
          | None, None =>
              let st := (components result, 0%Z) in
              let st := readChannel R width height spacing st in
              let st := readChannel G width height spacing st in
              let st := readChannel B width height spacing st in
              let st := readChannel A width height spacing st in
              Some (mkImage format width height (fst st))
          end
      end
  end.

End ReadImage.

End InMemory.

(** ** Concrete datasets

    A small world of datasets on which the driver can be run. *)

Module Demo.

Local Open Scope string_scope.

Definition wgs84 : SRS := mkSRS true true "WGS84".

Definition globe : GeoExtent := makeGeoExtent wgs84 (mkBox (- 180) (- 90) 180 90).

(** The whole-globe geographic profile: two tiles of 180 x 180 degrees at
    level 0, halved at every level. *)
Definition globalGeodetic : Profile :=
  mkProfile true wgs84 globe
            (fun lod => (180 / inject_Z (2 ^ lod), 180 / inject_Z (2 ^ lod))).

Definition noTable : GDALColorTable := mkColorTable GPI_RGB [].

(** A band every read of which stores the sample [v]. *)
Definition constantBand (ci : GDALColorInterp) (ty : GDALDataType)
    (nodata : option Q) (scale offset : Q) (table : GDALColorTable)
    (w h : Z) (v : Q) : GDALRasterBand :=
  mkBand ci nodata scale offset ty table w h
         (fun args => Some (replicate (Z.to_nat (nBufXSize args * nBufYSize args)) v))
         (fun _ _ _ => None).

(** A band every read of which fails. *)
Definition failingBand (ty : GDALDataType) (w h : Z) : GDALRasterBand :=
  mkBand GCI_GrayIndex None 1 0 ty noTable w h (fun _ => None) (fun _ _ _ => None).

(** Exact inversion of a geotransform; singular transforms have none. *)
Definition invert (gt : GeoTransform) : option GeoTransform :=
  let det := g1 gt * g5 gt - g2 gt * g4 gt in
  if Qeqb det 0 then None
  else
    let inv_det := 1 / det in
    Some (mkGT ((g2 gt * g3 gt - g0 gt * g5 gt) * inv_det)
               (g5 gt * inv_det)
               (- g2 gt * inv_det)
               ((- g1 gt * g3 gt + g0 gt * g4 gt) * inv_det)
               (- g4 gt * inv_det)
               (g1 gt * inv_det)).

Fixpoint lookup_file (files : list (string * GDALDataset)) (name : string)
    : option GDALDataset :=
  match files with
  | [] => None
  | (n, ds) :: rest => if String.eqb n name then Some ds else lookup_file rest name
  end.

(** A world holding the given files, in which WGS84 is the only spatial
    reference and no warping is available. *)
Definition world (files : list (string * GDALDataset)) : External :=
  mkExternal (lookup_file files)
             (fun _ _ _ => None)
             invert
             (fun def => if String.eqb def "WGS84" then wgs84 else invalidSRS)
             (fun s1 s2 => String.eqb (wkt s1) (wkt s2))
             (fun srs => if isGeodetic srs then globalGeodetic else invalidProfile)
             (fun srs box => mkProfile (srs_valid srs) srs (makeGeoExtent srs box)
                                       (fun _ => (xmax box - xmin box, ymax box - ymin box)))
             (fun e _ => e)
             (fun _ => None).

(** A driver as constructed, before [open]. *)
Definition freshDriver : Driver :=
  mkDriver None None None None None EmptyString (mkOptions None None None AVERAGE)
           None None (mkGT 0 1 0 0 0 1) (mkGT 0 1 0 0 0 1) invalidProfile
           (mkBox 0 0 0 0) (mkGeoExtent false invalidSRS (mkBox 0 0 0 0)) 1 false false.

Definition fileLayer (path : string) (interp : Interpolation) : Options :=
  mkOptions (Some (mkURI path path)) None None interp.

(** A geographic raster of [w] x [h] pixels with the given geotransform,
    pixel convention and bands. *)
Definition geographic (gt : GeoTransform) (w h : Z) (pora : option string)
    (bands : list GDALRasterBand) : GDALDataset :=
  mkDataset [] "WGS84" 0 None (true, gt) w h pora bands.

(** A 10 x 5 raster declaring the bounds [-190, 190] x [-90, 90] with
    area convention: pixels of 38 x 36 degrees. *)
Definition coarseGlobe : GDALDataset :=
  geographic (mkGT (- 190) 38 0 90 0 (- 36)) 10 5 (Some "Area")
             [constantBand GCI_GrayIndex GDT_Byte None 1 0 noTable 10 5 7].

(** A 40 x 20 raster declaring the same bounds: pixels of 9.5 x 9 degrees. *)
Definition fineGlobe : GDALDataset :=
  geographic (mkGT (- 190) (19 # 2) 0 90 0 (- 9)) 40 20 (Some "Area")
             [constantBand GCI_GrayIndex GDT_Byte None 1 0 noTable 40 20 7].

(** A container exposing three sub-datasets: six metadata entries. *)
Definition container : GDALDataset :=
  mkDataset [("SUBDATASET_1_NAME", "sub1"); ("SUBDATASET_1_DESC", "first");
             ("SUBDATASET_2_NAME", "sub2"); ("SUBDATASET_2_DESC", "second");
             ("SUBDATASET_3_NAME", "sub3"); ("SUBDATASET_3_DESC", "third")]
            EmptyString 0 None (false, mkGT 0 1 0 0 0 1) 512 512 None [].

(** The globe at one degree per pixel, [-180, 180] x [-90, 90]. *)
Definition degreeGT : GeoTransform := mkGT (- 180) 1 0 90 0 (- 1).
Definition degreeInv : GeoTransform := mkGT 180 1 0 90 0 (- 1).

(** A driver opened on [ds], covering the whole globe at one degree per
    pixel. *)
Definition openedOn (ds : GDALDataset) (interp : Interpolation) (pixelIsArea : bool)
    : Driver :=
  mkDriver None None None (Some 8%Z) None "demo" (fileLayer "demo.tif" interp)
           (Some ds) (Some ds) degreeGT degreeInv globalGeodetic
           (mkBox (- 180) (- 90) 180 90) globe 1 pixelIsArea true.

(** The tile of the western hemisphere at level 0, and a tile east of the
    globe's extent. *)
Definition westKey : TileKey :=
  mkTileKey 0 0 0 (makeGeoExtent wgs84 (mkBox (- 180) (- 90) 0 90)).
Definition outsideKey : TileKey :=
  mkTileKey 0 2 0 (makeGeoExtent wgs84 (mkBox 180 (- 90) 360 90)).

(** A palette raster whose colour table is empty: no index has an entry. *)
Definition paletteBand : GDALRasterBand :=
  constantBand GCI_PaletteIndex GDT_Byte None 1 0 noTable 360 180 3.
Definition paletteGlobe : GDALDataset :=
  geographic degreeGT 360 180 (Some "Area") [paletteBand].

(** Elevation rasters: one whose reads fail, and one holding its own
    nodata value everywhere, with the given scale and offset. *)
Definition brokenDEM : GDALDataset :=
  geographic degreeGT 360 180 (Some "Area") [failingBand GDT_Float32 360 180].

(** The globe at one degree per pixel, and the same grid stored south-up
    (rows running northwards, a positive row step). *)
Definition degreeGlobe : GDALDataset :=
  geographic degreeGT 360 180 (Some "Area")
             [constantBand GCI_GrayIndex GDT_Byte None 1 0 noTable 360 180 7].
Definition southUp : GDALDataset :=
  geographic (mkGT (- 180) 1 0 (- 90) 0 1) 360 180 (Some "Area")
             [constantBand GCI_GrayIndex GDT_Byte None 1 0 noTable 360 180 7].

Definition files : list (string * GDALDataset) :=
  [("coarse.tif", coarseGlobe); ("fine.tif", fineGlobe);
   ("degree.tif", degreeGlobe); ("southup.tif", southUp);
   ("container.nc", container);
   ("sub1", coarseGlobe); ("sub2", fineGlobe); ("sub3", degreeGlobe)].

(** [open] of a file of this world by a fresh driver. *)
Definition openFile (path : string) (tileSize : Z)
    : StatusCode * Driver * option DataExtentList :=
  open (world files) freshDriver path (fileLayer path AVERAGE) tileSize
       (Some []) (mkIO false).

(** A tile of 2 x 2 degrees north-east of the origin, at level 8. *)
Definition smallKey : TileKey :=
  mkTileKey 8 0 0 (makeGeoExtent wgs84 (mkBox 0 0 2 2)).

(** The largest finite [float], whose negation serves as sentinel. *)
Definition FLT_MAX : Q := inject_Z (2 ^ 128 - 2 ^ 104).

End Demo.

(** ** More concrete datasets *)

Module Gallery.

Local Open Scope string_scope.

(** A colour raster of the globe: an orange red/green/blue triple, every
    band declaring 255 as its nodata value. *)
Definition redBand : GDALRasterBand :=
  Demo.constantBand GCI_RedBand GDT_Byte (Some 255) 1 0 Demo.noTable 360 180 255.
Definition greenBand : GDALRasterBand :=
  Demo.constantBand GCI_GreenBand GDT_Byte (Some 255) 1 0 Demo.noTable 360 180 128.
Definition blueBand : GDALRasterBand :=
  Demo.constantBand GCI_BlueBand GDT_Byte (Some 255) 1 0 Demo.noTable 360 180 0.
Definition rgbGlobe : GDALDataset :=
  Demo.geographic Demo.degreeGT 360 180 (Some "Area") [redBand; greenBand; blueBand].

(** An elevation raster of the globe, 100 everywhere. *)
Definition plateauBand : GDALRasterBand :=
  Demo.constantBand GCI_GrayIndex GDT_Float32 (Some (- 9999)) 1 0 Demo.noTable 360 180 100.
Definition plateau (pora : string) : GDALDataset :=
  Demo.geographic Demo.degreeGT 360 180 (Some pora) [plateauBand].

(** The tile of the eastern hemisphere reaching beyond the globe's east
    edge: only its western half intersects the data. *)
Definition eastKey : TileKey :=
  mkTileKey 0 1 0 (makeGeoExtent Demo.wgs84 (mkBox 90 (- 90) 270 90)).

(** A raster whose geotransform is singular. *)
Definition flat : GDALDataset :=
  Demo.geographic (mkGT 0 0 0 0 0 0) 360 180 (Some "Area")
    [Demo.constantBand GCI_GrayIndex GDT_Byte None 1 0 Demo.noTable 360 180 7].

Definition files : list (string * GDALDataset) := ("flat.tif", flat) :: Demo.files.

(** A fresh driver with a configured maximum data level. *)
Definition cappedDriver : Driver := set_maxDataLevel (Some 5%Z) Demo.freshDriver.

(** A fresh driver handed an open dataset without spatial reference. *)
Definition externalDriver : Driver :=
  mkDriver None None None None (Some Demo.container) EmptyString
           (mkOptions None None None AVERAGE)
           None None (mkGT 0 1 0 0 0 1) (mkGT 0 1 0 0 0 1) invalidProfile
           (mkBox 0 0 0 0) (mkGeoExtent false invalidSRS (mkBox 0 0 0 0)) 1 false false.

(** A band of a 2 x 1 image every read of which stores the given samples. *)
Definition listBand (ci : GDALColorInterp) (ty : GDALDataType) (scale offset : Q)
    (table : GDALColorTable) (samples : list Q) : GDALRasterBand :=
  mkBand ci None scale offset ty table 2 1 (fun _ => Some samples) (fun _ _ _ => None).

Definition image2x1 (bands : list GDALRasterBand) : GDALDataset :=
  mkDataset [] EmptyString 0 None (false, mkGT 0 1 0 0 0 1) 2 1 None bands.

Definition rgbaImage : GDALDataset :=
  image2x1 [listBand GCI_RedBand GDT_Byte 1 0 Demo.noTable [10; 20];
            listBand GCI_GreenBand GDT_Byte 1 0 Demo.noTable [30; 40];
            listBand GCI_BlueBand GDT_Byte 1 0 Demo.noTable [50; 60];
            listBand GCI_AlphaBand GDT_Byte 1 0 Demo.noTable [255; 0]].

(** A palette image: index 0 has an entry, index 7 has none. *)
Definition paletteImage : GDALDataset :=
  image2x1 [listBand GCI_PaletteIndex GDT_Byte 1 0
              (mkColorTable GPI_RGB [mkEntry 1 2 3 4]) [0; 7]].

Definition grayImage : GDALDataset :=
  image2x1 [listBand GCI_GrayIndex GDT_Float32 2 1 Demo.noTable [5; 6]].

(** A palette raster of the globe whose colour table has an entry for
    index 0 only, and whose reads store the indices 0 and 7 in turn. *)
Definition stripedBand : GDALRasterBand :=
  mkBand GCI_PaletteIndex None 1 0 GDT_Byte
         (mkColorTable GPI_RGB [mkEntry 10 20 30 255]) 360 180
         (fun args =>
            Some (List.map (fun i => if Nat.even i then 0 else 7 : Q)
                    (seq 0 (Z.to_nat (nBufXSize args * nBufYSize args)))))
         (fun _ _ _ => None).
Definition stripedGlobe : GDALDataset :=
  Demo.geographic Demo.degreeGT 360 180 (Some "Area") [stripedBand].


(** A decoder that knows three drivers by name. *)
Definition decode (bytes : list Byte.byte) (name : string) : option GDALDataset :=
  if String.eqb name "rgba" then Some rgbaImage
  else if String.eqb name "palette" then Some paletteImage
  else if String.eqb name "gray" then Some grayImage
  else None.

End Gallery.

(** ** Notions used in the statements *)

(** A heightfield of [T] x [T] samples, and the position of the sample of
    column [c] in row [r] in its buffer. *)
Definition hf_shape (T : Z) (hf : Heightfield) : Prop :=
  hf_width hf = T /\ hf_height hf = T /\ length (hf_data hf) = Z.to_nat (T * T).

Definition cell (T r c : Z) : nat := Z.to_nat (r * T + c).

(** The assignment [hf->heightAt(c, r) = f r c] of the sampling loops. *)
Definition put_height (f : Z -> Z -> Q) (r : Z) (hf : Heightfield) (c : Z) : Heightfield :=
  set_heightAt hf c r (f r c).



(** What a successful [open] leaves in the driver, in terms of that
    driver's own state. *)
Definition established (maxDataLevel0 : option Z) (tileSize : Z) (d' : Driver) : Prop :=
  exists srcDS warpedDS,
    _srcDS d' = Some srcDS /\ _warpedDS d' = Some warpedDS /\ _open d' = true /\
    let gt := _geotransform d' in
    maxDataLevel d' =
      computeMaxDataLevel maxDataLevel0
        (Qmin (resolutionX gt warpedDS) (resolutionY gt warpedDS))
        (tileDimensions (_profile d') 0) tileSize
    /\ _bounds d' =
         fst (clampBounds (isGeodetic (ge_srs (_extents d'))) (is_area_of srcDS)
                (cornerBounds gt warpedDS)
                (resolutionX gt warpedDS) (resolutionY gt warpedDS)).

(** A request that passes the gates of the tile builders: the level is
    within the maximum data level, the request is not cancelled, the tile
    intersects the dataset, and the sampling dataset [ds] is there. *)
Definition served (d : Driver) (ds : GDALDataset) (key : TileKey) (io : IOOptions)
    : Prop :=
  match maxDataLevel d with Some m => (level key <= m)%Z | None => True end
  /\ canceled io = false
  /\ intersects (extent key) (_extents d) = true
  /\ _warpedDS d = Some ds.

(** ** Values of the floating-point types

    The statements that depend on an arithmetic result being exact say so
    through these predicates: a rational is a value of a binary
    floating-point format when it is [m * 2^e] with [|m| < 2^prec],
    [e >= emin] and a magnitude below [2^emax].  Where the exact result of
    an operation on such values is again such a value, IEEE arithmetic
    delivers it unrounded. *)
Definition dyadic (prec emin emax : Z) (q : Q) : bool :=
  let n := Z.abs (Qnum (Qred q)) in
  let d := Z.pos (Qden (Qred q)) in
  let k := Z.log2 d in
  (d =? 2 ^ k)%Z
  && (k <=? - emin)%Z
  && (n mod 2 ^ Z.max 0 (Z.log2 n + 1 - prec) =? 0)%Z
  && (Z.log2 n - k <? emax)%Z.

(** The values of a [double] and of a [float]. *)
Definition binary64 (q : Q) : bool := dyadic 53 (- 1074) 1024 q.
Definition binary32 (q : Q) : bool := dyadic 24 (- 149) 128 q.

(** The arithmetic by which [open] arrives at the per-pixel resolution and
    at the level-0 tile dimensions per pixel is exact: the coefficients,
    the raster size and the tile dimensions are doubles, and so is the
    result of every operation on them, in the order the source performs
    them ([pixelToGeo] at the two corners, the two differences, the four
    divisions); and the resolution is large enough for the halvings not to
    underflow. *)
Definition level_arithmetic_exact (gt : GeoTransform) (ds : GDALDataset)
    (dims0 : Q * Q) (tileSize : Z) : bool :=
  let W := inject_Z (GetRasterXSize ds) in
  let H := inject_Z (GetRasterYSize ds) in
  let c := cornerBounds gt ds in
  forallb binary64
    [g0 gt; g1 gt; g2 gt; g3 gt; g4 gt; g5 gt; W; H;
     g2 gt * H; g0 gt + g2 gt * H; g5 gt * H; g3 gt + g5 gt * H;
     g1 gt * W; g0 gt + g1 gt * W; g4 gt * W; g3 gt + g4 gt * W;
     xmax c - xmin c; resolutionX gt ds; ymax c - ymin c; resolutionY gt ds;
     fst dims0; snd dims0; inject_Z tileSize;
     fst dims0 / inject_Z tileSize; snd dims0 / inject_Z tileSize]
  && Qle_bool (1 # (2 ^ 1021)) (Qmin (resolutionX gt ds) (resolutionY gt ds)).

(** What [detail::rasterIO] hands to the band when the bilinear algorithm
    is selected, and what it makes of the band's answer: the buffer as it
    was when the read failed, and otherwise the samples stored and, for a
    band with scale or offset, rescaled in place. *)
Definition bilinearRequest (nXOff nYOff nXSize nYSize : Q) (nBufXSize nBufYSize : Z)
    (eBufType : GDALDataType) : RasterIOArgs :=
  {| nXOff := to_int nXOff; nYOff := to_int nYOff;
     nXSize := to_int (ceil nXSize); nYSize := to_int (ceil nYSize);
     nBufXSize := nBufXSize; nBufYSize := nBufYSize;
     eBufType := eBufType;
     psExtraArg :=
       Some {| eResampleAlg := GRIORA_Bilinear;
               bFloatingPointWindowValidity := true;
               dfXOff := nXOff; dfYOff := nYOff; dfXSize := nXSize; dfYSize := nYSize |} |}.

Definition finishRead (band : GDALRasterBand) (pData : list Q) (nBufXSize nBufYSize : Z)
    (eBufType : GDALDataType) (answer : option (list Q)) : bool * list Q :=
  match answer with
  | None => (false, pData)
  | Some samples =>
      if negb (Qeqb (GetScale band) 1) || negb (Qeqb (GetOffset band) 0) then
        match detail_sampleType eBufType with
        | Some T =>
            (true, applyScaleAndOffsetT T (stored samples pData)
                     (Z.to_nat (wrap_int32 (nBufXSize * nBufYSize)))
                     (GetScale band) (GetOffset band))
        | None => (true, stored samples pData)
        end
      else (true, stored samples pData)
  end.

(** A band that declares neither a scale nor an offset: its samples reach
    the buffers as GDAL stores them. *)
Definition unscaled (band : GDALRasterBand) : Prop :=
  GetScale band == 1 /\ GetOffset band == 0.


(** ** Notions used in the further properties *)

(** The pixel of column [x] in row [y] of an image, read. *)
Definition pixelAt (img : Image) (x y : Z) : option fvec4 :=
  if (0 <=? x)%Z && (x <? img_width img)%Z && (0 <=? y)%Z && (y <? img_height img)%Z
  then img_data img !! Z.to_nat (y * img_width img + x)
  else None.

(** An image of [T] x [T] pixels. *)
Definition img_shape (T : Z) (img : Image) : Prop :=
  img_width img = T /\ img_height img = T /\ length (img_data img) = Z.to_nat (T * T).

(** A destination window that lies inside a tile of [T] x [T] pixels. *)
Definition placed (w : Window) (T : Z) : Prop :=
  (0 <= tile_offset_left w)%Z /\ (0 <= tile_offset_top w)%Z /\
  (0 <= target_width w)%Z /\ (0 <= target_height w)%Z /\
  (tile_offset_left w + target_width w <= T)%Z /\
  (tile_offset_top w + target_height w <= T)%Z /\
  (T < 2147483648)%Z.

(** The pixel of column [x] in row [y] of the tile is one the destination
    window covers; rows are counted from the bottom of the tile there. *)
Definition in_window (w : Window) (T x y : Z) : Prop :=
  (tile_offset_left w <= x < tile_offset_left w + target_width w)%Z /\
  (tile_offset_top w <= T - 1 - y < tile_offset_top w + target_height w)%Z.

(** The loop every branch of [createImage] ends with: the colour of each
    source pixel of the window is written at its destination in the tile. *)
Definition write_loop (w : Window) (T : Z) (colour : Z -> Z -> fvec4) (img : Image)
    : Image :=
  for_pixels (target_width w) (target_height w)
    (fun src_row src_col image =>
       Image_write image (colour src_row src_col)
                   (dst_col w src_col) (flippedRow w T src_row))
    img.

(** The colours the branches of [createImage] write, as functions of the
    source pixel.  The buffers are those the branch fills with one read
    before its loops. *)
Section TileContents.

Variable indeterminate : Q.

(** The palette index read for source pixel [(src_col, src_row)]. *)
Definition paletteIndexAt (w : Window) (bPalette : GDALRasterBand)
    (src_row src_col : Z) : Z :=
  let n := (target_width w * target_height w)%Z in
  let palette := readBand bPalette w (new_buffer indeterminate n) GDT_Byte NEAREST in
  to_u8 (trunc (peek indeterminate palette (src_col + src_row * target_width w))).

(** The pixel the RGB branch writes for source pixel
    [(src_col, src_row)]. *)
Definition rgbPixel (d : Driver) (w : Window)
    (bR bG bB : GDALRasterBand) (bA : option GDALRasterBand)
    (src_row src_col : Z) : fvec4 :=
  let n := (target_width w * target_height w)%Z in
  let red := readBand bR w (new_buffer indeterminate n) GDT_Byte (interpolation (_layer d)) in
  let green := readBand bG w (new_buffer indeterminate n) GDT_Byte (interpolation (_layer d)) in
  let blue := readBand bB w (new_buffer indeterminate n) GDT_Byte (interpolation (_layer d)) in
  let alpha :=
    match bA with
    | Some bnd => readBand bnd w (replicate (Z.to_nat n) 255) GDT_Byte (interpolation (_layer d))
    | None => replicate (Z.to_nat n) 255
    end in
  let i := (src_col + src_row * target_width w)%Z in
  let c := fvec4_div (mkF4 (byte_at indeterminate red i) (byte_at indeterminate green i)
                           (byte_at indeterminate blue i) (byte_at indeterminate alpha i)) 255 in
  if negb (isValidValue_band d (r c) bR)
     || negb (isValidValue_band d (g c) bG)
     || negb (isValidValue_band d (b c) bB)
     || negb (band_valid d (a c) bA)
  then set_a c 0 else c.

(** The pixel the grey + alpha branch writes for source pixel
    [(src_col, src_row)]. *)
Definition grayPixel (d : Driver) (w : Window)
    (bGray : GDALRasterBand) (bA : option GDALRasterBand)
    (src_row src_col : Z) : fvec4 :=
  let n := (target_width w * target_height w)%Z in
  let gray := readBand bGray w (new_buffer indeterminate n) GDT_Byte (interpolation (_layer d)) in
  let alpha :=
    match bA with
    | Some bnd =>
        Some (readBand bnd w (replicate (Z.to_nat n) 255) GDT_Byte (interpolation (_layer d)))
    | None => None
    end in
  let i := (src_col + src_row * target_width w)%Z in
  let v := byte_at indeterminate gray i in
  let al := match alpha with Some buf => byte_at indeterminate buf i | None => 255 end in
  let c := mkF4 v v v al in
  let c :=
    if negb (isValidValue_band d (r c) bGray) || negb (band_valid d (a c) bA)
    then set_a c 0 else c in
  fvec4_div c 255.

(** The nodata value the elevation branch takes from the band. *)
Definition elevationNoData (NO_DATA_VALUE : Q) (bGray : GDALRasterBand) : Q :=
  match GetRasterDataType bGray with
  | GDT_Int16 =>
      match GetNoDataValue bGray with
      | Some v => static_cast T_short v
      | None => - 32767
      end
  | _ =>
      match GetNoDataValue bGray with
      | Some v => v
      | None => NO_DATA_VALUE
      end
  end.

(** The height the elevation branch writes for source pixel
    [(src_col, src_row)]. *)
Definition elevationSample (NO_DATA_VALUE : Q) (d : Driver) (w : Window)
    (bGray : GDALRasterBand) (src_row src_col : Z) : Q :=
  let n := (target_width w * target_height w)%Z in
  let temp := readBand bGray w (new_buffer indeterminate n) (GetRasterDataType bGray)
                       (interpolation (_layer d)) in
  let i := (src_col + src_row * target_width w)%Z in
  let v :=
    match GetRasterDataType bGray with
    | GDT_Int16 => short_at indeterminate temp i
    | _ => peek indeterminate temp i
    end in
  getValidElevationValue d v (elevationNoData NO_DATA_VALUE bGray) NO_DATA_VALUE.

(** The test of [createImage] for single-channel elevation data. *)
Definition isElevation (bGray : GDALRasterBand) : bool :=
  match GetRasterDataType bGray with
  | GDT_Int16 | GDT_UInt16 | GDT_Float32 => true
  | _ => false
  end.

(** The byte read for source pixel [(src_col, src_row)] into a buffer
    that held [init] everywhere before the read. *)
Definition byteRead (band : GDALRasterBand) (w : Window) (interp : Interpolation)
    (init : Q) (src_row src_col : Z) : Q :=
  let n := (target_width w * target_height w)%Z in
  byte_at indeterminate
    (readBand band w (replicate (Z.to_nat n) init) GDT_Byte interp)
    (src_col + src_row * target_width w).

(** The alpha byte of source pixel [(src_col, src_row)]: read from the
    alpha band, or the 255 the alpha buffer is initialised with. *)
Definition alphaRead (bA : option GDALRasterBand) (w : Window) (interp : Interpolation)
    (src_row src_col : Z) : Q :=
  match bA with
  | Some bnd => byteRead bnd w interp 255 src_row src_col
  | None => 255
  end.

(** The sample the elevation branch reads for source pixel
    [(src_col, src_row)]. *)
Definition heightRead (band : GDALRasterBand) (w : Window) (interp : Interpolation)
    (src_row src_col : Z) : Q :=
  let n := (target_width w * target_height w)%Z in
  let temp := readBand band w (new_buffer indeterminate n) (GetRasterDataType band) interp in
  let i := (src_col + src_row * target_width w)%Z in
  match GetRasterDataType band with
  | GDT_Int16 => short_at indeterminate temp i
  | _ => peek indeterminate temp i
  end.

End TileContents.

(** The heights the workspace branch of [createHeightfield] samples,
    before the band's scale and offset are applied. *)
Section SampledHeights.

Variables NO_DATA_VALUE indeterminate : Q.




End SampledHeights.

(** A colour with every component in [0, 1]. *)
Definition unit_colour (c : fvec4) : Prop :=
  (0 <= r c <= 1) /\ (0 <= g c <= 1) /\ (0 <= b c <= 1) /\ (0 <= a c <= 1).

(** A height the validity policy lets through: it is not the user's
    nodata value nor the band's [nd], and it is within the configured
    minimum and maximum. *)
Definition accepted (d : Driver) (v nd : Q) : Prop :=
  has_value (noDataValue d) v = false /\ Qeqb nd v = false
  /\ below (minValidValue d) v = false /\ above (maxValidValue d) v = false.

(** The band's nodata value as the heightfield code extracts it. *)
Definition bandNoData (band : GDALRasterBand) : Q :=
  match GetNoDataValue band with Some value => value | None => - 32767 end.

(** A colour band whose nodata value, if it declares one, is a float
    above 1: the conversion to [float] the validity test applies to it
    keeps it. *)
Definition nodata_above_one (band : GDALRasterBand) : Prop :=
  match GetNoDataValue band with
  | Some nd => binary32 nd = true /\ 1 < nd
  | None => True
  end.

(** ** Lemmas on the numeric helpers *)

Lemma Qltb_lt a b : Qltb a b = true <-> a < b.
Proof.
  unfold Qltb. rewrite negb_true_iff, <- not_true_iff_false, Qle_bool_iff.
  split; intros H; [apply Qnot_le_lt | apply Qlt_not_le]; exact H.
Qed.

Lemma Qltb_ge a b : Qltb a b = false <-> b <= a.
Proof.
  unfold Qltb. rewrite negb_false_iff. apply Qle_bool_iff.
Qed.

Lemma equiv_spec x y eps :
  equiv x y eps = true -> - eps <= x - y /\ x - y <= eps.
Proof.
  unfold equiv. destruct (Qltb (x - y) 0) eqn:E; intros H.
  - apply Qle_bool_iff in H. apply Qltb_lt in E. split; lra.
  - apply Qle_bool_iff in H. apply Qltb_ge in E. split; lra.
Qed.

Lemma inject_Z_small (w : Z) :
  - (1 # 10000) <= 0 - inject_Z w -> 0 - inject_Z w <= 1 # 10000 -> w = 0%Z.
Proof.
  unfold Qle, Qminus, Qplus, Qopp, inject_Z; simpl. intros H1 H2. lia.
Qed.

(** ** Properties of the tile builders *)

Section TileBuilderProperties.

Variables (NO_DATA_VALUE indeterminate : Q) (GDAL_3_10 : bool).

Lemma intersection_valid (e1 e2 : GeoExtent) :
  ge_valid (intersectionSameSRS e1 e2) = intersects e1 e2.
Proof. unfold intersectionSameSRS. destruct (intersects e1 e2); reflexivity. Qed.

(** C2. A tile key whose extent does not intersect the dataset's extent
    makes both [createImage] and [createHeightfield] return
    [ResourceUnavailable]: no tile is produced. *)
Theorem outside_coverage_unavailable (d : Driver) (key : TileKey) (tileSize : Z)
    (io : IOOptions) :
  intersects (extent key) (_extents d) = false ->
  createImage NO_DATA_VALUE indeterminate d key tileSize io
    = Some (Failure ResourceUnavailable)
  /\ createHeightfield NO_DATA_VALUE indeterminate GDAL_3_10 d key tileSize io
    = Some (Failure ResourceUnavailable).
Proof.
  intros H. unfold createImage, createHeightfield.
  rewrite intersection_valid, H. cbn [negb].
  split.
  - destruct (maxDataLevel d) as [m|]; [destruct (level key >? m)%Z|];
      destruct (canceled io); reflexivity.
  - destruct (maxDataLevel d) as [m|]; [destruct (level key >? m)%Z|];
      destruct (canceled io); reflexivity.
Qed.

Lemma readBand_average (band : GDALRasterBand) (w : Window) (buf : list Q)
    (ty : GDALDataType) :
  readBand band w buf ty AVERAGE = readBand band w buf ty BILINEAR.
Proof. reflexivity. Qed.

(** C5. [detail::rasterIO] maps [AVERAGE] and [BILINEAR] alike to the
    bilinear resampling algorithm: under either mode the request it hands
    to the band carries [GRIORA_Bilinear] in its extra argument, and the
    result is made from the band's answer to that one request.  So a read
    with [AVERAGE] is the read with [BILINEAR], and [createImage]
    produces the same result under the two configurations. *)
Theorem average_is_bilinear_for_images :
  resampleAlgFor AVERAGE = GRIORA_Bilinear
  /\ resampleAlgFor BILINEAR = GRIORA_Bilinear
  /\ (forall band nXOff nYOff nXSize nYSize pData nBufXSize nBufYSize eBufType,
        rasterIO band nXOff nYOff nXSize nYSize pData nBufXSize nBufYSize eBufType AVERAGE
        = finishRead band pData nBufXSize nBufYSize eBufType
            (RasterIO band
               (bilinearRequest nXOff nYOff nXSize nYSize nBufXSize nBufYSize eBufType))
        /\ rasterIO band nXOff nYOff nXSize nYSize pData nBufXSize nBufYSize eBufType BILINEAR
           = finishRead band pData nBufXSize nBufYSize eBufType
               (RasterIO band
                  (bilinearRequest nXOff nYOff nXSize nYSize nBufXSize nBufYSize eBufType)))
  /\ (forall band nXOff nYOff nXSize nYSize pData nBufXSize nBufYSize eBufType,
      rasterIO band nXOff nYOff nXSize nYSize pData nBufXSize nBufYSize eBufType AVERAGE
      = rasterIO band nXOff nYOff nXSize nYSize pData nBufXSize nBufYSize eBufType BILINEAR)
  /\ (forall d key tileSize io,
      createImage NO_DATA_VALUE indeterminate (with_interpolation AVERAGE d) key tileSize io
      = createImage NO_DATA_VALUE indeterminate (with_interpolation BILINEAR d) key tileSize io).
Proof.
  split; [reflexivity|]. split; [reflexivity|]. split; [|split].
  - intros band nXOff nYOff nXSize nYSize pData nBufXSize nBufYSize eBufType.
    unfold rasterIO, finishRead, bilinearRequest. cbn [resampleAlgFor].
    split; destruct (RasterIO band _); reflexivity.
  - reflexivity.
  - intros d key tileSize io. reflexivity.
Qed.

Lemma missing_entry_lookup (band : GDALRasterBand) (p : Z) :
  GetColorEntry (GetColorTable band) p = None ->
  getPalleteIndexColor band p = (false, mkU8 255 0 0 1).
Proof. intros H. unfold getPalleteIndexColor. rewrite H. reflexivity. Qed.

Lemma level_gate (d : Driver) (key : TileKey) :
  match maxDataLevel d with Some m => (level key <= m)%Z | None => True end ->
  match maxDataLevel d with Some m => (level key >? m)%Z | None => false end = false.
Proof.
  destruct (maxDataLevel d) as [m|]; [|reflexivity].
  intros H. rewrite Z.gtb_ltb. apply Z.ltb_ge. exact H.
Qed.

(** The pixel loops preserve what holds initially and is kept by every
    step. *)
Lemma for_pixels_invariant {A : Type} (P : A -> Prop) (width height : Z)
    (step : Z -> Z -> A -> A) (init : A) :
  P init -> (forall row col acc, P acc -> P (step row col acc)) ->
  P (for_pixels width height step init).
Proof.
  intros Hinit Hstep. unfold for_pixels.
  generalize (Zrange height) init Hinit. clear init Hinit.
  induction l as [|row rows IH]; intros init Hinit; [exact Hinit|].
  cbn [fold_left]. apply IH.
  generalize (Zrange width) init Hinit. clear init Hinit.
  induction l as [|col cols IHc]; intros init Hinit; [exact Hinit|].
  cbn [fold_left]. apply IHc. apply Hstep. exact Hinit.
Qed.

Lemma Image_write_pixels (P : fvec4 -> Prop) (img : Image) (c : fvec4) (x y : Z) :
  Forall P (img_data img) -> P (encode (pixelFormat img) c) ->
  Forall P (img_data (Image_write img c x y)).
Proof.
  intros Hall Hc. unfold Image_write. destruct (_ && _); [|exact Hall].
  cbn [img_data]. apply Forall_insert; assumption.
Qed.

Lemma Image_write_format (img : Image) (c : fvec4) (x y : Z) :
  pixelFormat (Image_write img c x y) = pixelFormat img.
Proof. unfold Image_write. destruct (_ && _); reflexivity. Qed.

(** The workspace branch reports a failed read. *)
Lemma workspace_read_failure (d : Driver) (ds : GDALDataset) (band : GDALRasterBand)
    (tileSize : Z) (tile_xmin tile_ymin tile_xmax tile_ymax dx dy : Q) (hf : Heightfield) :
  (forall args, RasterIO band args = None) ->
  sampleByWorkspace NO_DATA_VALUE indeterminate d ds band tileSize
    tile_xmin tile_ymin tile_xmax tile_ymax dx dy hf = Failure ResourceUnavailable.
Proof.
  intros H. unfold sampleByWorkspace.
  destruct (workspaceWindow _ _ _ _ _ _ _) as [[[? ?] ?] ?].
  rewrite H. reflexivity.
Qed.

(** A failed one-sample read leaves the local as it was. *)
Lemma readSample_failure (band : GDALRasterBand) (col row before : Q) :
  (forall args, RasterIO band args = None) ->
  readSample indeterminate band col row before = before.
Proof.
  intros H. unfold readSample, rasterIO. rewrite H. reflexivity.
Qed.

(** C3, the behaviour of the code on the branch for area convention with
    an interpolation other than nearest: even when every read of the band
    fails, [createHeightfield] returns a tile as a success; the result of
    [detail::rasterIO] is not looked at, every one-sample read leaves its
    local as it was, and the samples are computed from these locals.  (The
    workspace branch does report the failure: [workspace_read_failure].) *)
Theorem failed_reads_still_return_a_tile (d : Driver) (ds : GDALDataset)
    (band : GDALRasterBand) (key : TileKey) (tileSize : Z) (io : IOOptions) :
  served d ds key io ->
  GetRasterBand ds 1 = Some band ->
  _pixelIsArea d = true ->
  interpolation (_layer d) <> NEAREST ->
  (forall args, RasterIO band args = None) ->
  (exists hf : Heightfield,
     createHeightfield NO_DATA_VALUE indeterminate GDAL_3_10 d key tileSize io
     = Some (Ok hf))
  /\ (forall col row before : Q,
        readSample indeterminate band col row before = before).
Proof.
  intros (Hl & Hc & Hi & Hw) Hb Ha Hn Hfail. split.
  - unfold createHeightfield.
    rewrite (level_gate d key Hl), Hc, intersection_valid, Hi, Hw, Hb, Ha.
    cbn [negb andb].
    destruct (interpolation (_layer d)); [contradiction| | | |]; cbn; eexists; reflexivity.
  - intros col row before. apply readSample_failure. exact Hfail.
Qed.

(** *** The sampling loops of the heightfield builder *)

Lemma cell_lt (T r c : Z) :
  (0 <= r < T)%Z -> (0 <= c < T)%Z -> (cell T r c < Z.to_nat (T * T))%nat.
Proof. intros Hr Hc. unfold cell. apply Z2Nat.inj_lt; nia. Qed.

Lemma cell_inj (T r c r' c' : Z) :
  (0 <= r < T)%Z -> (0 <= c < T)%Z -> (0 <= r' < T)%Z -> (0 <= c' < T)%Z ->
  cell T r c = cell T r' c' -> r = r' /\ c = c'.
Proof.
  intros Hr Hc Hr' Hc' E. unfold cell in E.
  apply Z2Nat.inj in E; [|nia|nia].
  destruct (Z.lt_trichotomy r r') as [H|[H|H]].
  - assert (T <= (r' - r) * T)%Z by nia. lia.
  - subst. lia.
  - assert (T <= (r - r') * T)%Z by nia. lia.
Qed.

Lemma set_heightAt_shape (T : Z) (hf : Heightfield) (c r : Z) (v : Q) :
  hf_shape T hf -> hf_shape T (set_heightAt hf c r v).
Proof.
  intros (Hw & Hh & Hl). unfold set_heightAt.
  destruct (_ && _); [|repeat split; assumption].
  repeat split; cbn; try assumption. rewrite length_insert. exact Hl.
Qed.

Lemma set_heightAt_lookup (T : Z) (hf : Heightfield) (c r : Z) (v : Q) (r' c' : Z) :
  hf_shape T hf ->
  (0 <= r < T)%Z -> (0 <= c < T)%Z -> (0 <= r' < T)%Z -> (0 <= c' < T)%Z ->
  hf_data (set_heightAt hf c r v) !! cell T r' c'
  = if (r' =? r)%Z && (c' =? c)%Z then Some v else hf_data hf !! cell T r' c'.
Proof.
  intros (Hw & Hh & Hl) Hr Hc Hr' Hc'. unfold set_heightAt.
  rewrite Hw, Hh.
  replace ((0 <=? c)%Z && (c <? T)%Z && (0 <=? r)%Z && (r <? T)%Z) with true
    by (symmetry; repeat (apply andb_true_intro; split); lia).
  cbn [hf_data]. fold (cell T r c).
  destruct ((r' =? r)%Z && (c' =? c)%Z) eqn:E.
  - apply andb_prop in E as [E1 E2].
    apply Z.eqb_eq in E1, E2. subst.
    apply list_lookup_insert_eq. rewrite Hl. apply cell_lt; assumption.
  - apply list_lookup_insert_ne. intros C.
    apply cell_inj in C as [-> ->]; try assumption.
    rewrite !Z.eqb_refl in E. discriminate.
Qed.

Lemma Zrange_S (n : nat) : Zrange (Z.of_nat (S n)) = Zrange (Z.of_nat n) ++ [Z.of_nat n].
Proof.
  unfold Zrange. rewrite !Nat2Z.id, seq_S, List.map_app. reflexivity.
Qed.

Section Tabulate.

Variables (T : Z) (f : Z -> Z -> Q).

Lemma fill_row (r : Z) (n : nat) (hf : Heightfield) :
  hf_shape T hf -> (0 <= r < T)%Z -> (Z.of_nat n <= T)%Z ->
  let hf' := fold_left (put_height f r) (Zrange (Z.of_nat n)) hf in
  hf_shape T hf' /\
  forall r' c', (0 <= r' < T)%Z -> (0 <= c' < T)%Z ->
    hf_data hf' !! cell T r' c'
    = if (r' =? r)%Z && (c' <? Z.of_nat n)%Z then Some (f r c')
      else hf_data hf !! cell T r' c'.
Proof.
  intros Hs Hr. induction n as [|n IH]; intros Hn.
  - change (Zrange (Z.of_nat 0)) with (@nil Z). cbn [fold_left].
    split; [assumption|]. intros r' c' Hr' Hc'.
    replace (c' <? Z.of_nat 0)%Z with false by (symmetry; apply Z.ltb_ge; lia).
    rewrite andb_false_r. reflexivity.
  - rewrite Zrange_S. cbv zeta. rewrite fold_left_app. cbn [fold_left].
    destruct IH as [IHs IHl]; [lia|]. split.
    + apply set_heightAt_shape. exact IHs.
    + intros r' c' Hr' Hc'. unfold put_height at 1.
      rewrite (set_heightAt_lookup T) by (try assumption; lia).
      rewrite IHl by assumption.
      destruct (r' =? r)%Z eqn:E1; cbn [andb]; [|reflexivity].
      destruct (c' =? Z.of_nat n)%Z eqn:E2.
      * apply Z.eqb_eq in E2. subst c'.
        replace (Z.of_nat n <? Z.of_nat (S n))%Z with true
          by (symmetry; apply Z.ltb_lt; lia). reflexivity.
      * apply Z.eqb_neq in E2.
        destruct (c' <? Z.of_nat n)%Z eqn:E3.
        -- apply Z.ltb_lt in E3.
           replace (c' <? Z.of_nat (S n))%Z with true
             by (symmetry; apply Z.ltb_lt; lia). reflexivity.
        -- apply Z.ltb_ge in E3.
           replace (c' <? Z.of_nat (S n))%Z with false
             by (symmetry; apply Z.ltb_ge; lia). reflexivity.
Qed.

Lemma fill_rows (m : nat) (hf : Heightfield) :
  hf_shape T hf -> (Z.of_nat m <= T)%Z ->
  let hf' := for_pixels T (Z.of_nat m) (fun r c hf => set_heightAt hf c r (f r c)) hf in
  hf_shape T hf' /\
  forall r' c', (0 <= r' < T)%Z -> (0 <= c' < T)%Z ->
    hf_data hf' !! cell T r' c'
    = if (r' <? Z.of_nat m)%Z then Some (f r' c') else hf_data hf !! cell T r' c'.
Proof.
  intros Hs. induction m as [|m IH]; intros Hm.
  - unfold for_pixels. change (Zrange (Z.of_nat 0)) with (@nil Z). cbn [fold_left].
    split; [assumption|]. intros r' c' Hr' Hc'.
    replace (r' <? Z.of_nat 0)%Z with false by (symmetry; apply Z.ltb_ge; lia).
    reflexivity.
  - unfold for_pixels in *. rewrite Zrange_S. cbv zeta in *.
    rewrite fold_left_app. cbn [fold_left].
    destruct IH as [IHs IHl]; [lia|].
    assert (HT : T = Z.of_nat (Z.to_nat T)) by lia.
    pose proof (fill_row (Z.of_nat m) (Z.to_nat T) _ IHs ltac:(lia) ltac:(lia)) as R.
    cbv zeta in R. rewrite <- HT in R. destruct R as [Rs Rl].
    split; [exact Rs|].
    intros r' c' Hr' Hc'. unfold put_height in Rl. rewrite Rl by assumption.
    rewrite IHl by assumption.
    replace (c' <? T)%Z with true by (symmetry; apply Z.ltb_lt; lia).
    rewrite andb_true_r.
    destruct (r' =? Z.of_nat m)%Z eqn:E1.
    + apply Z.eqb_eq in E1. subst r'.
      replace (Z.of_nat m <? Z.of_nat (S m))%Z with true
        by (symmetry; apply Z.ltb_lt; lia). reflexivity.
    + apply Z.eqb_neq in E1.
      destruct (r' <? Z.of_nat m)%Z eqn:E3.
      * apply Z.ltb_lt in E3.
        replace (r' <? Z.of_nat (S m))%Z with true
          by (symmetry; apply Z.ltb_lt; lia). reflexivity.
      * apply Z.ltb_ge in E3.
        replace (r' <? Z.of_nat (S m))%Z with false
          by (symmetry; apply Z.ltb_ge; lia). reflexivity.
Qed.

(** The sampling loops store in every cell of the tile the height
    computed for it. *)
Lemma for_pixels_tabulates (hf : Heightfield) :
  (0 <= T)%Z -> hf_shape T hf ->
  let hf' := for_pixels T T (fun r c hf => set_heightAt hf c r (f r c)) hf in
  hf_shape T hf' /\
  forall r c, (0 <= r < T)%Z -> (0 <= c < T)%Z ->
    hf_data hf' !! cell T r c = Some (f r c).
Proof.
  intros HT Hs. cbv zeta.
  pose proof (fill_rows (Z.to_nat T) hf Hs ltac:(lia)) as R. cbv zeta in R.
  rewrite Z2Nat.id in R by lia. destruct R as [Rs Rl].
  split; [exact Rs|]. intros r c Hr Hc. rewrite Rl by assumption.
  replace (r <? T)%Z with true by (symmetry; apply Z.ltb_lt; lia). reflexivity.
Qed.

End Tabulate.

Lemma applyScaleAndOffsetT_float_lookup (data : list Q) (n : nat) (scale offset : Q) (i : nat) :
  (i < n)%nat ->
  applyScaleAndOffsetT T_float data n scale offset !! i
  = option_map (fun v => v * scale + offset) (data !! i).
Proof.
  revert n i. induction data as [|x data IH]; intros n i Hi.
  - destruct n; reflexivity.
  - destruct n as [|n]; [lia|]. destruct i as [|i].
    + reflexivity.
    + cbn. apply IH. lia.
Qed.

Lemma Heightfield_fill_shape (T : Z) (v : Q) : hf_shape T (Heightfield_fill T T v).
Proof. repeat split. cbn. apply length_replicate. Qed.

Lemma wrap_int32_small (z : Z) :
  (- 2147483648 <= z < 2147483648)%Z -> wrap_int32 z = z.
Proof.
  intros H. unfold wrap_int32. rewrite Z.mod_small; lia.
Qed.


(** A workspace all of whose samples are invalid yields the sentinel
    under nearest-neighbour lookup. *)
Lemma invalid_sample_is_sentinel (d : Driver) (band : GDALRasterBand) (u v : Q)
    (data : list Q) (width height : Z) :
  interpolation (_layer d) = NEAREST ->
  (forall i, isValidValue d (peek indeterminate data i)
               match GetNoDataValue band with Some value => value | None => - 32767 end
             = false) ->
  getInterpolatedDEMValueWorkspace NO_DATA_VALUE indeterminate d band u v data width height
  = NO_DATA_VALUE.
Proof.
  intros Hn Hinv. unfold getInterpolatedDEMValueWorkspace.
  rewrite Hn. cbn [Interpolation_eqb]. rewrite Hinv. reflexivity.
Qed.



End TileBuilderProperties.

(** *** The longitude re-wrapping loops run to their exit *)

Lemma rounds_cover (q : Q) : q <= inject_Z (Z.of_nat (Z.to_nat (Qceiling q))).
Proof.
  apply Qle_trans with (inject_Z (Qceiling q)); [apply Qle_ceiling|].
  rewrite <- Zle_Qle. lia.
Qed.

Lemma div_360 (x : Q) : x == x / 360 * 360.
Proof. field. Qed.

Lemma shift_east_exits (n : nat) (west east width bxmin : Q) :
  (bxmin - west) / 360 <= inject_Z (Z.of_nat n) ->
  ~ fst (shift_east n west east width bxmin) < bxmin.
Proof.
  revert west east. induction n as [|n IH]; intros west east H.
  - cbn [shift_east fst]. change (inject_Z (Z.of_nat 0)) with 0 in H.
    pose proof (div_360 (bxmin - west)). lra.
  - cbn [shift_east]. destruct (Qltb west bxmin) eqn:E.
    + apply IH. rewrite Nat2Z.inj_succ in H. unfold Z.succ in H.
      rewrite inject_Z_plus in H. change (inject_Z 1) with 1 in H.
      pose proof (div_360 (bxmin - west)).
      pose proof (div_360 (bxmin - (west + 360))). lra.
    + apply Qltb_ge in E. cbn [fst]. lra.
Qed.

Lemma shift_west_exits (n : nat) (west east width bxmax : Q) :
  (west - bxmax) / 360 <= inject_Z (Z.of_nat n) ->
  ~ bxmax < fst (shift_west n west east width bxmax).
Proof.
  revert west east. induction n as [|n IH]; intros west east H.
  - cbn [shift_west fst]. change (inject_Z (Z.of_nat 0)) with 0 in H.
    pose proof (div_360 (west - bxmax)). lra.
  - cbn [shift_west]. destruct (Qgtb west bxmax) eqn:E.
    + apply IH. rewrite Nat2Z.inj_succ in H. unfold Z.succ in H.
      rewrite inject_Z_plus in H. change (inject_Z 1) with 1 in H.
      pose proof (div_360 (west - bxmax)).
      pose proof (div_360 (west - 360 - bxmax)). lra.
    + apply Qltb_ge in E. cbn [fst]. lra.
Qed.

Lemma rewrap_first_loop_exits (west east width : Q) (bounds : Box) :
  ~ fst (shift_east (Z.to_nat (Qceiling ((xmin bounds - west) / 360)))
                    west east width (xmin bounds)) < xmin bounds.
Proof. apply shift_east_exits. apply rounds_cover. Qed.

(** [rewrap] returns where the second loop of the source leaves: with the
    west bound not beyond the eastern bound of the dataset. *)
Lemma rewrap_exits (west east width : Q) (bounds : Box) :
  ~ xmax bounds < fst (rewrap west east width bounds).
Proof.
  unfold rewrap.
  destruct (shift_east _ west east width (xmin bounds)) as [west' east'].
  apply shift_west_exits. apply rounds_cover.
Qed.

(** ** Properties of the dataset bootstrap *)

(** *** The maximum data level *)









(** *** What [open] establishes *)

Ltac break_match H :=
  match type of H with
  | context [match ?x with _ => _ end] =>
      let E := fresh "E" in destruct x eqn:E
  | context [if ?x then _ else _] =>
      let E := fresh "E" in destruct x eqn:E
  end.

(** Case analysis on the tests of a goal, each case closed by
    computation. *)
Ltac by_cases :=
  repeat match goal with
         | |- context [if ?c then _ else _] => destruct c
         | |- context [match ?c with Some _ => _ | None => _ end] => destruct c
         end;
  reflexivity.

Lemma cornerBounds_eta gt ds :
  mkBox (xmin (cornerBounds gt ds)) (ymin (cornerBounds gt ds))
        (xmax (cornerBounds gt ds)) (ymax (cornerBounds gt ds)) = cornerBounds gt ds.
Proof. reflexivity. Qed.

Lemma finishOpen_established E d srcDS warpedDS wktS tileSize lde d' lde' :
  _srcDS d = Some srcDS -> _warpedDS d = Some warpedDS ->
  finishOpen E d srcDS warpedDS wktS tileSize lde = (NoError, d', lde') ->
  established (maxDataLevel d) tileSize d'.
Proof.
  intros Hs Hw H. unfold finishOpen in H.
  set (d1 := match GDALInvGeoTransform E (_geotransform d) with
             | Some inv => set__invtransform inv d | None => d end) in *.
  assert (G1 : _geotransform d1 = _geotransform d) by (unfold d1; by_cases).
  assert (M1 : maxDataLevel d1 = maxDataLevel d) by (unfold d1; by_cases).
  assert (S1 : _srcDS d1 = _srcDS d) by (unfold d1; by_cases).
  assert (W1 : _warpedDS d1 = _warpedDS d) by (unfold d1; by_cases).
  cbv zeta in H.
  match type of H with
  | context [profile_valid (_profile ?x)] => set (d2 := x) in *
  end.
  assert (G2 : _geotransform d2 = _geotransform d1) by (unfold d2; by_cases).
  assert (M2 : maxDataLevel d2 = maxDataLevel d1) by (unfold d2; by_cases).
  assert (S2 : _srcDS d2 = _srcDS d1) by (unfold d2; by_cases).
  assert (W2 : _warpedDS d2 = _warpedDS d1) by (unfold d2; by_cases).
  destruct (negb (profile_valid (_profile d2))); [discriminate|].
  rewrite !cornerBounds_eta in H. rewrite !G2 in H.
  destruct (clampBounds _ _ _ _ _) as [bounds clamped] eqn:EC in H.
  injection H as <- _.
  exists srcDS, warpedDS.
  cbn [_srcDS _warpedDS _open _geotransform maxDataLevel _bounds _extents _profile
       set__open set__linearUnits set__extents set__bounds set_maxDataLevel
       makeGeoExtent ge_srs].
  rewrite S2, S1, W2, W1. repeat split; try assumption.
  - rewrite M2, M1, G2. reflexivity.
  - rewrite G2. transitivity (fst (bounds, clamped)); [reflexivity|].
    rewrite <- EC. reflexivity.
Qed.

Lemma acquireSource_keeps E layer source d st d1 :
  acquireSource E layer source d = (st, d1) -> maxDataLevel d1 = maxDataLevel d.
Proof.
  unfold acquireSource. intros H.
  repeat (break_match H; try discriminate); injection H as <- <-; reflexivity.
Qed.

Lemma prepareSampling_keeps E d srcDS src_srs st d2 w :
  prepareSampling E d srcDS src_srs = (st, d2, w) ->
  maxDataLevel d2 = maxDataLevel d /\ _srcDS d2 = _srcDS d.
Proof.
  unfold prepareSampling. cbv zeta. intros H.
  repeat (break_match H; try discriminate); injection H as <- <- <-; split; reflexivity.
Qed.

Lemma open_established E d name layer tileSize lde io d' lde' :
  open E d name layer tileSize lde io = (NoError, d', lde') ->
  established (maxDataLevel d) tileSize d'.
Proof.
  intros H. unfold open in H. cbv zeta in H.
  destruct (_ && _ && _); [discriminate|].
  destruct (acquireSource E layer _ _) as [st d1] eqn:E1.
  apply acquireSource_keeps in E1. cbn in E1.
  destruct st; try discriminate.
  destruct (_srcDS d1) as [srcDS|] eqn:Es; [|discriminate].
  destruct (negb _); [discriminate|].
  destruct (prepareSampling E d1 srcDS _) as [[st d2] w] eqn:E2.
  apply prepareSampling_keeps in E2 as [M2 S2].
  destruct st; try discriminate.
  destruct (_warpedDS d2) as [warpedDS|] eqn:Ew; [|discriminate].
  rewrite <- E1, <- M2.
  apply (finishOpen_established E d2 srcDS warpedDS w tileSize lde d' lde');
    [congruence | exact Ew | exact H].
Qed.

(** [finishOpen] leaves in [_invtransform] what the inversion of the final
    geotransform delivers. *)
Lemma finishOpen_inverts E d srcDS warpedDS wktS tileSize lde st d' lde' inv :
  finishOpen E d srcDS warpedDS wktS tileSize lde = (st, d', lde') ->
  GDALInvGeoTransform E (_geotransform d') = Some inv ->
  _invtransform d' = inv.
Proof.
  intros H Hinv. unfold finishOpen in H.
  set (d1 := match GDALInvGeoTransform E (_geotransform d) with
             | Some inv => set__invtransform inv d | None => d end) in *.
  assert (G1 : _geotransform d1 = _geotransform d) by (unfold d1; by_cases).
  assert (I1 : GDALInvGeoTransform E (_geotransform d) = Some inv ->
               _invtransform d1 = inv) by (unfold d1; intros ->; reflexivity).
  cbv zeta in H.
  assert (Hd' : _geotransform d' = _geotransform d1
                /\ _invtransform d' = _invtransform d1).
  { destruct (negb (profile_valid _)) in H.
    - injection H as _ <- _. split; by_cases.
    - destruct (clampBounds _ _ _ _ _) as [bounds clamped] in H.
      injection H as _ <- _. cbn. split; by_cases. }
  destruct Hd' as [Hg Hi]. rewrite Hg, G1 in Hinv. rewrite Hi. auto.
Qed.

(** After a successful [open], [_invtransform] is the inverse the external
    inversion delivered for [_geotransform], when it delivered one. *)
Lemma open_inverts E d name layer tileSize lde io d' lde' inv :
  open E d name layer tileSize lde io = (NoError, d', lde') ->
  GDALInvGeoTransform E (_geotransform d') = Some inv ->
  _invtransform d' = inv.
Proof.
  intros H. unfold open in H. cbv zeta in H.
  destruct (_ && _ && _); [discriminate|].
  destruct (acquireSource E layer _ _) as [st d1].
  destruct st; try discriminate.
  destruct (_srcDS d1) as [srcDS|]; [|discriminate].
  destruct (negb _); [discriminate|].
  destruct (prepareSampling E d1 srcDS _) as [[st d2] w].
  destruct st; try discriminate.
  destruct (_warpedDS d2) as [warpedDS|]; [|discriminate].
  exact (finishOpen_inverts _ _ _ _ _ _ _ _ _ _ _ H).
Qed.

(** ** Sub-dataset selection *)

Lemma acquireSource_opens E layer source d d1 :
  _external d = None ->
  acquireSource E layer source d = (NoError, d1) ->
  _srcDS d1
  = openSource E layer (match uri layer with Some u => full u | None => source end).
Proof.
  unfold acquireSource. intros -> H. cbv zeta in H.
  repeat (break_match H; try discriminate); injection H as <-; reflexivity.
Qed.

Lemma finishOpen_keeps E d srcDS warpedDS wktS tileSize lde st d' lde' :
  finishOpen E d srcDS warpedDS wktS tileSize lde = (st, d', lde') ->
  _srcDS d' = _srcDS d.
Proof.
  unfold finishOpen. cbv zeta. intros H.
  destruct (negb (profile_valid _)) in H.
  - injection H as _ <- _. by_cases.
  - destruct (clampBounds _ _ _ _ _) as [bounds clamped] in H.
    injection H as _ <- _. cbn. by_cases.
Qed.

(** The dataset a successful [open] samples from is the one [openSource]
    delivers, unless an external dataset was supplied. *)
Lemma open_reopens E d name layer tileSize lde io d' lde' :
  open E d name layer tileSize lde io = (NoError, d', lde') ->
  _external d = None ->
  _srcDS d'
  = openSource E layer
      (match uri layer with Some u => full u | None => sourceOf layer end).
Proof.
  intros H Hx. unfold open in H. cbv zeta in H.
  destruct (_ && _ && _); [discriminate|].
  destruct (acquireSource E layer _ _) as [st d1] eqn:E1.
  destruct st; try discriminate.
  apply acquireSource_opens in E1; [|exact Hx].
  destruct (_srcDS d1) as [srcDS|] eqn:Es; [|discriminate].
  destruct (negb _); [discriminate|].
  destruct (prepareSampling E d1 srcDS _) as [[st d2] w] eqn:E2.
  apply prepareSampling_keeps in E2 as [M2 S2].
  destruct st; try discriminate.
  destruct (_warpedDS d2) as [warpedDS|] eqn:Ew; [|discriminate].
  apply finishOpen_keeps in H. congruence.
Qed.

(** C8, as the code has it.  A source that exposes N > 0 sub-datasets
    lists two entries for each of them in its [SUBDATASETS] metadata, a
    name and a description.  [open] then reopens the sub-dataset named by
    [SUBDATASET_<k>_NAME], where [k] is the configured index when it lies
    in [1, N], and 1 when no index is configured, when the configured
    index is below 1, or when it is above the number of entries of the
    list: an index out of range is replaced by 1, not clamped.  The
    dataset a successful [open] then samples from is that sub-dataset.
    (Nothing is said here of an index above N that is not above the
    number of entries.) *)
Theorem subdataset_selected_or_first (E : External) (layer : Options) (input : string)
    (srcDS : GDALDataset) (N k : Z) :
  GDALOpen E input = Some srcDS ->
  Z.of_nat (length (SUBDATASETS srcDS)) = (2 * N)%Z ->
  (0 < N < 1073741824)%Z ->
  match subDataset layer with
  | Some v =>
      (0 <= v < 4294967296)%Z
      /\ ((1 <= v <= N)%Z /\ k = v \/ (v < 1 \/ 2 * N < v)%Z /\ k = 1%Z)
  | None => k = 1%Z
  end ->
  let reopened :=
    GDALOpen E (CPLStrdup (CSLFetchNameValue (SUBDATASETS srcDS)
                             ("SUBDATASET_" ++ decimal k ++ "_NAME")%string)) in
  openSource E layer input = reopened
  /\ forall d name tileSize lde io d' lde',
       _external d = None ->
       input = match uri layer with Some u => full u | None => sourceOf layer end ->
       open E d name layer tileSize lde io = (NoError, d', lde') ->
       _srcDS d' = reopened.
Proof.
  intros Ho HL HN Hk reopened.
  assert (Hsel : openSource E layer input = reopened);
    [|split; [exact Hsel|];
      intros d name tileSize lde io d' lde' Hx Hin Hopen;
      rewrite (open_reopens _ _ _ _ _ _ _ _ _ Hopen Hx), <- Hin; exact Hsel].
  unfold reopened, openSource. rewrite Ho, HL.
  replace (2 * N >? 0)%Z with true by (symmetry; rewrite Z.gtb_ltb; apply Z.ltb_lt; lia).
  assert (Hi : subDatasetIndex layer (2 * N) = k).
  { unfold subDatasetIndex. destruct (subDataset layer) as [v|].
    - destruct Hk as [Hv Hk].
      destruct (Z_lt_le_dec v 2147483648) as [Hs|Hs].
      + rewrite wrap_int32_small by lia.
        destruct Hk as [[Hin ->] | [Hout ->]].
        * replace (v <? 1)%Z with false by (symmetry; apply Z.ltb_ge; lia).
          replace (v >? 2 * N)%Z with false
            by (symmetry; rewrite Z.gtb_ltb; apply Z.ltb_ge; lia).
          reflexivity.
        * destruct (v <? 1)%Z eqn:E1; [reflexivity|]. apply Z.ltb_ge in E1.
          replace (v >? 2 * N)%Z with true
            by (symmetry; rewrite Z.gtb_ltb; apply Z.ltb_lt; lia).
          reflexivity.
      + assert (Hw : wrap_int32 v = (v - 4294967296)%Z).
        { unfold wrap_int32.
          replace (v + 2147483648)%Z with ((v - 2147483648) + 1 * 4294967296)%Z by lia.
          rewrite Z_mod_plus_full, Z.mod_small by lia. lia. }
        rewrite Hw.
        replace (v - 4294967296 <? 1)%Z with true by (symmetry; apply Z.ltb_lt; lia).
        destruct Hk as [[Hin ->] | [Hout ->]]; [lia|reflexivity].
    - subst k. cbn. replace (1 >? 2 * N)%Z with false
        by (symmetry; rewrite Z.gtb_ltb; apply Z.ltb_ge; lia). reflexivity. }
  rewrite Hi. reflexivity.
Qed.

(** ** Extent clamping *)

Lemma Qgtb_gt (x y : Q) : Qgtb x y = true <-> y < x.
Proof. apply Qltb_lt. Qed.

Lemma clampBounds_wide (bounds : Box) (resX resY : Q) :
  xmin bounds == - 190 -> xmax bounds == 190 -> resX <= 19 ->
  let res := clampBounds true true bounds resX resY in
  xmin (fst res) == - 180 /\ xmax (fst res) == 180 /\ snd res = true.
Proof.
  intros Hmin Hmax Hr. unfold clampBounds.
  replace (Qltb (xmin bounds) (- 180)) with true by (symmetry; apply Qltb_lt; lra).
  cbn [andb orb xmin xmax ymin ymax].
  replace (Qgtb (xmax bounds - resX * (1 # 2) - (xmin bounds + resX * (1 # 2))) 360)
    with true by (symmetry; apply Qgtb_gt; lra).
  cbn [xmin xmax ymin ymax].
  destruct (Qltb (ymin bounds) (- 90) || Qgtb (ymax bounds) 90);
    cbn [xmin xmax ymin ymax];
    match goal with |- context [Qgtb ?e 180] => destruct (Qgtb e 180) end;
    cbn; repeat split; reflexivity.
Qed.

Lemma resolution_of_wide (n : Z) (x : Q) :
  (19 < n)%Z -> x == 380 -> x / inject_Z n <= 19.
Proof.
  intros Hn Hx.
  assert (Hn' : 20 <= inject_Z n).
  { change 20 with (inject_Z 20). rewrite <- Zle_Qle. lia. }
  apply Qle_shift_div_r; [lra|]. lra.
Qed.

(** C4, as the code has it.  For a geodetic dataset with area convention
    whose declared bounds are xmin = -190 and xmax = 190 and whose raster
    is more than 19 pixels wide, [open] leaves the x-bounds [-180, 180]
    in [_bounds] and its [clamped] flag is set: the bounds shrunk by half
    a pixel still span more than 360 degrees. *)
Theorem wide_area_bounds_clamped (E : External) (d : Driver) (name : string)
    (layer : Options) (tileSize : Z) (lde : option DataExtentList) (io : IOOptions)
    (d' : Driver) (lde' : option DataExtentList) (srcDS warpedDS : GDALDataset) :
  open E d name layer tileSize lde io = (NoError, d', lde') ->
  _srcDS d' = Some srcDS -> _warpedDS d' = Some warpedDS ->
  isGeodetic (ge_srs (_extents d')) = true -> is_area_of srcDS = true ->
  let declared := cornerBounds (_geotransform d') warpedDS in
  xmin declared == - 190 -> xmax declared == 190 ->
  (19 < GetRasterXSize warpedDS)%Z ->
  xmin (_bounds d') == - 180 /\ xmax (_bounds d') == 180
  /\ snd (clampBounds true true declared
            (resolutionX (_geotransform d') warpedDS)
            (resolutionY (_geotransform d') warpedDS)) = true.
Proof.
  intros Ho Hs Hw Hg Ha declared Hmin Hmax Hn.
  destruct (open_established _ _ _ _ _ _ _ _ _ Ho)
    as (srcDS' & warpedDS' & Hs' & Hw' & _ & _ & Hb).
  rewrite Hs in Hs'. rewrite Hw in Hw'. injection Hs' as <-. injection Hw' as <-.
  rewrite Hg, Ha in Hb. rewrite Hb. fold declared.
  apply clampBounds_wide; try assumption.
  unfold resolutionX. fold declared. apply resolution_of_wide; [exact Hn | lra].
Qed.

(** C9.  If [maxDataLevel] is not configured and the per-pixel
    resolution, the minimum of the x and y resolutions, is not strictly
    positive, [open] sets [maxDataLevel] to 1; the halving loop is not
    run. *)
Theorem nonpositive_resolution_level_one (E : External) (d : Driver) (name : string)
    (layer : Options) (tileSize : Z) (lde : option DataExtentList) (io : IOOptions)
    (d' : Driver) (lde' : option DataExtentList) (warpedDS : GDALDataset) :
  open E d name layer tileSize lde io = (NoError, d', lde') ->
  maxDataLevel d = None ->
  _warpedDS d' = Some warpedDS ->
  Qmin (resolutionX (_geotransform d') warpedDS)
       (resolutionY (_geotransform d') warpedDS) <= 0 ->
  maxDataLevel d' = Some 1%Z.
Proof.
  intros Ho Hm Hw Hr.
  destruct (open_established _ _ _ _ _ _ _ _ _ Ho)
    as (srcDS' & warpedDS' & _ & Hw' & _ & Hl & _).
  rewrite Hw in Hw'. injection Hw' as <-.
  rewrite Hl, Hm. unfold computeMaxDataLevel.
  replace (Qgtb _ 0) with false; [reflexivity|].
  symmetry. apply Qltb_ge. exact Hr.
Qed.


(** ** Image tiles: shape, placement and content *)

(** *** Loops that write a grid

    A pair of nested loops over [m] rows and [n] columns, each round of
    which stores [val r c] at position [pos r c] of a buffer and leaves
    the other positions alone: when [pos] is injective on the grid, the
    buffer ends up holding [val r c] at every [pos r c], and its old
    content elsewhere. *)
Section GridFold.

Context {A V : Type}.
Variables (get : A -> nat -> option V) (Inv : A -> Prop).
Variables (step : Z -> Z -> A -> A) (pos : Z -> Z -> nat) (val : Z -> Z -> V).
Variables (n m : Z).

Hypothesis step_spec : forall r c a,
  (0 <= r < m)%Z -> (0 <= c < n)%Z -> Inv a ->
  Inv (step r c a) /\
  forall i, get (step r c a) i = if decide (i = pos r c) then Some (val r c) else get a i.

Hypothesis pos_inj : forall r c r' c',
  (0 <= r < m)%Z -> (0 <= c < n)%Z -> (0 <= r' < m)%Z -> (0 <= c' < n)%Z ->
  pos r c = pos r' c' -> r = r' /\ c = c'.

Lemma grid_row (r : Z) (k : nat) (a : A) :
  (0 <= r < m)%Z -> (Z.of_nat k <= n)%Z -> Inv a ->
  let a' := fold_left (fun acc col => step r col acc) (Zrange (Z.of_nat k)) a in
  Inv a' /\
  (forall c, (0 <= c < Z.of_nat k)%Z -> get a' (pos r c) = Some (val r c)) /\
  (forall i, (forall c, (0 <= c < Z.of_nat k)%Z -> pos r c <> i) -> get a' i = get a i).
Proof.
  intros Hr. induction k as [|k IH]; intros Hk Ha.
  - change (Zrange (Z.of_nat 0)) with (@nil Z). cbn [fold_left].
    split; [exact Ha|]. split; [intros c Hc; lia|reflexivity].
  - rewrite Zrange_S, fold_left_app. cbn [fold_left]. cbv zeta.
    destruct IH as (I1 & I2 & I3); [lia|exact Ha|]. cbv zeta in I1, I2, I3.
    set (a1 := fold_left (fun acc col => step r col acc) (Zrange (Z.of_nat k)) a) in *.
    destruct (step_spec r (Z.of_nat k) a1) as [S1 S2]; [exact Hr|lia|exact I1|].
    split; [exact S1|]. split.
    + intros c Hc. rewrite S2. destruct (decide (pos r c = pos r (Z.of_nat k))) as [E|E].
      * apply pos_inj in E as [_ ->]; try lia. reflexivity.
      * apply I2. assert (c <> Z.of_nat k) by (intros ->; apply E; reflexivity). lia.
    + intros i Hi. rewrite S2. destruct (decide (i = pos r (Z.of_nat k))) as [E|E].
      * exfalso. apply (Hi (Z.of_nat k)); [lia|]. symmetry. exact E.
      * apply I3. intros c Hc. apply Hi. lia.
Qed.

Lemma grid_rows (k : nat) (a : A) :
  (0 <= n)%Z -> (Z.of_nat k <= m)%Z -> Inv a ->
  let a' := for_pixels n (Z.of_nat k) step a in
  Inv a' /\
  (forall r c, (0 <= r < Z.of_nat k)%Z -> (0 <= c < n)%Z ->
     get a' (pos r c) = Some (val r c)) /\
  (forall i, (forall r c, (0 <= r < Z.of_nat k)%Z -> (0 <= c < n)%Z -> pos r c <> i) ->
     get a' i = get a i).
Proof.
  intros Hn. induction k as [|k IH]; intros Hk Ha.
  - unfold for_pixels. change (Zrange (Z.of_nat 0)) with (@nil Z). cbn [fold_left].
    split; [exact Ha|]. split; [intros r c Hr; lia|reflexivity].
  - unfold for_pixels. rewrite Zrange_S, fold_left_app. cbn [fold_left]. cbv zeta.
    destruct IH as (I1 & I2 & I3); [lia|exact Ha|]. cbv zeta in I1, I2, I3.
    unfold for_pixels in I1, I2, I3.
    set (a1 := fold_left _ (Zrange (Z.of_nat k)) a) in *.
    destruct (grid_row (Z.of_nat k) (Z.to_nat n) a1) as (R1 & R2 & R3);
      [lia|lia|exact I1|].
    cbv zeta in R1, R2, R3. rewrite Z2Nat.id in R1, R2, R3 by lia.
    split; [exact R1|]. split.
    + intros r c Hr Hc. destruct (Z.eq_dec r (Z.of_nat k)) as [->|Hne].
      * apply R2. exact Hc.
      * rewrite R3; [apply I2; lia|].
        intros c' Hc' E. apply pos_inj in E as [E _]; lia.
    + intros i Hi. rewrite R3; [apply I3|].
      * intros r c Hr Hc. apply Hi; lia.
      * intros c Hc. apply Hi; lia.
Qed.

Lemma grid_fold (a : A) :
  (0 <= n)%Z -> (0 <= m)%Z -> Inv a ->
  let a' := for_pixels n m step a in
  Inv a' /\
  (forall r c, (0 <= r < m)%Z -> (0 <= c < n)%Z -> get a' (pos r c) = Some (val r c)) /\
  (forall i, (forall r c, (0 <= r < m)%Z -> (0 <= c < n)%Z -> pos r c <> i) ->
     get a' i = get a i).
Proof.
  intros Hn Hm Ha.
  pose proof (grid_rows (Z.to_nat m) a Hn) as H.
  rewrite Z2Nat.id in H by exact Hm. apply H; [lia|exact Ha].
Qed.

End GridFold.

Lemma wrap_uint32_small (z : Z) : (0 <= z < 4294967296)%Z -> wrap_uint32 z = z.
Proof. intros H. unfold wrap_uint32. apply Z.mod_small. exact H. Qed.

(** *** The pixel loops of [createImage] *)
Section ImageLoop.

Variables (w : Window) (T : Z) (colour : Z -> Z -> fvec4) (fmt : PixelFormat).

Lemma dst_in_tile (row col : Z) :
  placed w T -> (0 <= row < target_height w)%Z -> (0 <= col < target_width w)%Z ->
  dst_col w col = (tile_offset_left w + col)%Z /\
  flippedRow w T row = (T - 1 - (tile_offset_top w + row))%Z /\
  (0 <= tile_offset_left w + col < T)%Z /\
  (0 <= T - 1 - (tile_offset_top w + row) < T)%Z.
Proof.
  intros (Hl & Ht & Hw0 & Hh0 & Hw & Hh & HT) Hr Hc. unfold dst_col, flippedRow.
  rewrite !wrap_uint32_small by lia. repeat split; lia.
Qed.

(** With the destination window inside the tile, the loops keep the shape
    and the format of the image, put the colour of every source pixel at
    its place, and leave the pixels outside the window alone. *)
Lemma write_loop_spec (img : Image) :
  placed w T -> img_shape T img -> pixelFormat img = fmt ->
  let img' := write_loop w T colour img in
  img_shape T img' /\ pixelFormat img' = fmt /\
  (forall row col, (0 <= row < target_height w)%Z -> (0 <= col < target_width w)%Z ->
     pixelAt img' (tile_offset_left w + col) (T - 1 - (tile_offset_top w + row))
     = Some (encode fmt (colour row col))) /\
  (forall x y, (0 <= x < T)%Z -> (0 <= y < T)%Z -> ~ in_window w T x y ->
     pixelAt img' x y = pixelAt img x y).
Proof.
  intros Hp Hs Hf. cbv zeta. unfold write_loop.
  pose proof Hp as (Hl & Ht & Hw0 & Hh0 & Hw & Hh & HT).
  destruct (grid_fold (fun im i => img_data im !! i)
              (fun im => img_shape T im /\ pixelFormat im = fmt)
              (fun src_row src_col image =>
                 Image_write image (colour src_row src_col)
                             (dst_col w src_col) (flippedRow w T src_row))
              (fun r c => cell T (T - 1 - (tile_offset_top w + r)) (tile_offset_left w + c))
              (fun r c => encode fmt (colour r c))
              (target_width w) (target_height w)) with (a := img) as (G1 & G2 & G3).
  - intros r c im Hr Hc [(Sw & Sh & Sl) Sf].
    destruct (dst_in_tile r c Hp Hr Hc) as (-> & -> & Bx & By).
    unfold Image_write. rewrite Sw, Sh.
    replace ((0 <=? tile_offset_left w + c)%Z && (tile_offset_left w + c <? T)%Z
             && (0 <=? T - 1 - (tile_offset_top w + r))%Z
             && (T - 1 - (tile_offset_top w + r) <? T)%Z) with true
      by (symmetry; repeat (apply andb_true_intro; split); lia).
    cbn [img_data pixelFormat img_width img_height]. rewrite Sf.
    fold (cell T (T - 1 - (tile_offset_top w + r)) (tile_offset_left w + c)).
    split.
    + split; [|reflexivity]. repeat split; cbn; try reflexivity.
      rewrite length_insert. exact Sl.
    + intros i. destruct (decide _) as [->|Hne].
      * apply list_lookup_insert_eq. rewrite Sl. apply cell_lt; lia.
      * apply list_lookup_insert_ne. intros C. apply Hne. symmetry. exact C.
  - intros r c r' c' Hr Hc Hr' Hc' E.
    apply cell_inj in E; lia.
  - exact Hw0.
  - exact Hh0.
  - split; assumption.
  - destruct G1 as [(Sw & Sh & Sl) Sf]. split; [repeat split; assumption|].
    split; [exact Sf|]. split.
    + intros row col Hr Hc. unfold pixelAt. rewrite Sw, Sh.
      replace ((0 <=? tile_offset_left w + col)%Z && (tile_offset_left w + col <? T)%Z
               && (0 <=? T - 1 - (tile_offset_top w + row))%Z
               && (T - 1 - (tile_offset_top w + row) <? T)%Z) with true
        by (symmetry; repeat (apply andb_true_intro; split); lia).
      apply (G2 row col Hr Hc).
    + intros x y Hx Hy Hout. unfold pixelAt. rewrite Sw, Sh.
      destruct Hs as (Sw0 & Sh0 & _). rewrite Sw0, Sh0.
      destruct (_ && _); [|reflexivity].
      apply (G3 (cell T y x)). intros r c Hr Hc E.
      apply cell_inj in E; try lia. apply Hout. unfold in_window. lia.
Qed.

End ImageLoop.

(** *** Conversions of whole numbers *)

Lemma trunc_inject_Z (z : Z) : trunc (inject_Z z) = z.
Proof.
  unfold trunc. destruct (Qle_bool 0 (inject_Z z)).
  - apply Qfloor_Z.
  - apply Qceiling_Z.
Qed.

Lemma to_int_inject_Z (z : Z) :
  (- 2147483648 <= z < 2147483648)%Z -> to_int (inject_Z z) = z.
Proof. intros H. unfold to_int. rewrite trunc_inject_Z. apply wrap_int32_small. exact H. Qed.

Lemma Qfloor_nonneg (x : Q) : 0 <= x -> (0 <= Qfloor x)%Z.
Proof.
  intros H. change 0%Z with (Qfloor 0). apply Qfloor_resp_le. exact H.
Qed.

(** *** The tiles [createImage] returns *)
Section ImageTiles.

Variables (NO_DATA_VALUE indeterminate : Q).

(** Each branch of [createImage] is the pixel loop over a filled tile. *)
Lemma createImage_rgb_loop d w T bR bG bB bA :
  createImage_rgb indeterminate d w T bR bG bB bA
  = write_loop w T (rgbPixel indeterminate d w bR bG bB bA)
      (Image_fill R8G8B8A8_UNORM T T (mkF4 0 0 0 0)).
Proof. reflexivity. Qed.

Lemma createImage_palette_loop d w T bP :
  createImage_palette indeterminate d w T bP
  = write_loop w T (fun row col => paletteColor d bP (paletteIndexAt indeterminate w bP row col))
      (Image_fill R8G8B8A8_UNORM T T (mkF4 0 0 0 0)).
Proof. reflexivity. Qed.

Lemma createImage_gray_loop d w T bGray bA :
  exists colour,
    createImage_gray NO_DATA_VALUE indeterminate d w T bGray bA
    = write_loop w T colour
        (Image_fill R32_SFLOAT T T
           (mkF4 NO_DATA_VALUE NO_DATA_VALUE NO_DATA_VALUE NO_DATA_VALUE))
    \/ createImage_gray NO_DATA_VALUE indeterminate d w T bGray bA
    = write_loop w T colour (Image_fill R8G8B8A8_UNORM T T (mkF4 0 0 0 0)).
Proof.
  unfold createImage_gray.
  destruct (GetRasterDataType bGray); cbv zeta; cbv iota;
    (eexists; first [left; reflexivity | right; reflexivity]).
Qed.

Lemma createImage_gray_cases d w T bGray bA :
  createImage_gray NO_DATA_VALUE indeterminate d w T bGray bA
  = if isElevation bGray then
      write_loop w T
        (fun row col =>
           mkF4 (elevationSample indeterminate NO_DATA_VALUE d w bGray row col)
                indeterminate indeterminate indeterminate)
        (Image_fill R32_SFLOAT T T
           (mkF4 NO_DATA_VALUE NO_DATA_VALUE NO_DATA_VALUE NO_DATA_VALUE))
    else
      write_loop w T (grayPixel indeterminate d w bGray bA)
        (Image_fill R8G8B8A8_UNORM T T (mkF4 0 0 0 0)).
Proof.
  unfold createImage_gray, isElevation, elevationSample, elevationNoData.
  destruct (GetRasterDataType bGray), bA; reflexivity.
Qed.

Lemma Image_fill_shape (f : PixelFormat) (T : Z) (c : fvec4) :
  img_shape T (Image_fill f T T c).
Proof. repeat split. cbn. apply length_replicate. Qed.

Lemma Image_write_shape (T : Z) (img : Image) (c : fvec4) (x y : Z) :
  img_shape T img -> img_shape T (Image_write img c x y).
Proof.
  intros (Hw & Hh & Hl). unfold Image_write.
  destruct (_ && _); [|repeat split; assumption].
  repeat split; cbn; try assumption. rewrite length_insert. exact Hl.
Qed.

Lemma write_loop_shape w T colour img :
  img_shape T img -> img_shape T (write_loop w T colour img).
Proof.
  intros H. unfold write_loop. apply for_pixels_invariant; [exact H|].
  intros row col acc Ha. apply Image_write_shape. exact Ha.
Qed.

(** What a request that [createImage] answers with an image has passed,
    and the branch that built the image. *)
Lemma createImage_ok (d : Driver) (ds : GDALDataset) (key : TileKey) (T : Z)
    (io : IOOptions) (img : Image) :
  createImage NO_DATA_VALUE indeterminate d key T io = Some (Ok img) ->
  _warpedDS d = Some ds ->
  intersects (extent key) (_extents d) = true /\
  let w := planWindow d ds key T (intersectionSameSRS (extent key) (_extents d)) in
  (0 < target_width w)%Z /\ (0 < target_height w)%Z /\
  let roles := resolveBands ds in
  match bandRed roles, bandGreen roles, bandBlue roles with
  | Some bR, Some bG, Some bB =>
      img = createImage_rgb indeterminate d w T bR bG bB (bandAlpha roles)
  | _, _, _ =>
      match bandGray roles with
      | Some bGray =>
          img = createImage_gray NO_DATA_VALUE indeterminate d w T bGray (bandAlpha roles)
      | None =>
          match bandPalette roles with
          | Some bP => img = createImage_palette indeterminate d w T bP
          | None => False
          end
      end
  end.
Proof.
  intros H Hds. unfold createImage in H. rewrite Hds in H.
  destruct (match maxDataLevel d with Some m => _ | None => _ end); [discriminate|].
  destruct (canceled io); [discriminate|].
  rewrite intersection_valid in H.
  destruct (intersects (extent key) (_extents d)) eqn:Ei; [|discriminate].
  cbn [negb] in H. cbv zeta in H.
  split; [reflexivity|]. cbv zeta.
  set (w := planWindow d ds key T _) in *.
  destruct (Qle_bool (src_width w) 0); [discriminate|].
  destruct (Qle_bool (src_height w) 0); [discriminate|].
  destruct (target_width w <=? 0)%Z eqn:Ew; [discriminate|].
  destruct (target_height w <=? 0)%Z eqn:Eh; [discriminate|].
  cbn [orb] in H.
  split; [lia|]. split; [lia|].
  destruct (bandRed (resolveBands ds)), (bandGreen (resolveBands ds)),
    (bandBlue (resolveBands ds)); try (injection H as <-; reflexivity);
    destruct (bandGray (resolveBands ds)); try (injection H as <-; reflexivity);
    destruct (bandPalette (resolveBands ds)); try (injection H as <-; reflexivity);
    discriminate.
Qed.

Lemma createImage_sampling_dataset (d : Driver) (key : TileKey) (T : Z)
    (io : IOOptions) (img : Image) :
  createImage NO_DATA_VALUE indeterminate d key T io = Some (Ok img) ->
  exists ds, _warpedDS d = Some ds.
Proof.
  intros H. destruct (_warpedDS d) as [ds|] eqn:E; [exists ds; reflexivity|].
  exfalso. unfold createImage in H. rewrite E in H.
  destruct (match maxDataLevel d with Some m => _ | None => _ end); [discriminate|].
  destruct (canceled io); [discriminate|].
  destruct (negb _); discriminate.
Qed.

Lemma pixelAt_fill (f : PixelFormat) (T : Z) (c : fvec4) (x y : Z) :
  (0 <= x < T)%Z -> (0 <= y < T)%Z ->
  pixelAt (Image_fill f T T c) x y = Some (encode f c).
Proof.
  intros Hx Hy. unfold pixelAt, Image_fill. cbn [img_width img_height img_data].
  replace ((0 <=? x)%Z && (x <? T)%Z && (0 <=? y)%Z && (y <? T)%Z) with true
    by (symmetry; repeat (apply andb_true_intro; split); lia).
  apply lookup_replicate_2. apply (cell_lt T y x); assumption.
Qed.

(** X1.  Every image [createImage] returns is a tile of exactly
    [tileSize] x [tileSize] pixels, whatever branch built it and however
    small the part of the tile the dataset covers. *)
Theorem createImage_tile_shape (d : Driver) (key : TileKey) (T : Z)
    (io : IOOptions) (img : Image) :
  createImage NO_DATA_VALUE indeterminate d key T io = Some (Ok img) ->
  img_width img = T /\ img_height img = T
  /\ length (img_data img) = Z.to_nat (T * T).
Proof.
  intros H. destruct (createImage_sampling_dataset _ _ _ _ _ H) as [ds Hds].
  destruct (createImage_ok _ _ _ _ _ _ H Hds) as (_ & _ & _ & Hb). cbv zeta in Hb.
  fold (img_shape T img).
  destruct (bandRed (resolveBands ds)), (bandGreen (resolveBands ds)),
    (bandBlue (resolveBands ds));
    try (subst img; rewrite createImage_rgb_loop; apply write_loop_shape, Image_fill_shape);
    (destruct (bandGray (resolveBands ds)) as [bGray|];
     [subst img;
      destruct (createImage_gray_loop d
                  (planWindow d ds key T (intersectionSameSRS (extent key) (_extents d)))
                  T bGray (bandAlpha (resolveBands ds))) as (colour & [-> | ->]);
      apply write_loop_shape, Image_fill_shape
     |destruct (bandPalette (resolveBands ds)); [|contradiction];
      subst img; rewrite createImage_palette_loop;
      apply write_loop_shape, Image_fill_shape]).
Qed.

(** C6, as the code has it.  On the palette branch [createImage] raises
    no failure: it returns the tile the palette loops make of the window
    it planned.  And whatever window inside the tile these loops are
    given: when the colour table has no entry for the palette index
    sampled for source pixel [(col, row)], the output pixel of that
    source pixel, at column [tile_offset_left + col] of row
    [tileSize - 1 - (tile_offset_top + row)], is (1, 0, 0, 0): the red
    marker of the lookup with its alpha forced to 0 by the compositor, a
    fully transparent pixel. *)
Theorem missing_palette_entry_transparent (d : Driver) (ds : GDALDataset)
    (key : TileKey) (T : Z) (io : IOOptions) (bPalette : GDALRasterBand) :
  served d ds key io ->
  let w := planWindow d ds key T (intersectionSameSRS (extent key) (_extents d)) in
  0 < src_width w -> 0 < src_height w ->
  (0 < target_width w)%Z -> (0 < target_height w)%Z ->
  bandRed (resolveBands ds) = None -> bandGray (resolveBands ds) = None ->
  bandPalette (resolveBands ds) = Some bPalette ->
  createImage NO_DATA_VALUE indeterminate d key T io
  = Some (Ok (createImage_palette indeterminate d w T bPalette))
  /\ forall w' : Window,
       placed w' T -> (T * T < 2147483648)%Z -> unscaled bPalette ->
       forall row col,
         (0 <= row < target_height w')%Z -> (0 <= col < target_width w')%Z ->
         GetColorEntry (GetColorTable bPalette)
                       (paletteIndexAt indeterminate w' bPalette row col) = None ->
         exists c,
           pixelAt (createImage_palette indeterminate d w' T bPalette)
                   (tile_offset_left w' + col) (T - 1 - (tile_offset_top w' + row))
           = Some c
           /\ r c == 1 /\ g c == 0 /\ b c == 0 /\ a c == 0.
Proof.
  intros (Hl & Hc & Hi & Hw) w Hsw Hsh Htw Hth HR HG HP. split.
  - unfold createImage. rewrite (level_gate d key Hl), Hc, intersection_valid, Hi, Hw.
    cbn [negb]. fold w.
    replace (Qle_bool (src_width w) 0) with false
      by (symmetry; apply not_true_iff_false; rewrite Qle_bool_iff; lra).
    replace (Qle_bool (src_height w) 0) with false
      by (symmetry; apply not_true_iff_false; rewrite Qle_bool_iff; lra).
    replace (target_width w <=? 0)%Z with false by (symmetry; apply Z.leb_gt; lia).
    replace (target_height w <=? 0)%Z with false by (symmetry; apply Z.leb_gt; lia).
    cbn [orb]. rewrite HR, HG, HP. reflexivity.
  - intros w' Hp _ _ row col Hrow Hcol Hmiss.
    rewrite createImage_palette_loop.
    destruct (write_loop_spec w' T
                (fun row col =>
                   paletteColor d bPalette (paletteIndexAt indeterminate w' bPalette row col))
                R8G8B8A8_UNORM (Image_fill R8G8B8A8_UNORM T T (mkF4 0 0 0 0)) Hp
                (Image_fill_shape _ T _) eq_refl) as (_ & _ & Hput & _).
    eexists. split; [apply (Hput row col Hrow Hcol)|].
    cbn [encode]. unfold paletteColor. rewrite (missing_entry_lookup _ _ Hmiss).
    cbn. repeat split; reflexivity.
Qed.

Lemma write_loop_pixels (P : fvec4 -> Prop) w T colour img :
  Forall P (img_data img) ->
  (forall row col, P (encode (pixelFormat img) (colour row col))) ->
  pixelFormat (write_loop w T colour img) = pixelFormat img
  /\ Forall P (img_data (write_loop w T colour img)).
Proof.
  intros Hall Hc. unfold write_loop.
  apply (for_pixels_invariant
           (fun im => pixelFormat im = pixelFormat img /\ Forall P (img_data im))).
  - split; [reflexivity|exact Hall].
  - intros row col acc [Hf Ha]. split.
    + rewrite Image_write_format. exact Hf.
    + apply Image_write_pixels; [exact Ha|]. rewrite Hf. apply Hc.
Qed.

Lemma to_u8_range (z : Z) : (0 <= to_u8 z <= 255)%Z.
Proof. unfold to_u8. pose proof (Z.mod_pos_bound z 256). lia. Qed.

Lemma unit_of_byte (z : Z) : (0 <= z <= 255)%Z -> 0 <= inject_Z z / 255 <= 1.
Proof.
  intros [H0 H1]. rewrite Zle_Qle in H0, H1.
  change (inject_Z 0) with 0 in H0. change (inject_Z 255) with 255 in H1.
  split.
  - apply Qle_shift_div_l; lra.
  - apply Qle_shift_div_r; lra.
Qed.

Lemma byte_at_unit (buf : list Q) (i : Z) : 0 <= byte_at indeterminate buf i / 255 <= 1.
Proof. unfold byte_at. apply unit_of_byte, to_u8_range. Qed.

Lemma zero_unit : 0 <= 0 / 255 <= 1.
Proof. split; [apply Qle_shift_div_l|apply Qle_shift_div_r]; lra. Qed.

Lemma full_unit : 0 <= 255 / 255 <= 1.
Proof. split; [apply Qle_shift_div_l|apply Qle_shift_div_r]; lra. Qed.

Lemma rgbPixel_unit d w bR bG bB bA row col :
  unit_colour (rgbPixel indeterminate d w bR bG bB bA row col).
Proof.
  unfold rgbPixel. cbv zeta.
  destruct (_ || _); unfold unit_colour, set_a, fvec4_div; cbn [r g b a];
    repeat split; try apply byte_at_unit; lra.
Qed.

Lemma grayPixel_unit d w bGray bA row col :
  unit_colour (grayPixel indeterminate d w bGray bA row col).
Proof.
  unfold grayPixel. cbv zeta.
  destruct (_ || _), bA as [bnd|]; unfold unit_colour, set_a, fvec4_div; cbn [r g b a];
    repeat split; try apply byte_at_unit; try apply zero_unit; try apply full_unit.
Qed.

Lemma palette_entry_bytes (band : GDALRasterBand) (p : Z) :
  let c := snd (getPalleteIndexColor band p) in
  (0 <= u8r c <= 255)%Z /\ (0 <= u8g c <= 255)%Z /\ (0 <= u8b c <= 255)%Z
  /\ (0 <= u8a c <= 255)%Z.
Proof.
  cbv zeta. unfold getPalleteIndexColor.
  destruct (GetColorEntry _ _) as [e|]; [|cbn; lia].
  destruct (paletteInterpretation _); cbv zeta; try (cbn [snd u8r u8g u8b u8a];
    repeat split; try apply to_u8_range; lia).
  destruct (if Qeqb _ 0 then _ else _) as [[R G] B]. cbn [snd u8r u8g u8b u8a].
  unfold float_to_u8. repeat split; try apply to_u8_range; lia.
Qed.

Lemma paletteColor_unit d bP p : unit_colour (paletteColor d bP p).
Proof.
  unfold paletteColor.
  pose proof (palette_entry_bytes bP p) as (Hr & Hg & Hb & Ha). cbv zeta in Hr, Hg, Hb, Ha.
  destruct (getPalleteIndexColor bP p) as [found color]. cbn [snd] in *.
  destruct (negb found); [|destruct (negb _)];
    unfold unit_colour, fvec4_div, fvec4_of_u8; cbn [r g b a u8r u8g u8b u8a];
    repeat split; try (apply unit_of_byte; assumption); try (apply unit_of_byte; lia).
Qed.

Lemma write_loop_format w T colour img :
  pixelFormat (write_loop w T colour img) = pixelFormat img.
Proof.
  apply (write_loop_pixels (fun _ => True)); [|intros; exact I].
  apply Forall_forall. intros; exact I.
Qed.

(** X5.  Every component of every pixel of a colour tile (format
    R8G8B8A8_UNORM) lies in [0, 1], in the RGB, the grey + alpha and the
    palette branch alike. *)
Theorem colour_tiles_normalised (d : Driver) (key : TileKey) (T : Z)
    (io : IOOptions) (img : Image) :
  createImage NO_DATA_VALUE indeterminate d key T io = Some (Ok img) ->
  pixelFormat img = R8G8B8A8_UNORM ->
  Forall unit_colour (img_data img).
Proof.
  intros H Hfmt. destruct (createImage_sampling_dataset _ _ _ _ _ H) as [ds Hds].
  destruct (createImage_ok _ _ _ _ _ _ H Hds) as (_ & _ & _ & Hb). cbv zeta in Hb.
  assert (Hfill : Forall unit_colour
                    (img_data (Image_fill R8G8B8A8_UNORM T T (mkF4 0 0 0 0)))).
  { cbn. apply Forall_replicate. unfold unit_colour. cbn. repeat split; lra. }
  destruct (bandRed (resolveBands ds)), (bandGreen (resolveBands ds)),
    (bandBlue (resolveBands ds));
    try (subst img; rewrite createImage_rgb_loop;
         apply write_loop_pixels; [exact Hfill|intros; apply rgbPixel_unit]);
    (destruct (bandGray (resolveBands ds)) as [bGray|];
     [rewrite createImage_gray_cases in Hb; destruct (isElevation bGray);
      [subst img; rewrite write_loop_format in Hfmt; discriminate
      |subst img; apply write_loop_pixels; [exact Hfill|intros; apply grayPixel_unit]]
     |destruct (bandPalette (resolveBands ds)); [|contradiction];
      subst img; rewrite createImage_palette_loop;
      apply write_loop_pixels; [exact Hfill|intros; apply paletteColor_unit]]).
Qed.

Lemma getValidElevationValue_cases (d : Driver) (v nd rep : Q) :
  getValidElevationValue d v nd rep = rep
  \/ (getValidElevationValue d v nd rep = v /\ accepted d v nd).
Proof.
  unfold getValidElevationValue, accepted.
  destruct (has_value (noDataValue d) v); [left; reflexivity|].
  destruct (Qeqb nd v); [left; reflexivity|]. cbn [orb].
  destruct (below (minValidValue d) v); [left; reflexivity|].
  destruct (above (maxValidValue d) v); [left; reflexivity|].
  right. repeat split; reflexivity.
Qed.

Lemma byte_of_full (n i : Z) :
  (0 <= i < n)%Z -> byte_at indeterminate (replicate (Z.to_nat n) 255) i = 255.
Proof.
  intros Hi. unfold byte_at, peek.
  replace (i <? 0)%Z with false by (symmetry; lia).
  rewrite lookup_replicate_2 by lia. reflexivity.
Qed.

Lemma source_index (w : Window) (row col : Z) :
  (0 <= target_width w)%Z ->
  (0 <= row < target_height w)%Z -> (0 <= col < target_width w)%Z ->
  (0 <= col + row * target_width w < target_width w * target_height w)%Z.
Proof. intros Hw Hr Hc. nia. Qed.

(** X2.  Whatever destination window inside the tile the pixel loops of
    [createImage] are given, the pixels outside that window keep the
    initial fill of the tile: transparent black in a colour tile, the
    nodata sentinel in an elevation tile. *)
Theorem outside_window_keeps_fill (d : Driver) (w : Window) (T : Z) (x y : Z) :
  placed w T -> (T * T < 2147483648)%Z ->
  (0 <= x < T)%Z -> (0 <= y < T)%Z -> ~ in_window w T x y ->
  (forall bR bG bB bA,
     pixelAt (createImage_rgb indeterminate d w T bR bG bB bA) x y = Some (mkF4 0 0 0 0))
  /\ (forall bGray bA,
        pixelAt (createImage_gray NO_DATA_VALUE indeterminate d w T bGray bA) x y
        = Some (if isElevation bGray then mkF4 NO_DATA_VALUE 0 0 0 else mkF4 0 0 0 0))
  /\ (forall bP,
        pixelAt (createImage_palette indeterminate d w T bP) x y = Some (mkF4 0 0 0 0)).
Proof.
  intros Hp _ Hx Hy Hout.
  assert (G : forall colour f c,
             pixelAt (write_loop w T colour (Image_fill f T T c)) x y = Some (encode f c)).
  { intros colour f c.
    destruct (write_loop_spec w T colour f (Image_fill f T T c) Hp
                (Image_fill_shape f T c) eq_refl) as (_ & _ & _ & Hkeep).
    cbv zeta in Hkeep. rewrite (Hkeep x y Hx Hy Hout).
    apply pixelAt_fill; assumption. }
  split; [|split].
  - intros bR bG bB bA. rewrite createImage_rgb_loop. apply G.
  - intros bGray bA. rewrite createImage_gray_cases.
    destruct (isElevation bGray); apply G.
  - intros bP. rewrite createImage_palette_loop. apply G.
Qed.

(** X3.  Whatever destination window inside the tile the pixel loops of
    [createImage] are given, the pixel they compute for source pixel
    [(col, row)] of the window read is found at column
    [tile_offset_left + col] of row
    [tileSize - 1 - (tile_offset_top + row)] of the tile: the window is
    placed at its offset and flipped vertically, and no later write
    overwrites it.  The pixel is told by what it is made of, on bands
    without scale and offset: in the RGB branch its colour components are
    the three bytes read for the source pixel, over 255, and its alpha is
    the alpha byte over 255, or 0; in the grey branch all three colour
    components are the grey byte over 255; in the palette branch (RGB or
    CMYK table) they are those of the lookup of the index read; in the
    elevation branch (16-bit signed or float samples) its value is the
    sample read, or the nodata sentinel. *)
Theorem tile_pixels_flipped (d : Driver) (w : Window) (T : Z) (row col : Z) :
  placed w T -> (T * T < 2147483648)%Z ->
  (0 <= row < target_height w)%Z -> (0 <= col < target_width w)%Z ->
  let x := (tile_offset_left w + col)%Z in
  let y := (T - 1 - (tile_offset_top w + row))%Z in
  let interp := interpolation (_layer d) in
  (forall bR bG bB bA,
     unscaled bR -> unscaled bG -> unscaled bB ->
     match bA with Some bnd => unscaled bnd | None => True end ->
     exists c,
       pixelAt (createImage_rgb indeterminate d w T bR bG bB bA) x y = Some c
       /\ r c == byteRead indeterminate bR w interp indeterminate row col / 255
       /\ g c == byteRead indeterminate bG w interp indeterminate row col / 255
       /\ b c == byteRead indeterminate bB w interp indeterminate row col / 255
       /\ (a c == alphaRead indeterminate bA w interp row col / 255 \/ a c == 0))
  /\ (forall bGray bA,
        unscaled bGray ->
        match bA with Some bnd => unscaled bnd | None => True end ->
        exists c,
          pixelAt (createImage_gray NO_DATA_VALUE indeterminate d w T bGray bA) x y = Some c
          /\ match GetRasterDataType bGray with
             | GDT_UInt16 => True
             | GDT_Int16 | GDT_Float32 =>
                 r c = NO_DATA_VALUE
                 \/ r c = heightRead indeterminate bGray w interp row col
             | _ =>
                 r c == byteRead indeterminate bGray w interp indeterminate row col / 255
                 /\ g c == r c /\ b c == r c
                 /\ (a c == alphaRead indeterminate bA w interp row col / 255 \/ a c == 0)
             end)
  /\ (forall bP,
        unscaled bP ->
        paletteInterpretation (GetColorTable bP) = GPI_RGB
        \/ paletteInterpretation (GetColorTable bP) = GPI_CMYK ->
        let e := snd (getPalleteIndexColor bP (paletteIndexAt indeterminate w bP row col)) in
        exists c,
          pixelAt (createImage_palette indeterminate d w T bP) x y = Some c
          /\ r c == inject_Z (u8r e) / 255 /\ g c == inject_Z (u8g e) / 255
          /\ b c == inject_Z (u8b e) / 255
          /\ (a c == inject_Z (u8a e) / 255 \/ a c == 0)).
Proof.
  intros Hp _ Hrow Hcol. cbv zeta.
  assert (G : forall colour f c,
             pixelAt (write_loop w T colour (Image_fill f T T c))
                     (tile_offset_left w + col) (T - 1 - (tile_offset_top w + row))
             = Some (encode f (colour row col))).
  { intros colour f c.
    destruct (write_loop_spec w T colour f (Image_fill f T T c) Hp
                (Image_fill_shape f T c) eq_refl) as (_ & _ & Hput & _).
    apply (Hput row col Hrow Hcol). }
  assert (Hidx : (0 <= col + row * target_width w < target_width w * target_height w)%Z).
  { apply source_index; try assumption. destruct Hp as (_ & _ & H & _). exact H. }
  split; [|split].
  - intros bR bG bB bA _ _ _ _. rewrite createImage_rgb_loop, G.
    eexists. split; [reflexivity|]. cbn [encode].
    unfold rgbPixel, byteRead, alphaRead, byteRead, new_buffer. cbv zeta.
    destruct (_ || _); cbn [set_a fvec4_div r g b a];
      (split; [reflexivity|]); (split; [reflexivity|]); (split; [reflexivity|]).
    + right. reflexivity.
    + left. destruct bA as [bnd|]; [reflexivity|].
      rewrite (byte_of_full _ _ Hidx). reflexivity.
  - intros bGray bA _ _. rewrite createImage_gray_cases.
    unfold isElevation.
    destruct (GetRasterDataType bGray) eqn:Ety; rewrite G; eexists;
      (split; [reflexivity|]); cbn [encode r g b a];
      try exact I;
      try (unfold elevationSample, heightRead; rewrite Ety; cbv zeta;
           match goal with
           | |- context [getValidElevationValue d ?v ?nd ?rep] =>
               destruct (getValidElevationValue_cases d v nd rep) as [E | [E _]];
               rewrite E; [left | right]; reflexivity
           end);
      (unfold grayPixel, byteRead, alphaRead, byteRead, new_buffer; cbv zeta;
       destruct (_ || _); cbn [set_a fvec4_div r g b a];
       (split; [reflexivity|]); (split; [reflexivity|]); (split; [reflexivity|]);
       [right; reflexivity | left; destruct bA as [bnd|]; reflexivity]).
  - intros bP _ _. rewrite createImage_palette_loop, G.
    eexists. split; [reflexivity|]. cbn [encode]. unfold paletteColor.
    destruct (getPalleteIndexColor bP _) as [found color]. cbn [snd].
    destruct (negb found); [|destruct (negb _)];
      cbn [fvec4_div fvec4_of_u8 r g b a u8r u8g u8b u8a];
      (split; [reflexivity|]); (split; [reflexivity|]); (split; [reflexivity|]);
      first [right; reflexivity | left; reflexivity].
Qed.

(** X7.  A palette raster is read with nearest-neighbour resampling
    whatever interpolation is configured: on a dataset without red and
    grey band, [createImage] gives the same result for any two
    interpolations. *)
Theorem palette_ignores_interpolation (d : Driver) (ds : GDALDataset) (key : TileKey)
    (T : Z) (io : IOOptions) (i i' : Interpolation) :
  _warpedDS d = Some ds ->
  bandRed (resolveBands ds) = None -> bandGray (resolveBands ds) = None ->
  createImage NO_DATA_VALUE indeterminate (with_interpolation i d) key T io
  = createImage NO_DATA_VALUE indeterminate (with_interpolation i' d) key T io.
Proof.
  intros Hds HR HG. unfold createImage.
  cbn [with_interpolation maxDataLevel _extents _warpedDS].
  rewrite Hds, HR, HG. reflexivity.
Qed.

End ImageTiles.

(** ** Heightfield tiles *)

Lemma applyScaleAndOffsetT_length (T : SampleType) (data : list Q) (n : nat)
    (scale offset : Q) :
  length (applyScaleAndOffsetT T data n scale offset) = length data.
Proof.
  revert data. induction n as [|n IH]; intros [|f rest]; cbn; try reflexivity.
  rewrite IH. reflexivity.
Qed.

Lemma applyScaleAndOffset_length (band : GDALRasterBand) (data : list Q)
    (ty : GDALDataType) (w h : Z) :
  length (applyScaleAndOffset band data ty w h) = length data.
Proof.
  unfold applyScaleAndOffset. destruct (_ || _); [|reflexivity].
  destruct (sampleType ty); [apply applyScaleAndOffsetT_length|reflexivity].
Qed.

(** X8.  The validity routines agree with each other.  The band overload
    of [isValidValue] accepts a value exactly when the overload taking a
    nodata value accepts it and the value is not the user's nodata
    override, which that overload does not consult; and
    [getValidElevationValue] returns the value itself exactly when the
    band overload accepts it, and the replacement otherwise. *)
Theorem validity_tests_agree (d : Driver) (v : Q) (band : GDALRasterBand) :
  isValidValue_band d v band
  = isValidValue d v (bandNoData band) && negb (has_value (noDataValue d) v)
  /\ forall replacement,
       getValidElevationValue d v (bandNoData band) replacement
       = if isValidValue_band d v band then v else replacement.
Proof.
  unfold isValidValue_band, isValidValue, getValidElevationValue, bandNoData.
  split; [|intros replacement];
    destruct (Qeqb _ v), (has_value (noDataValue d) v), (below (minValidValue d) v),
      (above (maxValidValue d) v); reflexivity.
Qed.

Section HeightTiles.

Variables (NO_DATA_VALUE indeterminate : Q) (GDAL_3_10 : bool).

Lemma sampleByPoint_shape d ds band T xmin_ ymin_ dx dy hf :
  hf_shape T hf ->
  hf_shape T (sampleByPoint NO_DATA_VALUE indeterminate GDAL_3_10 d ds band T
                xmin_ ymin_ dx dy hf).
Proof.
  intros H. unfold sampleByPoint. apply for_pixels_invariant; [exact H|].
  intros row col acc Ha. apply set_heightAt_shape. exact Ha.
Qed.

Lemma sampleByWorkspace_shape d ds band T x0 y0 x1 y1 dx dy hf hf' :
  hf_shape T hf ->
  sampleByWorkspace NO_DATA_VALUE indeterminate d ds band T x0 y0 x1 y1 dx dy hf
  = Ok hf' ->
  hf_shape T hf'.
Proof.
  intros H E. unfold sampleByWorkspace in E.
  destruct (workspaceWindow _ _ _ _ _ _ _) as [[[cmin cmax] rmin] rmax].
  destruct (RasterIO band _) as [samples|]; [|discriminate].
  destruct (pixelToGeo _ _ _) as [bx0 by0].
  destruct (pixelToGeo _ _ _) as [bx1 by1].
  injection E as <-.
  match goal with
  | |- hf_shape T (mkHeightfield (hf_width ?h) _ _) =>
      assert (Hs : hf_shape T h)
  end.
  { apply for_pixels_invariant; [exact H|].
    intros row col acc Ha. apply set_heightAt_shape. exact Ha. }
  destruct Hs as (Hw & Hh & Hl).
  repeat split; cbn [hf_width hf_height hf_data]; try assumption.
  rewrite applyScaleAndOffset_length. exact Hl.
Qed.

(** What a request that [createHeightfield] answers with a heightfield
    has passed, and the path that built it. *)
Lemma createHeightfield_ok (d : Driver) (key : TileKey) (T : Z) (io : IOOptions)
    (hf : Heightfield) :
  createHeightfield NO_DATA_VALUE indeterminate GDAL_3_10 d key T io = Some (Ok hf) ->
  exists ds band,
    _warpedDS d = Some ds /\ GetRasterBand ds 1 = Some band /\
    intersects (extent key) (_extents d) = true /\
    let tile_xmin := xmin (ge_box (extent key)) in
    let tile_ymin := ymin (ge_box (extent key)) in
    let tile_xmax := xmax (ge_box (extent key)) in
    let tile_ymax := ymax (ge_box (extent key)) in
    let dx := (tile_xmax - tile_xmin) / inject_Z (wrap_uint32 (T - 1)) in
    let dy := (tile_ymax - tile_ymin) / inject_Z (wrap_uint32 (T - 1)) in
    let hf0 := Heightfield_fill T T NO_DATA_VALUE in
    if _pixelIsArea d && negb (Interpolation_eqb (interpolation (_layer d)) NEAREST)
    then hf = sampleByPoint NO_DATA_VALUE indeterminate GDAL_3_10 d ds band T
                tile_xmin tile_ymin dx dy hf0
    else sampleByWorkspace NO_DATA_VALUE indeterminate d ds band T
           tile_xmin tile_ymin tile_xmax tile_ymax dx dy hf0 = Ok hf.
Proof.
  intros H. unfold createHeightfield in H.
  destruct (match maxDataLevel d with Some m => _ | None => _ end); [discriminate|].
  destruct (canceled io); [discriminate|].
  rewrite intersection_valid in H.
  destruct (intersects (extent key) (_extents d)) eqn:Ei; [|discriminate].
  cbn [negb] in H. cbv zeta in H.
  destruct (_warpedDS d) as [ds|]; [|discriminate].
  destruct (GetRasterBand ds 1) as [band|] eqn:Eb; [|discriminate].
  exists ds, band. split; [reflexivity|]. split; [exact Eb|]. split; [reflexivity|].
  cbv zeta.
  destruct (_pixelIsArea d && _).
  - injection H as <-. reflexivity.
  - injection H as H. exact H.
Qed.

(** X9.  Every heightfield [createHeightfield] returns has exactly
    [tileSize] x [tileSize] samples, on the point-sampling and on the
    workspace path. *)
Theorem createHeightfield_tile_shape (d : Driver) (key : TileKey) (T : Z)
    (io : IOOptions) (hf : Heightfield) :
  createHeightfield NO_DATA_VALUE indeterminate GDAL_3_10 d key T io = Some (Ok hf) ->
  hf_width hf = T /\ hf_height hf = T /\ length (hf_data hf) = Z.to_nat (T * T).
Proof.
  intros H. destruct (createHeightfield_ok d key T io hf H)
    as (ds & band & _ & _ & _ & Hb). cbv zeta in Hb.
  fold (hf_shape T hf).
  destruct (_pixelIsArea d && _).
  - subst hf. apply sampleByPoint_shape, Heightfield_fill_shape.
  - eapply sampleByWorkspace_shape; [apply Heightfield_fill_shape|exact Hb].
Qed.

Lemma heightAt_lookup (T : Z) (hf : Heightfield) (c r : Z) :
  hf_shape T hf -> (0 <= c < T)%Z -> (0 <= r < T)%Z ->
  heightAt hf c r = hf_data hf !! cell T r c.
Proof.
  intros (Hw & Hh & _) Hc Hr. unfold heightAt. rewrite Hw, Hh.
  replace ((0 <=? c)%Z && (c <? T)%Z && (0 <=? r)%Z && (r <? T)%Z) with true
    by (symmetry; repeat (apply andb_true_intro; split); lia).
  reflexivity.
Qed.

(** X10.  With area convention and an interpolation other than nearest,
    the sample of column [c] in row [r] of the returned heightfield is
    [getInterpolatedDEMValue] at the position [c] sampling intervals east
    and [r] intervals north of the tile's south-west corner, times the
    linear units; the interval is the tile's extent divided by
    [tileSize - 1]. *)
Theorem area_samples_by_point (d : Driver) (ds : GDALDataset) (band : GDALRasterBand)
    (key : TileKey) (T : Z) (io : IOOptions) (hf : Heightfield) :
  createHeightfield NO_DATA_VALUE indeterminate GDAL_3_10 d key T io = Some (Ok hf) ->
  _warpedDS d = Some ds -> GetRasterBand ds 1 = Some band ->
  _pixelIsArea d = true -> interpolation (_layer d) <> NEAREST ->
  (1 < T < 4294967296)%Z ->
  let dx := ge_width (extent key) / inject_Z (T - 1) in
  let dy := ge_height (extent key) / inject_Z (T - 1) in
  forall c r, (0 <= c < T)%Z -> (0 <= r < T)%Z ->
    heightAt hf c r
    = Some (getInterpolatedDEMValue NO_DATA_VALUE indeterminate GDAL_3_10 d ds band
              (xmin (ge_box (extent key)) + dx * inject_Z c)
              (ymin (ge_box (extent key)) + dy * inject_Z r) true
            * _linearUnits d).
Proof.
  intros H Hds Hband Harea Hinterp HT dx dy c r Hc Hr.
  destruct (createHeightfield_ok d key T io hf H)
    as (ds' & band' & Hds' & Hband' & _ & Hb). cbv zeta in Hb.
  rewrite Hds in Hds'. injection Hds' as <-.
  rewrite Hband in Hband'. injection Hband' as <-.
  rewrite Harea in Hb.
  assert (E : Interpolation_eqb (interpolation (_layer d)) NEAREST = false)
    by (destruct (interpolation (_layer d)); try reflexivity; contradiction).
  rewrite E in Hb. cbn [negb andb] in Hb.
  rewrite wrap_uint32_small in Hb by lia.
  unfold sampleByPoint in Hb.
  match type of Hb with
  | hf = for_pixels T T (fun r c hf => set_heightAt hf c r (@?f r c)) ?init =>
      destruct (for_pixels_tabulates T f init) as [Hs Hl];
        [lia|apply Heightfield_fill_shape|]
  end.
  cbv zeta in Hs, Hl. rewrite <- Hb in Hs, Hl.
  rewrite (heightAt_lookup T hf c r Hs Hc Hr), (Hl r c Hr Hc). reflexivity.
Qed.

End HeightTiles.

Lemma Qgtb_le (x y : Q) : Qgtb x y = false -> x <= y.
Proof. unfold Qgtb. intros H. apply Qltb_ge in H. exact H. Qed.

Lemma clamp_range (x lo hi : Q) : lo <= hi -> lo <= clamp x lo hi <= hi.
Proof.
  intros H. unfold clamp.
  destruct (Qltb x lo) eqn:E1; [lra|]. apply Qltb_ge in E1.
  destruct (Qgtb x hi) eqn:E2; [lra|]. unfold Qgtb in E2. apply Qltb_ge in E2. lra.
Qed.

Lemma clampZ_range (x lo hi : Z) : (lo <= hi)%Z -> (lo <= clampZ x lo hi <= hi)%Z.
Proof.
  intros H. unfold clampZ.
  destruct (x <? lo)%Z eqn:E1; [lia|].
  destruct (x >? hi)%Z eqn:E2; lia.
Qed.

Lemma mix_bounds (t x y lo hi : Q) :
  0 <= t <= 1 -> lo <= x <= hi -> lo <= y <= hi ->
  lo <= t * x + (1 - t) * y <= hi.
Proof.
  intros [T0 T1] [X0 X1] [Y0 Y1].
  assert (A1 : 0 <= t * (x - lo)) by (apply Qmult_le_0_compat; lra).
  assert (A2 : 0 <= (1 - t) * (y - lo)) by (apply Qmult_le_0_compat; lra).
  assert (A3 : 0 <= t * (hi - x)) by (apply Qmult_le_0_compat; lra).
  assert (A4 : 0 <= (1 - t) * (hi - y)) by (apply Qmult_le_0_compat; lra).
  split.
  - assert (E : t * x + (1 - t) * y - lo == t * (x - lo) + (1 - t) * (y - lo)) by ring.
    lra.
  - assert (E : hi - (t * x + (1 - t) * y) == t * (hi - x) + (1 - t) * (hi - y)) by ring.
    lra.
Qed.

Lemma trunc_range (x : Q) (lo hi : Z) :
  (lo <= 0 <= hi)%Z -> inject_Z lo <= x <= inject_Z hi -> (lo <= trunc x <= hi)%Z.
Proof.
  intros Hz [H0 H1]. unfold trunc. destruct (Qle_bool 0 x) eqn:E.
  - apply Qle_bool_iff in E. split.
    + pose proof (Qfloor_nonneg x E). lia.
    + rewrite <- (Qfloor_Z hi). apply Qfloor_resp_le. exact H1.
  - assert (x < 0).
    { apply Qnot_le_lt. intros C. apply Qle_bool_iff in C. congruence. }
    split.
    + rewrite <- (Qceiling_Z lo). apply Qceiling_resp_le. exact H0.
    + assert (Qceiling x <= 0)%Z; [|lia].
      change 0%Z with (Qceiling 0). apply Qceiling_resp_le. lra.
Qed.

Section Workspace.

Variables (NO_DATA_VALUE indeterminate : Q).

(** The samples the nearest lookup may address. *)
Lemma nearest_index (x : Q) (n : Z) :
  (0 < n < 2147483648)%Z ->
  (0 <= to_int (clamp x 0 (inject_Z n - 1)) < n)%Z.
Proof.
  intros Hn.
  assert (Hq : 0 <= inject_Z n - 1).
  { assert (1 <= n)%Z by lia. rewrite Zle_Qle in H. change (inject_Z 1) with 1 in H. lra. }
  pose proof (clamp_range x 0 (inject_Z n - 1) Hq) as [C0 C1].
  assert (R : (0 <= trunc (clamp x 0 (inject_Z n - 1)) <= n - 1)%Z).
  { apply trunc_range; [lia|]. split; [exact C0|].
    unfold Z.sub. rewrite inject_Z_plus. exact C1. }
  unfold to_int. rewrite wrap_int32_small; lia.
Qed.

Lemma in_grid (r c w h : Z) :
  (0 <= r < h)%Z -> (0 <= c < w)%Z -> (0 <= r * w + c < w * h)%Z.
Proof. intros Hr Hc. nia. Qed.

(** The workspace lookup, spelled out: a validated sample of the workspace
    (nearest), or a mix of four samples with weights in [0, 1]. *)
Lemma workspace_structure (d : Driver) (band : GDALRasterBand) (u v : Q)
    (data : list Q) (width height : Z) :
  (0 < width < 2147483648)%Z -> (0 < height < 2147483648)%Z ->
  let sample := peek indeterminate data in
  let valid x := isValidValue d x (bandNoData band) in
  let h := getInterpolatedDEMValueWorkspace NO_DATA_VALUE indeterminate d band u v
             data width height in
  (exists i, (0 <= i < width * height)%Z /\
     h = if negb (valid (sample i)) then NO_DATA_VALUE else sample i)
  \/ (exists iNW iNE iSW iSE ww sw,
        (0 <= iNW < width * height)%Z /\ (0 <= iNE < width * height)%Z /\
        (0 <= iSW < width * height)%Z /\ (0 <= iSE < width * height)%Z /\
        0 <= ww <= 1 /\ 0 <= sw <= 1 /\
        if negb (valid (sample iNW)) || negb (valid (sample iNE))
           || negb (valid (sample iSW)) || negb (valid (sample iSE))
        then h = NO_DATA_VALUE
        else h == sw * (ww * sample iSW + (1 - ww) * sample iSE)
                  + (1 - sw) * (ww * sample iNW + (1 - ww) * sample iNE)).
Proof.
  intros Hw Hh. cbv zeta. unfold getInterpolatedDEMValueWorkspace, bandNoData. cbv zeta.
  destruct (Interpolation_eqb (interpolation (_layer d)) NEAREST).
  - left. eexists. split; [|reflexivity].
    pose proof (nearest_index (clamp v 0 1 * inject_Z height) height Hh).
    pose proof (nearest_index (clamp u 0 1 * inject_Z width) width Hw).
    nia.
  - right.
    set (c := clamp u 0 1 * inject_Z width).
    set (r := clamp v 0 1 * inject_Z height).
    pose proof (clampZ_range (to_int (floor c)) 0 (width - 1) ltac:(lia)) as Hc0.
    pose proof (clampZ_range (to_int (ceil c)) 0 (width - 1) ltac:(lia)) as Hc1.
    pose proof (clampZ_range (to_int (floor r)) 0 (height - 1) ltac:(lia)) as Hr0.
    pose proof (clampZ_range (to_int (ceil r)) 0 (height - 1) ltac:(lia)) as Hr1.
    set (col_min := clampZ (to_int (floor c)) 0 (width - 1)) in *.
    set (col_max := clampZ (to_int (ceil c)) 0 (width - 1)) in *.
    set (row_min := clampZ (to_int (floor r)) 0 (height - 1)) in *.
    set (row_max := clampZ (to_int (ceil r)) 0 (height - 1)) in *.
    exists (row_min * width + col_min)%Z, (row_min * width + col_max)%Z,
      (row_max * width + col_min)%Z, (row_max * width + col_max)%Z,
      (clamp (inject_Z col_max + (1 # 2) - c) 0 1),
      (clamp (inject_Z row_max + (1 # 2) - r) 0 1).
    split; [nia|]. split; [nia|]. split; [nia|]. split; [nia|].
    split; [apply clamp_range; lra|]. split; [apply clamp_range; lra|].
    destruct (_ || _); [reflexivity|].
    destruct (Interpolation_eqb (interpolation (_layer d)) AVERAGE); [ring|reflexivity].
Qed.

(** X11.  A height looked up in the workspace is the nodata sentinel, or it
    lies between the smallest and the largest sample of the workspace:
    the nearest lookup returns a sample, and the weights of the bilinear
    and the average lookup are clamped to [0, 1] and sum to 1. *)
Theorem workspace_height_within_samples (d : Driver) (band : GDALRasterBand) (u v : Q)
    (data : list Q) (width height : Z) (lo hi : Q) :
  (0 < width < 2147483648)%Z -> (0 < height < 2147483648)%Z ->
  (forall i, (0 <= i < width * height)%Z -> lo <= peek indeterminate data i <= hi) ->
  let h := getInterpolatedDEMValueWorkspace NO_DATA_VALUE indeterminate d band u v
             data width height in
  h = NO_DATA_VALUE \/ (lo <= h <= hi).
Proof.
  intros Hw Hh Hdata. cbv zeta.
  destruct (workspace_structure d band u v data width height Hw Hh)
    as [(i & Hi & E) | (iNW & iNE & iSW & iSE & ww & sw & H1 & H2 & H3 & H4 & Hww & Hsw & E)];
    cbv zeta in E.
  - destruct (negb _); [left; exact E|]. right. rewrite E. apply Hdata. exact Hi.
  - destruct (_ || _); [left; exact E|]. right. rewrite E.
    apply mix_bounds; [exact Hsw| |]; apply mix_bounds; auto.
Qed.

(** X12.  Over a workspace that holds one valid value everywhere, the
    workspace lookup returns that value at every position, for every
    interpolation. *)
Theorem constant_workspace_constant_height (d : Driver) (band : GDALRasterBand)
    (u v : Q) (data : list Q) (width height : Z) (k : Q) :
  (0 < width < 2147483648)%Z -> (0 < height < 2147483648)%Z ->
  (forall i, (0 <= i < width * height)%Z -> peek indeterminate data i = k) ->
  isValidValue d k (bandNoData band) = true ->
  getInterpolatedDEMValueWorkspace NO_DATA_VALUE indeterminate d band u v
    data width height == k.
Proof.
  intros Hw Hh Hdata Hk.
  destruct (workspace_structure d band u v data width height Hw Hh)
    as [(i & Hi & E) | (iNW & iNE & iSW & iSE & ww & sw & H1 & H2 & H3 & H4 & Hww & Hsw & E)];
    cbv zeta in E.
  - rewrite (Hdata i Hi), Hk in E. cbn [negb] in E. rewrite E. reflexivity.
  - rewrite (Hdata _ H1), (Hdata _ H2), (Hdata _ H3), (Hdata _ H4), Hk in E.
    cbn [negb orb] in E. rewrite E. ring.
Qed.

End Workspace.

Section PointSampling.

Variables (NO_DATA_VALUE indeterminate : Q) (GDAL_3_10 : bool).

(** X13.  Where GDAL's point interpolation is not available or fails, the
    driver's own sampling knows nearest, average and bilinear only: with
    cubic or cubic-spline interpolation configured its result is the
    nodata sentinel or 0, never an interpolated height. *)
Theorem manual_cubic_is_zero (d : Driver) (ds : GDALDataset) (band : GDALRasterBand)
    (x y : Q) (applyOffset : bool) :
  (GDAL_3_10 = false \/ forall c r alg, InterpolateAtPoint band c r alg = None) ->
  interpolation (_layer d) = CUBIC \/ interpolation (_layer d) = CUBICSPLINE ->
  let h := getInterpolatedDEMValue NO_DATA_VALUE indeterminate GDAL_3_10 d ds band
             x y applyOffset in
  h = NO_DATA_VALUE \/ h = 0.
Proof.
  intros Hfast Hi. cbv zeta. unfold getInterpolatedDEMValue.
  destruct (geoToPixel _ _ _ x y) as [c r].
  assert (E : (if GDAL_3_10
               then InterpolateAtPoint band c r (pointAlgFor (interpolation (_layer d)))
               else None) = None).
  { destruct Hfast as [-> | H]; [reflexivity|]. destruct GDAL_3_10; [apply H|reflexivity]. }
  rewrite E. cbv zeta.
  destruct (if applyOffset then _ else _) as [c' r'].
  destruct (_ || _); [left; reflexivity|].
  assert (N : Interpolation_eqb (interpolation (_layer d)) NEAREST = false)
    by (destruct Hi as [-> | ->]; reflexivity).
  rewrite N.
  destruct (_ || _); [left; reflexivity|].
  right. destruct Hi as [-> | ->]; reflexivity.
Qed.

(** X14.  The only failure either tile builder reports is
    [ResourceUnavailable]. *)
Theorem builders_fail_only_unavailable (d : Driver) (key : TileKey) (T : Z)
    (io : IOOptions) (code : StatusCode) :
  createImage NO_DATA_VALUE indeterminate d key T io = Some (Failure code)
  \/ createHeightfield NO_DATA_VALUE indeterminate GDAL_3_10 d key T io
     = Some (Failure code) ->
  code = ResourceUnavailable.
Proof.
  intros [H | H].
  - unfold createImage in H.
    repeat match type of H with
           | context [match ?x with _ => _ end] => destruct x
           | context [if ?x then _ else _] => destruct x
           end; try discriminate; injection H as <-; reflexivity.
  - unfold createHeightfield in H.
    destruct (match maxDataLevel d with Some m => _ | None => _ end);
      [injection H as <-; reflexivity|].
    destruct (canceled io); [injection H as <-; reflexivity|].
    destruct (negb _); [injection H as <-; reflexivity|].
    cbv zeta in H.
    destruct (_warpedDS d) as [ds|]; [|discriminate].
    destruct (GetRasterBand ds 1) as [band|]; [|discriminate].
    destruct (_pixelIsArea d && _); [discriminate|].
    injection H as H. unfold sampleByWorkspace in H.
    destruct (workspaceWindow _ _ _ _ _ _ _) as [[[cmin cmax] rmin] rmax].
    destruct (RasterIO band _); [|injection H as <-; reflexivity].
    destruct (pixelToGeo _ _ _) as [bx0 by0].
    destruct (pixelToGeo _ _ _) as [bx1 by1].
    discriminate.
Qed.

End PointSampling.

Lemma floor_ceil_gap (x : Q) :
  Qceiling x = Qfloor x \/ Qceiling x = (Qfloor x + 1)%Z.
Proof.
  pose proof (Qfloor_le x) as F1. pose proof (Qlt_floor x) as F2.
  pose proof (Qle_ceiling x) as C1. pose proof (Qceiling_lt x) as C2.
  assert (A : (Qfloor x <= Qceiling x)%Z).
  { rewrite Zle_Qle. lra. }
  assert (B : (Qceiling x - 1 < Qfloor x + 1)%Z).
  { rewrite Zlt_Qlt. lra. }
  lia.
Qed.

(** The two neighbouring rows (or columns) the manual path reads for a
    coordinate inside the raster. *)
Lemma bracket (x : Q) (n : Z) :
  (0 < n < 2147483648)%Z -> 0 <= x -> x <= inject_Z n - 1 ->
  let lo := Z.max (to_int (floor x)) 0 in
  let hi := Z.max (Z.min (to_int (ceil x)) (wrap_int32 (n - 1))) 0 in
  let lo' := if (lo >? hi)%Z then hi else lo in
  hi = lo' \/ hi = (lo' + 1)%Z.
Proof.
  intros Hn H0 H1. cbv zeta.
  assert (Hx : x <= inject_Z (n - 1)).
  { unfold Z.sub. rewrite inject_Z_plus. exact H1. }
  assert (F0 : (0 <= Qfloor x)%Z) by (apply Qfloor_nonneg; exact H0).
  assert (C0 : (Qceiling x <= n - 1)%Z).
  { rewrite <- (Qceiling_Z (n - 1)). apply Qceiling_resp_le. exact Hx. }
  pose proof (floor_ceil_gap x) as G.
  unfold floor, ceil. rewrite !to_int_inject_Z by lia.
  rewrite wrap_int32_small by lia.
  destruct (_ >? _)%Z eqn:E; lia.
Qed.

Section ManualPath.

Variables (NO_DATA_VALUE indeterminate : Q) (GDAL_3_10 : bool).

(** X27.  Over a band every one-pixel read of which delivers the same valid
    height, a float, the driver's own point sampling (nearest, average or
    bilinear) returns that height, or the nodata sentinel with which it
    answers a position outside the raster: the weights of the two rows
    and of the two columns it mixes sum to 1.  The raster is at most 2^24
    pixels wide and high, so that the conversion of a row or column
    number to [float] in the bilinear formulas keeps the number. *)
Theorem manual_constant_band (d : Driver) (ds : GDALDataset) (band : GDALRasterBand)
    (x y : Q) (applyOffset : bool) (k : Q) :
  (GDAL_3_10 = false \/ forall c r alg, InterpolateAtPoint band c r alg = None) ->
  (forall col row before, readSample indeterminate band col row before = k) ->
  binary32 k = true ->
  isValidValue_band d k band = true ->
  interpolation (_layer d) <> CUBIC -> interpolation (_layer d) <> CUBICSPLINE ->
  (0 < GetRasterXSize ds <= 16777216)%Z -> (0 < GetRasterYSize ds <= 16777216)%Z ->
  let h := getInterpolatedDEMValue NO_DATA_VALUE indeterminate GDAL_3_10 d ds band
             x y applyOffset in
  h = NO_DATA_VALUE \/ h == k.
Proof.
  intros Hfast Hread _ Hk Hc1 Hc2 HX' HY'.
  assert (HX : (0 < GetRasterXSize ds < 2147483648)%Z) by lia.
  assert (HY : (0 < GetRasterYSize ds < 2147483648)%Z) by lia.
  cbv zeta. unfold getInterpolatedDEMValue.
  destruct (geoToPixel _ _ _ x y) as [c0 r0].
  assert (E : (if GDAL_3_10
               then InterpolateAtPoint band c0 r0 (pointAlgFor (interpolation (_layer d)))
               else None) = None).
  { destruct Hfast as [-> | H]; [reflexivity|]. destruct GDAL_3_10; [apply H|reflexivity]. }
  rewrite E. cbv zeta.
  destruct (if applyOffset then _ else _) as [c r].
  destruct (Qltb c 0) eqn:G1; [left; reflexivity|].
  destruct (Qltb r 0) eqn:G2; [left; reflexivity|].
  destruct (Qgtb c (inject_Z (GetRasterXSize ds) - 1)) eqn:G3; [left; reflexivity|].
  destruct (Qgtb r (inject_Z (GetRasterYSize ds) - 1)) eqn:G4; [left; reflexivity|].
  cbn [orb]. right.
  apply Qltb_ge in G1, G2. apply Qgtb_le in G3, G4.
  rewrite !Hread, Hk. cbn [negb orb].
  pose proof (bracket c (GetRasterXSize ds) HX G1 G3) as BC.
  pose proof (bracket r (GetRasterYSize ds) HY G2 G4) as BR.
  cbv zeta in BC, BR.
  set (rowMin := Z.max (to_int (floor r)) 0) in *.
  set (rowMax := Z.max (Z.min (to_int (ceil r)) (wrap_int32 (GetRasterYSize ds - 1))) 0) in *.
  set (colMin := Z.max (to_int (floor c)) 0) in *.
  set (colMax := Z.max (Z.min (to_int (ceil c)) (wrap_int32 (GetRasterXSize ds - 1))) 0) in *.
  set (rowMin' := if (rowMin >? rowMax)%Z then rowMax else rowMin) in *.
  set (colMin' := if (colMin >? colMax)%Z then colMax else colMin) in *.
  destruct (interpolation (_layer d)); try contradiction; cbn [Interpolation_eqb].
  - reflexivity.
  - ring.
  - destruct (colMax =? colMin')%Z eqn:EC, (rowMax =? rowMin')%Z eqn:ER; cbn [andb].
    + reflexivity.
    + destruct BR as [BR | BR]; [lia|]. rewrite BR, inject_Z_plus. ring.
    + destruct BC as [BC | BC]; [lia|]. rewrite BC, inject_Z_plus. ring.
    + destruct BR as [BR | BR]; [lia|]. destruct BC as [BC | BC]; [lia|].
      rewrite BR, BC, !inject_Z_plus. ring.
Qed.

End ManualPath.

(** ** What [open] reports and leaves behind *)

(** The stages a successful [open] has gone through. *)
Lemma open_stages E d name layer tileSize lde io d' lde' :
  open E d name layer tileSize lde io = (NoError, d', lde') ->
  exists d1 srcDS d2 wktS warpedDS,
    acquireSource E layer (sourceOf layer) (set__layer layer (set__name name d))
    = (NoError, d1)
    /\ _srcDS d1 = Some srcDS
    /\ srs_valid (sourceSRS E srcDS (sourceOf layer)) = true
    /\ prepareSampling E d1 srcDS (sourceSRS E srcDS (sourceOf layer))
       = (NoError, d2, wktS)
    /\ _warpedDS d2 = Some warpedDS
    /\ finishOpen E d2 srcDS warpedDS wktS tileSize lde = (NoError, d', lde').
Proof.
  intros H. unfold open in H. cbv zeta in H.
  destruct (_ && _ && _); [discriminate|].
  destruct (acquireSource E layer _ _) as [st d1] eqn:E1.
  destruct st; try discriminate.
  destruct (_srcDS d1) as [srcDS|] eqn:Es; [|discriminate].
  destruct (srs_valid (sourceSRS E srcDS (sourceOf layer))) eqn:Ev; [|discriminate].
  cbn [negb] in H.
  destruct (prepareSampling E d1 srcDS _) as [[st d2] w] eqn:E2.
  destruct st; try discriminate.
  destruct (_warpedDS d2) as [warpedDS|] eqn:Ew; [|discriminate].
  exists d1, srcDS, d2, w, warpedDS. repeat split; assumption.
Qed.

Lemma acquireSource_flag E layer source d st d1 :
  acquireSource E layer source d = (st, d1) -> _open d1 = _open d.
Proof.
  unfold acquireSource. intros H.
  repeat (break_match H; try discriminate); injection H as <- <-; reflexivity.
Qed.

Lemma prepareSampling_flag E d srcDS src_srs st d2 w :
  prepareSampling E d srcDS src_srs = (st, d2, w) -> _open d2 = _open d.
Proof.
  unfold prepareSampling. cbv zeta. intros H.
  repeat (break_match H; try discriminate); injection H as <- <- <-; reflexivity.
Qed.

(** [finishOpen] either completes [open], or fails with a general error
    having left the open flag and the extent list alone. *)
Lemma finishOpen_outcome E d srcDS warpedDS wktS tileSize lde st d' lde' :
  finishOpen E d srcDS warpedDS wktS tileSize lde = (st, d', lde') ->
  (st = NoError /\ _open d' = true /\ _linearUnits d' == 1
   /\ profile_valid (_profile d') = true
   /\ exists m, maxDataLevel d' = Some m
        /\ lde' = option_map
                    (fun l => l ++ [mkDataExtent
                                      (transform E (_extents d') (profile_srs (_profile d')))
                                      (Some 0%Z) (Some m)])
                    lde)
  \/ (st = GeneralError /\ _open d' = _open d /\ lde' = lde).
Proof.
  unfold finishOpen. cbv zeta. intros H.
  match type of H with
  | context [profile_valid (_profile ?x)] => set (d2 := x) in *
  end.
  assert (O2 : _open d2 = _open d) by (unfold d2; by_cases).
  destruct (profile_valid (_profile d2)) eqn:Ep; cbn [negb] in H.
  - left. destruct (clampBounds _ _ _ _ _) as [bounds clamped] in H.
    injection H as <- <- <-.
    cbn [_open _linearUnits _profile _extents _bounds maxDataLevel
         set__open set__linearUnits set__extents set__bounds set_maxDataLevel
         makeGeoExtent ge_box].
    repeat (split; [first [reflexivity | exact Ep]|]).
    unfold computeMaxDataLevel.
    destruct (maxDataLevel d2) as [m|].
    + exists m. split; [reflexivity|]. destruct lde; reflexivity.
    + destruct (Qgtb _ 0); eexists; (split; [reflexivity|]); destruct lde; reflexivity.
  - right. injection H as <- <- <-. repeat split; [exact O2].
Qed.

(** X15.  [open] marks the driver open exactly when it succeeds.  After a
    successful call the driver is open, its linear units are 1 and its
    profile is valid; after a failed call the open flag is what it was
    and the caller's extent list is untouched. *)
Theorem open_marks_only_success (E : External) (d : Driver) (name : string)
    (layer : Options) (tileSize : Z) (lde : option DataExtentList) (io : IOOptions)
    (st : StatusCode) (d' : Driver) (lde' : option DataExtentList) :
  open E d name layer tileSize lde io = (st, d', lde') ->
  (st = NoError -> _open d' = true /\ _linearUnits d' == 1
                   /\ profile_valid (_profile d') = true)
  /\ (st <> NoError -> _open d' = _open d /\ lde' = lde).
Proof.
  intros H. unfold open in H. cbv zeta in H.
  destruct (_ && _ && _).
  { injection H as <- <- <-. split; [discriminate|]. intros _. split; reflexivity. }
  destruct (acquireSource E layer _ _) as [st1 d1] eqn:E1.
  apply acquireSource_flag in E1. cbn in E1.
  destruct st1;
    try (injection H as <- <- <-; split; [discriminate|]; intros _; split;
         [exact E1|reflexivity]).
  destruct (_srcDS d1) as [srcDS|] eqn:Es;
    [|injection H as <- <- <-; split; [discriminate|]; intros _; split;
      [exact E1|reflexivity]].
  destruct (negb _);
    [injection H as <- <- <-; split; [discriminate|]; intros _; split;
     [exact E1|reflexivity]|].
  destruct (prepareSampling E d1 srcDS _) as [[st2 d2] w] eqn:E2.
  apply prepareSampling_flag in E2.
  destruct st2;
    try (injection H as <- <- <-; split; [discriminate|]; intros _; split;
         [congruence|reflexivity]).
  destruct (_warpedDS d2) as [warpedDS|] eqn:Ew;
    [|injection H as <- <- <-; split; [discriminate|]; intros _; split;
      [congruence|reflexivity]].
  apply finishOpen_outcome in H
    as [(-> & Ho & Hl & Hp & _) | (-> & Ho & Hl)].
  - split; [intros _; repeat split; assumption|]. intros C. contradiction.
  - split; [discriminate|]. intros _. split; [congruence|exact Hl].
Qed.

(** X16.  Without an external dataset, and with neither a URI nor a
    connection string (or with empty ones), [open] fails with
    [ConfigurationError] before it looks at any source: only the name and
    the layer are recorded in the driver. *)
Theorem open_without_source (E : External) (d : Driver) (name : string)
    (layer : Options) (tileSize : Z) (lde : option DataExtentList) (io : IOOptions) :
  _external d = None ->
  match uri layer with Some u => full u = EmptyString | None => True end ->
  match connection layer with Some c => c = EmptyString | None => True end ->
  open E d name layer tileSize lde io
  = (ConfigurationError, set__layer layer (set__name name d), lde).
Proof.
  intros Hx Hu Hc. unfold open. cbv zeta.
  cbn [_external set__layer set__name]. rewrite Hx. cbn [is_null negb andb].
  destruct (uri layer) as [u|]; [rewrite Hu|]; cbn [string_empty andb];
    (destruct (connection layer) as [c|]; [rewrite Hc|]); reflexivity.
Qed.

(** X17.  A maximum data level configured before [open] survives a
    successful [open]: no level is computed from the resolution. *)
Theorem open_keeps_configured_level (E : External) (d : Driver) (name : string)
    (layer : Options) (tileSize : Z) (lde : option DataExtentList) (io : IOOptions)
    (d' : Driver) (lde' : option DataExtentList) (m : Z) :
  open E d name layer tileSize lde io = (NoError, d', lde') ->
  maxDataLevel d = Some m ->
  maxDataLevel d' = Some m.
Proof.
  intros H Hm. apply open_established in H.
  destruct H as (srcDS & warpedDS & _ & _ & _ & HM & _). cbv zeta in HM.
  rewrite HM, Hm. reflexivity.
Qed.

(** X18.  Given an extent list, a successful [open] appends exactly one
    record to it: the driver's extent transformed to the profile's
    spatial reference, with the levels 0 to the maximum data level. *)
Theorem open_records_one_extent (E : External) (d : Driver) (name : string)
    (layer : Options) (tileSize : Z) (l : DataExtentList) (io : IOOptions)
    (d' : Driver) (lde' : option DataExtentList) :
  open E d name layer tileSize (Some l) io = (NoError, d', lde') ->
  exists m,
    maxDataLevel d' = Some m
    /\ lde' = Some (l ++ [mkDataExtent
                            (transform E (_extents d') (profile_srs (_profile d')))
                            (Some 0%Z) (Some m)]).
Proof.
  intros H. destruct (open_stages _ _ _ _ _ _ _ _ _ H)
    as (d1 & srcDS & d2 & wktS & warpedDS & _ & _ & _ & _ & _ & HF).
  apply finishOpen_outcome in HF
    as [(_ & _ & _ & _ & m & Hm & Hl) | (C & _)]; [|discriminate].
  exists m. split; [exact Hm|exact Hl].
Qed.

(** The clamping of a geodetic extent leaves at most a whole turn of
    longitude and half a turn of latitude. *)
Lemma clampBounds_span (is_area : bool) (bounds : Box) (resX resY : Q) :
  let b := fst (clampBounds true is_area bounds resX resY) in
  xmax b - xmin b <= 360 /\ ymax b - ymin b <= 180.
Proof.
  cbv zeta. unfold clampBounds.
  destruct (is_area && (Qltb (xmin bounds) (- 180) || Qgtb (xmax bounds) 180));
    destruct (Qgtb _ 360) eqn:Ex; cbv beta iota;
    destruct (is_area && _); destruct (Qgtb _ 180) eqn:Ey;
    cbn [fst xmin xmax ymin ymax] in *;
    try apply Qgtb_le in Ex; try apply Qgtb_le in Ey; split; lra.
Qed.

(** X19.  After a successful [open] of a dataset whose extent is geodetic,
    the data bounds span at most 360 degrees of longitude and 180 degrees
    of latitude. *)
Theorem geodetic_bounds_span (E : External) (d : Driver) (name : string)
    (layer : Options) (tileSize : Z) (lde : option DataExtentList) (io : IOOptions)
    (d' : Driver) (lde' : option DataExtentList) :
  open E d name layer tileSize lde io = (NoError, d', lde') ->
  isGeodetic (ge_srs (_extents d')) = true ->
  xmax (_bounds d') - xmin (_bounds d') <= 360
  /\ ymax (_bounds d') - ymin (_bounds d') <= 180.
Proof.
  intros H Hg. apply open_established in H.
  destruct H as (srcDS & warpedDS & _ & _ & _ & _ & HB). cbv zeta in HB.
  rewrite HB, Hg. apply clampBounds_span.
Qed.

Lemma finishOpen_sampling E d srcDS warpedDS wktS tileSize lde st d' lde' :
  finishOpen E d srcDS warpedDS wktS tileSize lde = (st, d', lde') ->
  _warpedDS d' = _warpedDS d.
Proof.
  unfold finishOpen. cbv zeta. intros H.
  destruct (negb (profile_valid _)) in H.
  - injection H as _ <- _. by_cases.
  - destruct (clampBounds _ _ _ _ _) as [bounds clamped] in H.
    injection H as _ <- _. cbn. by_cases.
Qed.

Lemma prepareSampling_direct E d srcDS src_srs st d2 w :
  prepareSampling E d srcDS src_srs = (st, d2, w) ->
  isGeodetic src_srs = true ->
  (GetGCPCount srcDS <= 0)%Z ->
  g2 (snd (GetGeoTransform srcDS)) == 0 -> g4 (snd (GetGeoTransform srcDS)) == 0 ->
  equivalentTo E (profile_srs (Profile_of_SRS E src_srs)) src_srs = true ->
  st = NoError -> _warpedDS d2 = Some srcDS.
Proof.
  unfold prepareSampling. cbv zeta. intros H Hgeo Hgcp H2 H4 Heq Hst.
  rewrite Hgeo in H.
  replace (GetGCPCount srcDS >? 0)%Z with false in H by (symmetry; lia).
  apply Qeq_bool_iff in H2, H4. unfold Qeqb in H.
  destruct (fst (GetGeoTransform srcDS));
    cbn [andb orb negb _profile _geotransform _warpedDS set__profile set__geotransform
         set__warpedDS] in H;
    try rewrite H2, H4 in H; cbn [negb orb andb] in H;
    (destruct (profile_valid (Profile_of_SRS E src_srs)) eqn:Ep; cbn [negb andb orb] in H;
     [rewrite Heq in H; cbn [negb andb orb] in H; injection H as _ <- _; reflexivity
     |injection H as <- _ _; discriminate]).
Qed.

(** X20.  A geographic source without ground control points, whose
    geotransform has no rotation terms and whose spatial reference is
    equivalent to the one of the geographic profile, is sampled directly:
    after a successful [open] the sampling dataset is the source dataset,
    no warped view is created. *)
Theorem geographic_source_not_warped (E : External) (d : Driver) (name : string)
    (layer : Options) (tileSize : Z) (lde : option DataExtentList) (io : IOOptions)
    (d' : Driver) (lde' : option DataExtentList) (srcDS : GDALDataset) :
  open E d name layer tileSize lde io = (NoError, d', lde') ->
  _srcDS d' = Some srcDS ->
  let src_srs := sourceSRS E srcDS (sourceOf layer) in
  isGeodetic src_srs = true ->
  (GetGCPCount srcDS <= 0)%Z ->
  g2 (snd (GetGeoTransform srcDS)) == 0 -> g4 (snd (GetGeoTransform srcDS)) == 0 ->
  equivalentTo E (profile_srs (Profile_of_SRS E src_srs)) src_srs = true ->
  _warpedDS d' = Some srcDS.
Proof.
  intros H Hs src_srs Hgeo Hgcp H2 H4 Heq.
  destruct (open_stages _ _ _ _ _ _ _ _ _ H)
    as (d1 & srcDS1 & d2 & wktS & warpedDS & _ & Hs1 & _ & HP & _ & HF).
  pose proof (finishOpen_keeps _ _ _ _ _ _ _ _ _ _ HF) as K1.
  pose proof (prepareSampling_keeps _ _ _ _ _ _ _ HP) as [_ K2].
  assert (srcDS1 = srcDS) by congruence. subst srcDS1.
  rewrite (finishOpen_sampling _ _ _ _ _ _ _ _ _ _ HF).
  apply (prepareSampling_direct _ _ _ _ _ _ _ HP); auto.
Qed.

Lemma finishOpen_singular E d srcDS warpedDS wktS tileSize lde st d' lde' :
  finishOpen E d srcDS warpedDS wktS tileSize lde = (st, d', lde') ->
  GDALInvGeoTransform E (_geotransform d) = None ->
  _invtransform d' = _invtransform d.
Proof.
  unfold finishOpen. intros H Hn. rewrite Hn in H. cbv zeta in H.
  destruct (negb (profile_valid _)) in H.
  - injection H as _ <- _. by_cases.
  - destruct (clampBounds _ _ _ _ _) as [bounds clamped] in H.
    injection H as _ <- _. cbn. by_cases.
Qed.

Lemma finishOpen_geotransform E d srcDS warpedDS wktS tileSize lde st d' lde' :
  finishOpen E d srcDS warpedDS wktS tileSize lde = (st, d', lde') ->
  _geotransform d' = _geotransform d.
Proof.
  unfold finishOpen. cbv zeta. intros H.
  destruct (negb (profile_valid _)) in H.
  - injection H as _ <- _. by_cases.
  - destruct (clampBounds _ _ _ _ _) as [bounds clamped] in H.
    injection H as _ <- _. cbn. by_cases.
Qed.

Lemma acquireSource_inverse E layer source d st d1 :
  acquireSource E layer source d = (st, d1) -> _invtransform d1 = _invtransform d.
Proof.
  unfold acquireSource. intros H.
  repeat (break_match H; try discriminate); injection H as <- <-; reflexivity.
Qed.

Lemma prepareSampling_inverse E d srcDS src_srs st d2 w :
  prepareSampling E d srcDS src_srs = (st, d2, w) -> _invtransform d2 = _invtransform d.
Proof.
  unfold prepareSampling. cbv zeta. intros H.
  repeat (break_match H; try discriminate); injection H as <- <- <-; reflexivity.
Qed.

(** X21.  A geotransform that cannot be inverted does not make [open] fail:
    when the inversion of the final geotransform delivers nothing, a
    successful [open] leaves [_invtransform] as it was before the call. *)
Theorem singular_geotransform_tolerated (E : External) (d : Driver) (name : string)
    (layer : Options) (tileSize : Z) (lde : option DataExtentList) (io : IOOptions)
    (d' : Driver) (lde' : option DataExtentList) :
  open E d name layer tileSize lde io = (NoError, d', lde') ->
  GDALInvGeoTransform E (_geotransform d') = None ->
  _invtransform d' = _invtransform d.
Proof.
  intros H Hn.
  destruct (open_stages _ _ _ _ _ _ _ _ _ H)
    as (d1 & srcDS & d2 & wktS & warpedDS & HA & _ & _ & HP & _ & HF).
  rewrite (finishOpen_geotransform _ _ _ _ _ _ _ _ _ _ HF) in Hn.
  rewrite (finishOpen_singular _ _ _ _ _ _ _ _ _ _ HF Hn).
  rewrite (prepareSampling_inverse _ _ _ _ _ _ _ HP).
  rewrite (acquireSource_inverse _ _ _ _ _ _ HA). reflexivity.
Qed.

Lemma sourceSRS_missing E srcDS source :
  GetProjectionRef srcDS = EmptyString ->
  (GetGCPCount srcDS <= 0)%Z ->
  read_prj E source = None ->
  srs_valid (sourceSRS E srcDS source) = false.
Proof.
  intros Hp Hg Hr. unfold sourceSRS. rewrite Hp, Hr.
  replace (GetGCPCount srcDS >? 0)%Z with false by (symmetry; lia).
  reflexivity.
Qed.

(** X22.  A source that opens but carries no spatial reference (an empty
    projection, no ground control points, no readable [.prj] file next to
    it) makes [open] fail with [ResourceUnavailable]; the driver is not
    marked open and the caller's extent list is untouched. *)
Theorem unreferenced_source_unavailable (E : External) (d : Driver) (name : string)
    (layer : Options) (tileSize : Z) (lde : option DataExtentList) (io : IOOptions)
    (ds : GDALDataset) :
  _external d = Some ds
  \/ (_external d = None
      /\ exists u, uri layer = Some u /\ full u <> EmptyString
                   /\ openSource E layer (full u) = Some ds) ->
  GetProjectionRef ds = EmptyString ->
  (GetGCPCount ds <= 0)%Z ->
  read_prj E (sourceOf layer) = None ->
  let res := open E d name layer tileSize lde io in
  fst (fst res) = ResourceUnavailable /\ _open (snd (fst res)) = _open d /\ snd res = lde.
Proof.
  intros Hsrc Hp Hg Hr. cbv zeta. unfold open. cbv zeta.
  cbn [_external set__layer set__name].
  destruct Hsrc as [Hx | (Hx & u & Hu & Hne & Hopen)].
  - rewrite Hx. cbn [is_null negb andb].
    unfold acquireSource. cbn [_external set__layer set__name]. rewrite Hx.
    cbn [_srcDS set__srcDS]. rewrite (sourceSRS_missing E ds _ Hp Hg Hr).
    cbn. repeat split; reflexivity.
  - rewrite Hx, Hu. cbn [is_null negb andb].
    destruct (full u) as [|ch rest] eqn:Ef; [contradiction|]. cbn [string_empty andb].
    unfold acquireSource. cbn [_external set__layer set__name]. rewrite Hx, Hu, Ef.
    cbn [string_empty]. rewrite Hopen. cbn [_srcDS set__srcDS is_null].
    rewrite (sourceSRS_missing E ds _ Hp Hg Hr).
    cbn. repeat split; reflexivity.
Qed.

(** ** Snapping to the raster edges *)

Lemma equiv_false (x y eps : Q) :
  equiv x y eps = false -> ~ (- eps <= x - y /\ x - y <= eps).
Proof.
  unfold equiv. cbv zeta. intros H [H1 H2].
  destruct (Qltb (x - y) 0).
  - apply Qle_bool_iff in H1. congruence.
  - apply Qle_bool_iff in H2. congruence.
Qed.

Lemma Qabs_bounds (a e : Q) : Qabs a <= e -> - e <= a /\ a <= e.
Proof. intros H. apply Qabs_Qle_condition in H. exact H. Qed.

(** The two snapping steps of [geoToPixel] on one coordinate. *)
Lemma snap_on_edge (raw : Q) (size : Z) :
  let eps := 1 # 10000 in
  let x1 := if equiv raw 0 eps then 0 else raw in
  let x2 := if equiv x1 (inject_Z size) eps then inject_Z size else x1 in
  (Qabs x2 <= eps -> x2 == 0)
  /\ (Qabs (x2 - inject_Z size) <= eps -> x2 == inject_Z size).
Proof.
  cbv zeta. split; intros H; apply Qabs_bounds in H as [H1 H2].
  - destruct (equiv (if equiv raw 0 (1 # 10000) then 0 else raw) (inject_Z size)
                    (1 # 10000)) eqn:E2.
    + assert (size = 0%Z) by (apply inject_Z_small; lra). subst size. reflexivity.
    + destruct (equiv raw 0 (1 # 10000)) eqn:E1; [reflexivity|].
      exfalso. apply (equiv_false _ _ _ E1). split; lra.
  - destruct (equiv (if equiv raw 0 (1 # 10000) then 0 else raw) (inject_Z size)
                    (1 # 10000)) eqn:E2; [reflexivity|].
    exfalso. apply (equiv_false _ _ _ E2). split; lra.
Qed.

(** X23.  [geoToPixel] never returns a coordinate that is within 1e-4 of a
    raster edge without being on it: a column within 1e-4 of 0 is 0, a
    column within 1e-4 of the raster width is the width, and likewise for
    the row and the raster height. *)
Theorem geoToPixel_never_near_an_edge (inv : GeoTransform) (w h : Z) (geoX geoY : Q) :
  let p := geoToPixel inv w h geoX geoY in
  let eps := 1 # 10000 in
  (Qabs (fst p) <= eps -> fst p == 0)
  /\ (Qabs (fst p - inject_Z w) <= eps -> fst p == inject_Z w)
  /\ (Qabs (snd p) <= eps -> snd p == 0)
  /\ (Qabs (snd p - inject_Z h) <= eps -> snd p == inject_Z h).
Proof.
  cbv zeta. unfold geoToPixel. cbv zeta. cbn [fst snd].
  destruct (snap_on_edge (g0 inv + g1 inv * geoX + g2 inv * geoY) w) as [X1 X2].
  destruct (snap_on_edge (g3 inv + g4 inv * geoX + g5 inv * geoY) h) as [Y1 Y2].
  cbv zeta in X1, X2, Y1, Y2. repeat split; assumption.
Qed.

(** ** Properties of [readImage] *)

Section ReadImageProperties.

Variable indeterminate : Q.
Variable GDALOpenEx : list Byte.byte -> string -> option GDALDataset.

Import InMemory.

(** A strided store keeps the size of the buffer, changes only the
    positions [pos + j * spacing], and puts sample [j] at that position. *)
Lemma scatter_length (samples data : list Q) (pos spacing : nat) :
  length (scatter samples data pos spacing) = length data.
Proof.
  revert data pos. induction samples as [|s rest IH]; intros data pos; cbn; [reflexivity|].
  rewrite IH. apply length_insert.
Qed.

Lemma scatter_other (samples data : list Q) (pos spacing i : nat) :
  (forall j, (j < length samples)%nat -> i <> (pos + j * spacing)%nat) ->
  scatter samples data pos spacing !! i = data !! i.
Proof.
  revert data pos. induction samples as [|s rest IH]; intros data pos H; cbn; [reflexivity|].
  rewrite IH.
  - apply list_lookup_insert_ne. intros C. apply (H 0%nat); [cbn; lia|]. lia.
  - intros j Hj. specialize (H (S j)). cbn in H. lia.
Qed.

Lemma scatter_hit (samples data : list Q) (pos spacing j : nat) :
  (0 < spacing)%nat -> (j < length samples)%nat ->
  (pos + j * spacing < length data)%nat ->
  scatter samples data pos spacing !! (pos + j * spacing)%nat = samples !! j.
Proof.
  intros Hsp. revert data pos j.
  induction samples as [|s rest IH]; intros data pos j Hj Hlen; cbn in Hj; [lia|].
  cbn [scatter]. destruct j as [|j].
  - rewrite scatter_other.
    + replace (pos + 0 * spacing)%nat with pos by lia.
      cbn. apply list_lookup_insert_eq. lia.
    + intros j Hj'. nia.
  - replace (pos + S j * spacing)%nat with (pos + spacing + j * spacing)%nat by lia.
    rewrite IH; [reflexivity|lia|]. rewrite length_insert. lia.
Qed.

Lemma stored_lookup (samples buffer : list Q) (i : nat) :
  (i < length samples)%nat -> (i < length buffer)%nat ->
  stored samples buffer !! i = samples !! i.
Proof.
  intros Hs Hb. unfold stored.
  rewrite lookup_take_lt by exact Hb. apply lookup_app_l. exact Hs.
Qed.

Lemma stored_length (samples buffer : list Q) :
  length (stored samples buffer) = length buffer.
Proof.
  unfold stored. rewrite length_take, length_app, length_drop. lia.
Qed.

Lemma take_lookup_ge (s : list Q) (N i : nat) :
  (i < N)%nat -> take N s !! i = s !! i.
Proof. intros H. apply lookup_take_lt. exact H. Qed.

(** X24.  For a dataset with a red, a green and a blue band (and no palette
    or grey band), [readImage] interleaves the bands: with [n] = 4
    components per pixel when there is an alpha band and 3 otherwise,
    component [n * i + k] of the image is sample [i] of the k-th of the
    bands red, green, blue, alpha. *)
Theorem colour_channels_interleaved (bytes : list Byte.byte) (name : string)
    (ds : GDALDataset) (bR bG bB : GDALRasterBand) (bA : option GDALRasterBand)
    (sR sG sB sA : list Q) :
  GDALOpenEx bytes name = Some ds ->
  findBandByColorInterp ds GCI_PaletteIndex = None ->
  findBandByColorInterp ds GCI_GrayIndex = None ->
  findBandByColorInterp ds GCI_RedBand = Some bR ->
  findBandByColorInterp ds GCI_GreenBand = Some bG ->
  findBandByColorInterp ds GCI_BlueBand = Some bB ->
  findBandByColorInterp ds GCI_AlphaBand = bA ->
  let w := GetRasterXSize ds in
  let h := GetRasterYSize ds in
  let N := Z.to_nat (w * h) in
  readAll bR w h GDT_Byte = Some sR -> (N <= length sR)%nat ->
  readAll bG w h GDT_Byte = Some sG -> (N <= length sG)%nat ->
  readAll bB w h GDT_Byte = Some sB -> (N <= length sB)%nat ->
  match bA with
  | Some b => readAll b w h GDT_Byte = Some sA /\ (N <= length sA)%nat
  | None => True
  end ->
  exists img,
    readImage indeterminate GDALOpenEx bytes name = Some img
    /\ let n := match bA with Some _ => 4%nat | None => 3%nat end in
       numComponents (pixelFormat img) = Z.of_nat n
       /\ forall i, (i < N)%nat ->
            components img !! (n * i)%nat = sR !! i
            /\ components img !! (n * i + 1)%nat = sG !! i
            /\ components img !! (n * i + 2)%nat = sB !! i
            /\ match bA with
               | Some _ => components img !! (n * i + 3)%nat = sA !! i
               | None => True
               end.
Proof.
  intros Hopen HP HM HR HG HB HA w h N ER LR EG LG EB LB EA.
  unfold readImage. rewrite Hopen. cbv zeta. rewrite HP, HM, HR, HG, HB, HA.
  fold w h.
  assert (LenR : length (take N sR) = N) by (apply length_take_le; exact LR).
  assert (LenG : length (take N sG) = N) by (apply length_take_le; exact LG).
  assert (LenB : length (take N sB) = N) by (apply length_take_le; exact LB).
  destruct bA as [bA|]; cbn [is_null negb andb]; cbv iota;
    unfold readChannel; rewrite ER, EG, EB; [destruct EA as [EA LA]; rewrite EA|];
    eexists; (split; [reflexivity|]); cbv zeta; cbn [pixelFormat components fst];
    (split; [reflexivity|]); intros i Hi; fold N.
  - assert (LenA : length (take N sA) = N) by (apply length_take_le; exact LA).
    assert (Hlen : length (components (create indeterminate R8G8B8A8_SRGB w h))
                   = (N * 4)%nat).
    { cbn [create components numComponents]. rewrite length_replicate.
      unfold N. destruct (Z_le_gt_dec 0 (w * h)).
      - rewrite Z2Nat.inj_mul by lia. reflexivity.
      - exfalso. unfold N in Hi. lia. }
    set (d0 := components (create indeterminate R8G8B8A8_SRGB w h)) in *.
    change (Z.to_nat 0) with 0%nat. change (Z.to_nat (0 + 1)) with 1%nat.
    change (Z.to_nat (0 + 1 + 1)) with 2%nat. change (Z.to_nat (0 + 1 + 1 + 1)) with 3%nat.
    change (Z.to_nat (numComponents R8G8B8A8_SRGB)) with 4%nat.
    set (d1 := scatter (take N sR) d0 0 4).
    set (d2 := scatter (take N sG) d1 1 4).
    set (d3 := scatter (take N sB) d2 2 4).
    assert (L1 : length d1 = (N * 4)%nat) by (unfold d1; rewrite scatter_length; exact Hlen).
    assert (L2 : length d2 = (N * 4)%nat) by (unfold d2; rewrite scatter_length; exact L1).
    assert (L3 : length d3 = (N * 4)%nat) by (unfold d3; rewrite scatter_length; exact L2).
    repeat split.
    + rewrite scatter_other by (intros; lia). unfold d3.
      rewrite scatter_other by (intros; lia). unfold d2.
      rewrite scatter_other by (intros; lia). unfold d1.
      replace (4 * i)%nat with (0 + i * 4)%nat by lia.
      rewrite scatter_hit by lia. apply take_lookup_ge. exact Hi.
    + rewrite scatter_other by (intros; lia). unfold d3.
      rewrite scatter_other by (intros; lia). unfold d2.
      replace (4 * i + 1)%nat with (1 + i * 4)%nat by lia.
      rewrite scatter_hit by lia. apply take_lookup_ge. exact Hi.
    + rewrite scatter_other by (intros; lia). unfold d3.
      replace (4 * i + 2)%nat with (2 + i * 4)%nat by lia.
      rewrite scatter_hit by lia. apply take_lookup_ge. exact Hi.
    + replace (4 * i + 3)%nat with (3 + i * 4)%nat by lia.
      rewrite scatter_hit by lia. apply take_lookup_ge. exact Hi.
  - assert (Hlen : length (components (create indeterminate R8G8B8_SRGB w h))
                   = (N * 3)%nat).
    { cbn [create components numComponents]. rewrite length_replicate.
      unfold N. destruct (Z_le_gt_dec 0 (w * h)).
      - rewrite Z2Nat.inj_mul by lia. reflexivity.
      - exfalso. unfold N in Hi. lia. }
    set (d0 := components (create indeterminate R8G8B8_SRGB w h)) in *.
    change (Z.to_nat 0) with 0%nat. change (Z.to_nat (0 + 1)) with 1%nat.
    change (Z.to_nat (0 + 1 + 1)) with 2%nat.
    change (Z.to_nat (numComponents R8G8B8_SRGB)) with 3%nat.
    set (d1 := scatter (take N sR) d0 0 3).
    set (d2 := scatter (take N sG) d1 1 3).
    assert (L1 : length d1 = (N * 3)%nat) by (unfold d1; rewrite scatter_length; exact Hlen).
    assert (L2 : length d2 = (N * 3)%nat) by (unfold d2; rewrite scatter_length; exact L1).
    repeat split.
    + rewrite scatter_other by (intros; lia). unfold d2.
      rewrite scatter_other by (intros; lia). unfold d1.
      replace (3 * i)%nat with (0 + i * 3)%nat by lia.
      rewrite scatter_hit by lia. apply take_lookup_ge. exact Hi.
    + rewrite scatter_other by (intros; lia). unfold d2.
      replace (3 * i + 1)%nat with (1 + i * 3)%nat by lia.
      rewrite scatter_hit by lia. apply take_lookup_ge. exact Hi.
    + replace (3 * i + 2)%nat with (2 + i * 3)%nat by lia.
      rewrite scatter_hit by lia. apply take_lookup_ge. exact Hi.
Qed.

(** After [k] rounds the palette loop has stored the colours of the first
    [k] indices, four components each. *)
Lemma expandPalette_prefix (P : GDALRasterBand) (temp data : list Q) (k : nat) :
  (4 * k <= length data)%nat ->
  let st := fold_left (paletteStep indeterminate P temp) (Zrange (Z.of_nat k)) (data, 0%Z) in
  snd st = Z.of_nat (4 * k) /\ length (fst st) = length data /\
  forall i, (i < k)%nat ->
    let c := snd (getPalleteIndexColor P
                    (to_u8 (trunc (peek indeterminate temp (Z.of_nat i))))) in
    fst st !! (4 * i)%nat = Some (inject_Z (u8r c))
    /\ fst st !! (4 * i + 1)%nat = Some (inject_Z (u8g c))
    /\ fst st !! (4 * i + 2)%nat = Some (inject_Z (u8b c))
    /\ fst st !! (4 * i + 3)%nat = Some (inject_Z (u8a c)).
Proof.
  induction k as [|k IH]; intros Hlen.
  - change (Zrange (Z.of_nat 0)) with (@nil Z). cbn [fold_left fst snd].
    split; [reflexivity|]. split; [reflexivity|]. intros i Hi. lia.
  - rewrite Zrange_S, fold_left_app. cbn [fold_left]. cbv zeta.
    destruct IH as (I1 & I2 & I3); [lia|]. cbv zeta in I1, I2, I3.
    destruct (fold_left _ (Zrange (Z.of_nat k)) (data, 0%Z)) as [d off].
    cbn [fst snd] in I1, I2, I3. subst off.
    unfold paletteStep. cbv zeta. cbn [fst snd].
    replace (Z.to_nat (Z.of_nat (4 * k))) with (4 * k)%nat by lia.
    replace (Z.to_nat (Z.of_nat (4 * k) + 1)) with (4 * k + 1)%nat by lia.
    replace (Z.to_nat (Z.of_nat (4 * k) + 2)) with (4 * k + 2)%nat by lia.
    replace (Z.to_nat (Z.of_nat (4 * k) + 3)) with (4 * k + 3)%nat by lia.
    split; [lia|]. split; [rewrite !length_insert; exact I2|].
    intros i Hi. destruct (Nat.eq_dec i k) as [->|Hne].
    + repeat split.
      * rewrite !list_lookup_insert_ne by lia. apply list_lookup_insert_eq. lia.
      * rewrite !list_lookup_insert_ne by lia.
        apply list_lookup_insert_eq. rewrite length_insert. lia.
      * rewrite !list_lookup_insert_ne by lia.
        apply list_lookup_insert_eq. rewrite !length_insert. lia.
      * apply list_lookup_insert_eq. rewrite !length_insert. lia.
    + rewrite !list_lookup_insert_ne by lia. apply I3. lia.
Qed.

Lemma peek_stored (samples : list Q) (N i : nat) (s : Q) :
  (i < N)%nat -> samples !! i = Some s ->
  peek indeterminate (stored samples (new_buffer indeterminate (Z.of_nat N))) (Z.of_nat i) = s.
Proof.
  intros Hi Hs. unfold peek.
  replace (Z.of_nat i <? 0)%Z with false by (symmetry; lia).
  rewrite Nat2Z.id, stored_lookup, Hs; [reflexivity| |].
  - apply lookup_lt_Some in Hs. exact Hs.
  - unfold new_buffer. rewrite length_replicate. lia.
Qed.

(** X25.  For a dataset with a palette band, [readImage] returns an RGBA
    image whose pixel [i] holds the four components the colour-table
    lookup delivers for palette index [i]; the result of the lookup is
    not looked at, so an index without entry is stored as the marker
    (255, 0, 0, 1) of the lookup. *)
Theorem palette_indices_expanded (bytes : list Byte.byte) (name : string)
    (ds : GDALDataset) (bP : GDALRasterBand) (samples : list Q) :
  GDALOpenEx bytes name = Some ds ->
  findBandByColorInterp ds GCI_PaletteIndex = Some bP ->
  let w := GetRasterXSize ds in
  let h := GetRasterYSize ds in
  let N := Z.to_nat (w * h) in
  (0 <= w * h < 2147483648)%Z ->
  readAll bP w h GDT_Byte = Some samples -> (N <= length samples)%nat ->
  exists img,
    readImage indeterminate GDALOpenEx bytes name = Some img
    /\ pixelFormat img = R8G8B8A8_SRGB
    /\ forall i s, (i < N)%nat -> samples !! i = Some s ->
         let found := fst (getPalleteIndexColor bP (to_u8 (trunc s))) in
         let c := snd (getPalleteIndexColor bP (to_u8 (trunc s))) in
         components img !! (4 * i)%nat = Some (inject_Z (u8r c))
         /\ components img !! (4 * i + 1)%nat = Some (inject_Z (u8g c))
         /\ components img !! (4 * i + 2)%nat = Some (inject_Z (u8b c))
         /\ components img !! (4 * i + 3)%nat = Some (inject_Z (u8a c))
         /\ (found = false -> c = mkU8 255 0 0 1).
Proof.
  intros Hopen HP w h N Hwh ER LR.
  unfold readImage. rewrite Hopen. cbv zeta. rewrite HP. fold w h.
  cbn [is_null negb]. cbv iota. rewrite ER.
  eexists. split; [reflexivity|]. split; [reflexivity|].
  intros i s Hi Hs. cbv zeta. cbn [components].
  rewrite wrap_int32_small by lia.
  unfold expandPalette.
  replace (w * h)%Z with (Z.of_nat N) by (unfold N; lia).
  match goal with
  | |- context [fold_left (paletteStep indeterminate bP ?temp) _ (?data, 0%Z)] =>
      destruct (expandPalette_prefix bP temp data N) as (_ & _ & H)
  end.
  { cbn [create components numComponents]. rewrite length_replicate. lia. }
  cbv zeta in H. specialize (H i Hi).
  rewrite (peek_stored samples N i s Hi Hs) in H.
  destruct H as (H0 & H1 & H2 & H3).
  repeat (split; [assumption|]).
  intros Hf. unfold getPalleteIndexColor in *. cbv zeta in *.
  destruct (GetColorEntry _ _); [|reflexivity].
  destruct (paletteInterpretation _); try discriminate.
  cbv zeta in Hf. destruct (if Qeqb _ 0 then _ else _) as [[R G] B]. discriminate.
Qed.

(** X26.  For a dataset with a grey band (and no palette band),
    [readImage] returns a single-channel float image whose sample [i] is
    the sample read, times the band's scale, plus its offset; no sample
    is tested for validity. *)
Theorem gray_samples_rescaled (bytes : list Byte.byte) (name : string)
    (ds : GDALDataset) (bM : GDALRasterBand) (samples : list Q) :
  GDALOpenEx bytes name = Some ds ->
  findBandByColorInterp ds GCI_PaletteIndex = None ->
  findBandByColorInterp ds GCI_GrayIndex = Some bM ->
  let w := GetRasterXSize ds in
  let h := GetRasterYSize ds in
  let N := Z.to_nat (w * h) in
  (0 <= w * h < 2147483648)%Z ->
  readAll bM w h GDT_Float32 = Some samples -> (N <= length samples)%nat ->
  exists img,
    readImage indeterminate GDALOpenEx bytes name = Some img
    /\ pixelFormat img = R32_SFLOAT
    /\ forall i, (i < N)%nat ->
         components img !! i
         = option_map (fun v => v * GetScale bM + GetOffset bM) (samples !! i).
Proof.
  intros Hopen HP HM w h N Hwh ER LR.
  unfold readImage. rewrite Hopen. cbv zeta. rewrite HP, HM. fold w h.
  cbn [is_null negb]. cbv iota. rewrite ER.
  eexists. split; [reflexivity|]. split; [reflexivity|].
  intros i Hi. cbn [components].
  rewrite wrap_int32_small by lia. fold N.
  rewrite applyScaleAndOffsetT_float_lookup by exact Hi.
  rewrite stored_lookup; [reflexivity|lia|].
  cbn [create components numComponents]. rewrite length_replicate. lia.
Qed.

End ReadImageProperties.

(** ** Longitude re-wrapping, nodata of colour bands, unopenable sources *)

(** Each loop adds (or subtracts) 360 a whole number of times, and sets
    the east bound to west + width whenever it runs at all. *)
Lemma shift_east_turns (n : nat) (west east width bxmin : Q) :
  let res := shift_east n west east width bxmin in
  exists k : nat,
    fst res == west + 360 * inject_Z (Z.of_nat k)
    /\ (res = (west, east) \/ snd res = fst res + width).
Proof.
  revert west east. induction n as [|n IH]; intros west east; cbv zeta.
  - exists 0%nat. cbn. split; [ring|left; reflexivity].
  - cbn [shift_east]. destruct (Qltb west bxmin).
    + cbv zeta. destruct (IH (west + 360) (west + 360 + width)) as (k & E & D).
      cbv zeta in E, D. exists (S k). split.
      * rewrite E, Nat2Z.inj_succ. unfold Z.succ. rewrite inject_Z_plus. ring.
      * right. destruct D as [-> | D]; [reflexivity|exact D].
    + exists 0%nat. cbn. split; [ring|left; reflexivity].
Qed.

Lemma shift_west_turns (n : nat) (west east width bxmax : Q) :
  let res := shift_west n west east width bxmax in
  exists k : nat,
    fst res == west - 360 * inject_Z (Z.of_nat k)
    /\ (res = (west, east) \/ snd res = fst res + width).
Proof.
  revert west east. induction n as [|n IH]; intros west east; cbv zeta.
  - exists 0%nat. cbn. split; [ring|left; reflexivity].
  - cbn [shift_west]. destruct (Qgtb west bxmax).
    + cbv zeta. destruct (IH (west - 360) (west - 360 + width)) as (k & E & D).
      cbv zeta in E, D. exists (S k). split.
      * rewrite E, Nat2Z.inj_succ. unfold Z.succ. rewrite inject_Z_plus. ring.
      * right. destruct D as [-> | D]; [reflexivity|exact D].
    + exists 0%nat. cbn. split; [ring|left; reflexivity].
Qed.

(** X28.  The re-wrapping of the intersection's west and east bounds moves
    the window by whole turns only: the new west bound is the old one
    plus a multiple of 360, the bounds are untouched or exactly the
    intersection's width apart, and the new west bound is not east of the
    dataset's east bound. *)
Theorem rewrap_whole_turns (west east width : Q) (bounds : Box) :
  let res := rewrap west east width bounds in
  (exists k : Z, fst res == west + 360 * inject_Z k)
  /\ (res = (west, east) \/ snd res = fst res + width)
  /\ ~ xmax bounds < fst res.
Proof.
  cbv zeta. split; [|split; [|apply rewrap_exits]].
  - unfold rewrap.
    destruct (shift_east_turns (Z.to_nat (Qceiling ((xmin bounds - west) / 360)))
                west east width (xmin bounds)) as (k1 & E1 & _).
    cbv zeta in E1. destruct (shift_east _ west east width (xmin bounds)) as [w1 e1].
    cbn [fst] in E1.
    destruct (shift_west_turns (Z.to_nat (Qceiling ((w1 - xmax bounds) / 360)))
                w1 e1 width (xmax bounds)) as (k2 & E2 & _).
    cbv zeta in E2. exists (Z.of_nat k1 - Z.of_nat k2)%Z.
    rewrite E2, E1. unfold Z.sub. rewrite inject_Z_plus, inject_Z_opp. ring.
  - unfold rewrap.
    destruct (shift_east_turns (Z.to_nat (Qceiling ((xmin bounds - west) / 360)))
                west east width (xmin bounds)) as (k1 & _ & D1).
    cbv zeta in D1. destruct (shift_east _ west east width (xmin bounds)) as [w1 e1].
    destruct (shift_west_turns (Z.to_nat (Qceiling ((w1 - xmax bounds) / 360)))
                w1 e1 width (xmax bounds)) as (k2 & _ & D2).
    cbv zeta in D2. destruct D2 as [D2 | D2]; [|right; exact D2].
    rewrite D2. destruct D1 as [D1 | D1]; [left; exact D1|right; exact D1].
Qed.

Section ColourNodata.

Variables (NO_DATA_VALUE indeterminate : Q).

(** A component in [0, 1] passes the validity test of a band whose nodata
    value is above 1 (or the default, -32767), when the driver has no
    nodata override, minimum or maximum. *)
Lemma unit_sample_valid (d : Driver) (band : GDALRasterBand) (v : Q) :
  noDataValue d = None -> minValidValue d = None -> maxValidValue d = None ->
  nodata_above_one band -> 0 <= v <= 1 ->
  isValidValue_band d v band = true.
Proof.
  intros Hn Hmin Hmax Hb [V0 V1]. unfold isValidValue_band, nodata_above_one in *.
  rewrite Hn, Hmin, Hmax. cbn [has_value below above].
  destruct (Qeqb _ v) eqn:E; [|reflexivity].
  exfalso. apply Qeq_bool_iff in E.
  destruct (GetNoDataValue band); [destruct Hb as [_ Hb]|]; lra.
Qed.

Lemma opaque_default (n i : Z) :
  (0 <= i < n)%Z ->
  byte_at indeterminate (replicate (Z.to_nat n) 255) i / 255 == 1.
Proof.
  intros Hi. unfold byte_at, peek.
  replace (i <? 0)%Z with false by (symmetry; lia).
  rewrite lookup_replicate_2 by lia. reflexivity.
Qed.

(** X29.  In the RGB branch of [createImage] the validity test sees the
    components divided by 255.  So, without alpha band and on a driver
    without nodata override, minimum and maximum, colour bands that
    declare as nodata value a float above 1 (255, say) make no pixel
    transparent: whatever destination window inside the tile the loops
    are given, every pixel they write has alpha 1. *)
Theorem colour_nodata_above_one_ignored (d : Driver) (w : Window) (T : Z)
    (bR bG bB : GDALRasterBand) (row col : Z) :
  placed w T -> (T * T < 2147483648)%Z ->
  noDataValue d = None -> minValidValue d = None -> maxValidValue d = None ->
  nodata_above_one bR -> nodata_above_one bG -> nodata_above_one bB ->
  (0 <= row < target_height w)%Z -> (0 <= col < target_width w)%Z ->
  exists c,
    pixelAt (createImage_rgb indeterminate d w T bR bG bB None)
            (tile_offset_left w + col) (T - 1 - (tile_offset_top w + row)) = Some c
    /\ a c == 1.
Proof.
  intros Hp _ Hn Hmin Hmax NR NG NB Hrow Hcol.
  rewrite createImage_rgb_loop.
  destruct (write_loop_spec w T (rgbPixel indeterminate d w bR bG bB None)
              R8G8B8A8_UNORM (Image_fill R8G8B8A8_UNORM T T (mkF4 0 0 0 0)) Hp
              (Image_fill_shape _ T _) eq_refl) as (_ & _ & Hput & _).
  eexists. split; [apply (Hput row col Hrow Hcol)|].
  cbn [encode]. unfold rgbPixel. cbv zeta. cbn [r g b a fvec4_div band_valid].
  rewrite !unit_sample_valid by (try assumption; apply byte_at_unit).
  cbn [negb orb a]. apply opaque_default.
  destruct Hp as (_ & _ & Hw0 & _). nia.
Qed.

End ColourNodata.

(** X30.  When the source named by the layer's URI cannot be opened, [open]
    fails with [ResourceUnavailable]: no source dataset is recorded, the
    driver is not marked open and the caller's extent list is untouched. *)
Theorem unopenable_source_unavailable (E : External) (d : Driver) (name : string)
    (layer : Options) (tileSize : Z) (lde : option DataExtentList) (io : IOOptions)
    (u : URI) :
  _external d = None ->
  uri layer = Some u -> full u <> EmptyString ->
  openSource E layer (full u) = None ->
  let res := open E d name layer tileSize lde io in
  fst (fst res) = ResourceUnavailable
  /\ _srcDS (snd (fst res)) = None
  /\ _open (snd (fst res)) = _open d
  /\ snd res = lde.
Proof.
  intros Hx Hu Hne Hopen. cbv zeta. unfold open. cbv zeta.
  cbn [_external set__layer set__name]. rewrite Hx, Hu. cbn [is_null negb andb].
  destruct (full u) as [|ch rest] eqn:Ef; [contradiction|]. cbn [string_empty andb].
  unfold acquireSource. cbn [_external set__layer set__name]. rewrite Hx, Hu, Ef.
  cbn [string_empty]. rewrite Hopen. cbn. repeat split; reflexivity.
Qed.

(** X31.  The guard on the configured sub-dataset index compares it with
    the number of entries of the [SUBDATASETS] metadata list.  An index
    within that number for which the list holds no entry
    [SUBDATASET_<index>_NAME] (GDAL lists two entries per sub-dataset, so
    5 of three sub-datasets is one) is not replaced by 1: the lookup
    finds nothing, [GDALOpen] is handed the empty name, and when that
    cannot be opened, [open] fails with [ResourceUnavailable]. *)
Theorem subdataset_index_without_name (E : External) (d : Driver) (name : string)
    (layer : Options) (tileSize : Z) (lde : option DataExtentList) (io : IOOptions)
    (u : URI) (srcDS : GDALDataset) (v : Z) :
  _external d = None ->
  uri layer = Some u -> full u <> EmptyString ->
  GDALOpen E (full u) = Some srcDS ->
  subDataset layer = Some v ->
  (1 <= v <= Z.of_nat (length (SUBDATASETS srcDS)))%Z -> (v < 2147483648)%Z ->
  CSLFetchNameValue (SUBDATASETS srcDS) ("SUBDATASET_" ++ decimal v ++ "_NAME")%string
  = None ->
  GDALOpen E EmptyString = None ->
  subDatasetIndex layer (Z.of_nat (length (SUBDATASETS srcDS))) = v
  /\ openSource E layer (full u) = None
  /\ fst (fst (open E d name layer tileSize lde io)) = ResourceUnavailable.
Proof.
  intros Hx Hu Hne Ho Hv Hin Hs Hmiss Hempty.
  assert (Hi : subDatasetIndex layer (Z.of_nat (length (SUBDATASETS srcDS))) = v).
  { unfold subDatasetIndex. rewrite Hv, wrap_int32_small by lia.
    replace (v <? 1)%Z with false by (symmetry; apply Z.ltb_ge; lia).
    replace (v >? _)%Z with false by (symmetry; rewrite Z.gtb_ltb; apply Z.ltb_ge; lia).
    reflexivity. }
  assert (Hsrc : openSource E layer (full u) = None).
  { unfold openSource. rewrite Ho.
    replace (Z.of_nat (length (SUBDATASETS srcDS)) >? 0)%Z with true
      by (symmetry; rewrite Z.gtb_ltb; apply Z.ltb_lt; lia).
    rewrite Hi, Hmiss. exact Hempty. }
  split; [exact Hi|]. split; [exact Hsrc|].
  unfold open. cbv zeta.
  cbn [_external set__layer set__name]. rewrite Hx, Hu. cbn [is_null negb andb].
  destruct (full u) as [|ch rest] eqn:Ef; [contradiction|]. cbn [string_empty andb].
  unfold acquireSource. cbn [_external set__layer set__name]. rewrite Hx, Hu, Ef.
  cbn [string_empty]. rewrite Hsrc. reflexivity.
Qed.

(** ** The properties at concrete datasets *)

Local Open Scope string_scope.

Ltac evaluate := vm_compute; try reflexivity; try discriminate.

Lemma equiv_near (x y eps : Q) :
  - eps <= x - y -> x - y <= eps -> equiv x y eps = true.
Proof.
  intros L U. unfold equiv. destruct (Qltb (x - y) 0); apply Qle_bool_iff; assumption.
Qed.

(** C1, at a failing input.  [open] does not see to it that
    [_invtransform] inverts [_geotransform]: it asserts quietly on the
    result of [GDALInvGeoTransform] and goes on.  On a raster whose
    geotransform is singular (all its coefficients are 0 here) [open]
    succeeds although the inversion has delivered nothing,
    [_invtransform] is still what the driver was constructed with, and
    [geoToPixel (pixelToGeo (x, y))] is (0, 0) for every pixel coordinate
    [(x, y)]: for (5, 7), which is inside the raster, it misses by 5 and
    by 7 where the tolerance is 1e-4. *)
Theorem round_trip_lost_on_singular_geotransform (x y : Q) :
  let res := open (Demo.world Gallery.files) Demo.freshDriver "flat.tif"
                  (Demo.fileLayer "flat.tif" AVERAGE) 256 (Some []) (mkIO false) in
  let d' := snd (fst res) in
  let roundtrip x y :=
    geoToPixel (_invtransform d') (GetRasterXSize Gallery.flat) (GetRasterYSize Gallery.flat)
               (fst (pixelToGeo (_geotransform d') x y))
               (snd (pixelToGeo (_geotransform d') x y)) in
  fst (fst res) = NoError
  /\ _warpedDS d' = Some Gallery.flat
  /\ GDALInvGeoTransform (Demo.world Gallery.files) (_geotransform d') = None
  /\ _invtransform d' = _invtransform Demo.freshDriver
  /\ roundtrip x y = (0, 0)
  /\ ~ Qabs (fst (roundtrip 5 7) - 5) <= 1 # 10000
  /\ ~ Qabs (snd (roundtrip 5 7) - 7) <= 1 # 10000.
Proof.
  cbv zeta.
  set (d' := snd (fst (open _ _ _ _ _ _ _))).
  assert (Hg : _geotransform d' = mkGT 0 0 0 0 0 0) by (vm_compute; reflexivity).
  assert (Hi : _invtransform d' = mkGT 0 1 0 0 0 1) by (vm_compute; reflexivity).
  split; [vm_compute; reflexivity|]. split; [vm_compute; reflexivity|].
  split; [rewrite Hg; vm_compute; reflexivity|]. split; [rewrite Hi; reflexivity|].
  rewrite Hg, Hi. split; [|split; intros C; vm_compute in C; apply C; reflexivity].
  unfold geoToPixel, pixelToGeo. cbn [g0 g1 g2 g3 g4 g5 fst snd]. cbv zeta.
  rewrite (equiv_near (0 + 1 * (0 + 0 * x + 0 * y) + 0 * (0 + 0 * x + 0 * y)) 0 (1 # 10000))
    by (ring_simplify (0 + 1 * (0 + 0 * x + 0 * y) + 0 * (0 + 0 * x + 0 * y) - 0); lra).
  rewrite (equiv_near (0 + 0 * (0 + 0 * x + 0 * y) + 1 * (0 + 0 * x + 0 * y)) 0 (1 # 10000))
    by (ring_simplify (0 + 0 * (0 + 0 * x + 0 * y) + 1 * (0 + 0 * x + 0 * y) - 0); lra).
  reflexivity.
Qed.

Lemma outside_coverage_unavailable_witness :
  let d := Demo.openedOn Demo.degreeGlobe AVERAGE true in
  intersects (extent Demo.outsideKey) (_extents d) = false
  /\ createImage 0 0 d Demo.outsideKey 256 (mkIO false)
     = Some (Failure ResourceUnavailable)
  /\ createHeightfield 0 0 false d Demo.outsideKey 256 (mkIO false)
     = Some (Failure ResourceUnavailable).
Proof.
  cbv zeta. split; [evaluate|].
  apply (outside_coverage_unavailable 0 0 false). evaluate.
Defined.

Lemma failed_reads_still_return_a_tile_witness :
  let d := Demo.openedOn Demo.brokenDEM BILINEAR true in
  (forall args, RasterIO (Demo.failingBand GDT_Float32 360 180) args = None)
  /\ (exists hf : Heightfield,
        createHeightfield (- Demo.FLT_MAX) 55 false d Demo.smallKey 2 (mkIO false)
        = Some (Ok hf))
  /\ (forall col row before : Q,
        readSample 55 (Demo.failingBand GDT_Float32 360 180) col row before = before).
Proof.
  cbv zeta. split; [reflexivity|].
  apply (failed_reads_still_return_a_tile (- Demo.FLT_MAX) 55 false
           (Demo.openedOn Demo.brokenDEM BILINEAR true) Demo.brokenDEM
           (Demo.failingBand GDT_Float32 360 180)).
  - repeat split; evaluate.
  - reflexivity.
  - reflexivity.
  - discriminate.
  - reflexivity.
Defined.

(** The tile that comes back when every read fails: four samples
    interpolated from the value of the unwritten locals (here 55). *)
Example failed_reads_tile :
  createHeightfield (- Demo.FLT_MAX) 55 false
    (Demo.openedOn Demo.brokenDEM BILINEAR true) Demo.smallKey 2 (mkIO false)
  = Some (Ok (mkHeightfield 2 2 [3520 # 64; 3520 # 64; 3520 # 64; 3520 # 64])).
Proof. vm_compute. reflexivity. Qed.

Lemma coarse_area_bounds_not_clamped :
  let res := Demo.openFile "coarse.tif" 256 in
  let d' := snd (fst res) in
  let declared := cornerBounds (_geotransform d') Demo.coarseGlobe in
  fst (fst res) = NoError
  /\ isGeodetic (ge_srs (_extents d')) = true /\ is_area_of Demo.coarseGlobe = true
  /\ xmin declared == - 190 /\ xmax declared == 190
  /\ xmin (_bounds d') == - 171 /\ xmax (_bounds d') == 171
  /\ ~ (xmin (_bounds d') == - 180 /\ xmax (_bounds d') == 180)
  /\ snd (clampBounds true true declared
            (resolutionX (_geotransform d') Demo.coarseGlobe)
            (resolutionY (_geotransform d') Demo.coarseGlobe)) = false.
Proof.
  cbv zeta. repeat split; try (vm_compute; reflexivity).
  intros [C _]. vm_compute in C. discriminate.
Qed.

(** At 19 pixels the half-pixel shrink alone brings the bounds to
    [-180, 180]: nothing is clamped and the flag stays unset. *)
Example nineteen_pixels_shrunk_only :
  let res := clampBounds true true (mkBox (- 190) (- 90) 190 90)
                         (380 / inject_Z 19) (180 / inject_Z 9) in
  xmin (fst res) == - 180 /\ xmax (fst res) == 180 /\ snd res = false.
Proof. cbv zeta. repeat split; vm_compute; reflexivity. Qed.

Lemma wide_area_bounds_clamped_witness :
  let d' := snd (fst (Demo.openFile "fine.tif" 256)) in
  let declared := cornerBounds (_geotransform d') Demo.fineGlobe in
  (xmin declared == - 190 /\ xmax declared == 190 /\ (19 < GetRasterXSize Demo.fineGlobe)%Z)
  /\ xmin (_bounds d') == - 180 /\ xmax (_bounds d') == 180
  /\ snd (clampBounds true true declared
            (resolutionX (_geotransform d') Demo.fineGlobe)
            (resolutionY (_geotransform d') Demo.fineGlobe)) = true.
Proof.
  cbv zeta. split; [repeat split; vm_compute; reflexivity|].
  apply (wide_area_bounds_clamped (Demo.world Demo.files) Demo.freshDriver "fine.tif"
           (Demo.fileLayer "fine.tif" AVERAGE) 256 (Some []) (mkIO false)
           (snd (fst (Demo.openFile "fine.tif" 256))) (snd (Demo.openFile "fine.tif" 256))
           Demo.fineGlobe Demo.fineGlobe); vm_compute; reflexivity.
Defined.

Lemma missing_palette_entry_not_opaque :
  let d := Demo.openedOn Gallery.stripedGlobe AVERAGE true in
  let w := planWindow d Gallery.stripedGlobe Demo.smallKey 2
             (intersectionSameSRS (extent Demo.smallKey) (_extents d)) in
  exists img : Image,
    createImage 0 0 d Demo.smallKey 2 (mkIO false) = Some (Ok img)
    /\ paletteIndexAt 0 w Gallery.stripedBand 0 1 = 7%Z
    /\ GetColorEntry (GetColorTable Gallery.stripedBand) 7 = None
    /\ (tile_offset_left w + 1 = 1)%Z /\ (2 - 1 - (tile_offset_top w + 0) = 1)%Z
    /\ pixelAt img 1 1 = Some (mkF4 (255 # 255) (0 # 255) (0 # 255) (0 # 255))
    /\ pixelAt img 0 1 = Some (mkF4 (10 # 255) (20 # 255) (30 # 255) (255 # 255))
    /\ ~ (0 # 255 == 1).
Proof.
  cbv zeta. eexists. split; [vm_compute; reflexivity|].
  repeat (split; [vm_compute; reflexivity|]).
  intros C. vm_compute in C. discriminate.
Qed.

Lemma missing_palette_entry_transparent_witness :
  let d := Demo.openedOn Gallery.stripedGlobe AVERAGE true in
  let w := planWindow d Gallery.stripedGlobe Demo.smallKey 2
             (intersectionSameSRS (extent Demo.smallKey) (_extents d)) in
  (bandPalette (resolveBands Gallery.stripedGlobe) = Some Gallery.stripedBand
   /\ placed w 2 /\ unscaled Gallery.stripedBand
   /\ paletteIndexAt 0 w Gallery.stripedBand 0 1 = 7%Z
   /\ GetColorEntry (GetColorTable Gallery.stripedBand) 7 = None)
  /\ createImage 0 0 d Demo.smallKey 2 (mkIO false)
     = Some (Ok (createImage_palette 0 d w 2 Gallery.stripedBand))
  /\ exists c,
       pixelAt (createImage_palette 0 d w 2 Gallery.stripedBand)
               (tile_offset_left w + 1) (2 - 1 - (tile_offset_top w + 0))
       = Some c
       /\ r c == 1 /\ g c == 0 /\ b c == 0 /\ a c == 0.
Proof.
  cbv zeta.
  set (d := Demo.openedOn Gallery.stripedGlobe AVERAGE true).
  set (w := planWindow d Gallery.stripedGlobe Demo.smallKey 2
              (intersectionSameSRS (extent Demo.smallKey) (_extents d))).
  assert (Hp : placed w 2) by (vm_compute; repeat split; discriminate).
  assert (Hu : unscaled Gallery.stripedBand) by (split; reflexivity).
  assert (Hi : paletteIndexAt 0 w Gallery.stripedBand 0 1 = 7%Z) by (vm_compute; reflexivity).
  assert (Hm : GetColorEntry (GetColorTable Gallery.stripedBand) 7 = None) by reflexivity.
  split; [repeat split; first [reflexivity | assumption | apply Hp | apply Hu]|].
  destruct (missing_palette_entry_transparent 0 0 d Gallery.stripedGlobe
              Demo.smallKey 2 (mkIO false) Gallery.stripedBand) as [H1 H2];
    try (vm_compute; reflexivity).
  { repeat split; vm_compute; try reflexivity; discriminate. }
  split; [exact H1|].
  apply (H2 w Hp ltac:(lia) Hu 0%Z 1%Z);
    try (vm_compute; split; [discriminate|reflexivity]).
  rewrite Hi. exact Hm.
Defined.


(** The round in which a halved dimension equals the resolution counts:
    at 180 pixels per tile the level-0 dimension per pixel is the
    resolution itself, 1 degree, and the level is 1. *)
Example level_counts_the_equal_round :
  let d' := snd (fst (Demo.openFile "degree.tif" 180)) in
  level_arithmetic_exact (_geotransform d') Demo.degreeGlobe
    (tileDimensions (_profile d') 0) 180 = true
  /\ fst (tileDimensions (_profile d') 0) / inject_Z 180
     == Qmin (resolutionX (_geotransform d') Demo.degreeGlobe)
             (resolutionY (_geotransform d') Demo.degreeGlobe)
  /\ maxDataLevel d' = Some 1%Z.
Proof. cbv zeta. repeat split; vm_compute; reflexivity. Qed.

Lemma nonpositive_resolution_level_one_witness :
  let d' := snd (fst (Demo.openFile "southup.tif" 256)) in
  Qmin (resolutionX (_geotransform d') Demo.southUp)
       (resolutionY (_geotransform d') Demo.southUp) <= 0
  /\ maxDataLevel d' = Some 1%Z.
Proof.
  cbv zeta. split; [vm_compute; discriminate|].
  apply (nonpositive_resolution_level_one (Demo.world Demo.files) Demo.freshDriver
           "southup.tif" (Demo.fileLayer "southup.tif" AVERAGE) 256 (Some []) (mkIO false)
           (snd (fst (Demo.openFile "southup.tif" 256)))
           (snd (Demo.openFile "southup.tif" 256)) Demo.southUp);
    vm_compute; try reflexivity; discriminate.
Defined.

Lemma out_of_range_index_not_clamped :
  let E := Demo.world Demo.files in
  let layer := mkOptions (Some (mkURI "container.nc" "container.nc")) None (Some 7%Z) AVERAGE in
  let named k :=
    GDALOpen E (CPLStrdup (CSLFetchNameValue (SUBDATASETS Demo.container)
                             ("SUBDATASET_" ++ decimal k ++ "_NAME"))) in
  GDALOpen E "container.nc" = Some Demo.container
  /\ Z.of_nat (length (SUBDATASETS Demo.container)) = (2 * 3)%Z
  /\ clampZ 7 1 3 = 3%Z
  /\ openSource E layer "container.nc" = named 1%Z
  /\ openSource E layer "container.nc" <> named (clampZ 7 1 3).
Proof.
  cbv zeta. repeat split; try (vm_compute; reflexivity).
  intros C. apply (f_equal (option_map GetRasterXSize)) in C.
  vm_compute in C. discriminate.
Qed.

Lemma subdataset_selected_or_first_witness :
  let E := Demo.world Demo.files in
  let layer := mkOptions (Some (mkURI "container.nc" "container.nc")) None (Some 3%Z) AVERAGE in
  (GDALOpen E "container.nc" = Some Demo.container
   /\ Z.of_nat (length (SUBDATASETS Demo.container)) = (2 * 3)%Z)
  /\ let reopened :=
       GDALOpen E
         (CPLStrdup (CSLFetchNameValue (SUBDATASETS Demo.container) "SUBDATASET_3_NAME")) in
     openSource E layer "container.nc" = reopened
     /\ forall d name tileSize lde io d' lde',
          _external d = None ->
          "container.nc" = match uri layer with Some u => full u | None => sourceOf layer end ->
          open E d name layer tileSize lde io = (NoError, d', lde') ->
          _srcDS d' = reopened.
Proof.
  cbv zeta. split; [split; vm_compute; reflexivity|].
  apply (subdataset_selected_or_first (Demo.world Demo.files)
           (mkOptions (Some (mkURI "container.nc" "container.nc")) None (Some 3%Z) AVERAGE)
           "container.nc" Demo.container 3 3).
  - vm_compute. reflexivity.
  - reflexivity.
  - lia.
  - cbn. split; [lia|]. left. split; [lia|reflexivity].
Defined.



(** ** The further properties at concrete datasets *)

Lemma createImage_tile_shape_witness :
  exists img,
    createImage 0 0 (Demo.openedOn Gallery.rgbGlobe AVERAGE true) Demo.smallKey 2
                (mkIO false) = Some (Ok img)
    /\ img_width img = 2%Z /\ img_height img = 2%Z
    /\ length (img_data img) = Z.to_nat (2 * 2).
Proof.
  eexists. split; [vm_compute; reflexivity|].
  apply (createImage_tile_shape 0 0 (Demo.openedOn Gallery.rgbGlobe AVERAGE true)
           Demo.smallKey 2 (mkIO false)).
  vm_compute. reflexivity.
Defined.

Lemma outside_window_keeps_fill_witness :
  let d := Demo.openedOn Gallery.rgbGlobe AVERAGE true in
  let w := planWindow d Gallery.rgbGlobe Gallery.eastKey 4
             (intersectionSameSRS (extent Gallery.eastKey) (_extents d)) in
  (placed w 4 /\ ~ in_window w 4 3 0
   /\ createImage 0 0 d Gallery.eastKey 4 (mkIO false)
      = Some (Ok (createImage_rgb 0 d w 4 Gallery.redBand Gallery.greenBand
                    Gallery.blueBand None)))
  /\ pixelAt (createImage_rgb 0 d w 4 Gallery.redBand Gallery.greenBand
                Gallery.blueBand None) 3 0
     = Some (mkF4 0 0 0 0).
Proof.
  cbv zeta.
  set (d := Demo.openedOn Gallery.rgbGlobe AVERAGE true).
  set (w := planWindow d Gallery.rgbGlobe Gallery.eastKey 4
              (intersectionSameSRS (extent Gallery.eastKey) (_extents d))).
  assert (Hp : placed w 4) by (vm_compute; repeat split; discriminate).
  assert (Hout : ~ in_window w 4 3 0).
  { unfold in_window. vm_compute. intros [[_ H] _]. discriminate H. }
  split; [split; [exact Hp|split; [exact Hout|vm_compute; reflexivity]]|].
  destruct (outside_window_keeps_fill 0 0 d w 4 3 0 Hp) as [H _];
    [lia | lia | lia | exact Hout |].
  apply H.
Defined.

Lemma tile_pixels_flipped_witness :
  let d := Demo.openedOn Gallery.rgbGlobe AVERAGE true in
  let w := planWindow d Gallery.rgbGlobe Gallery.eastKey 4
             (intersectionSameSRS (extent Gallery.eastKey) (_extents d)) in
  (placed w 4 /\ unscaled Gallery.redBand /\ unscaled Gallery.greenBand
   /\ unscaled Gallery.blueBand
   /\ (tile_offset_left w + 1 = 1)%Z /\ (4 - 1 - (tile_offset_top w + 0) = 3)%Z
   /\ byteRead 0 Gallery.redBand w AVERAGE 0 0 1 = 255
   /\ byteRead 0 Gallery.greenBand w AVERAGE 0 0 1 = 128
   /\ byteRead 0 Gallery.blueBand w AVERAGE 0 0 1 = 0)
  /\ exists c,
       pixelAt (createImage_rgb 0 d w 4 Gallery.redBand Gallery.greenBand
                  Gallery.blueBand None)
               (tile_offset_left w + 1) (4 - 1 - (tile_offset_top w + 0)) = Some c
       /\ r c == byteRead 0 Gallery.redBand w AVERAGE 0 0 1 / 255
       /\ g c == byteRead 0 Gallery.greenBand w AVERAGE 0 0 1 / 255
       /\ b c == byteRead 0 Gallery.blueBand w AVERAGE 0 0 1 / 255
       /\ (a c == alphaRead 0 None w AVERAGE 0 1 / 255 \/ a c == 0).
Proof.
  cbv zeta.
  set (d := Demo.openedOn Gallery.rgbGlobe AVERAGE true).
  set (w := planWindow d Gallery.rgbGlobe Gallery.eastKey 4
              (intersectionSameSRS (extent Gallery.eastKey) (_extents d))).
  assert (Hp : placed w 4) by (vm_compute; repeat split; discriminate).
  assert (Hu : forall v, unscaled (Demo.constantBand v GDT_Byte (Some 255) 1 0
                                     Demo.noTable 360 180 255)
                         /\ unscaled (Demo.constantBand v GDT_Byte (Some 255) 1 0
                                        Demo.noTable 360 180 128)
                         /\ unscaled (Demo.constantBand v GDT_Byte (Some 255) 1 0
                                        Demo.noTable 360 180 0))
    by (intros v; repeat split; reflexivity).
  split.
  { split; [exact Hp|]. split; [apply (Hu GCI_RedBand)|].
    split; [apply (Hu GCI_GreenBand)|]. split; [apply (Hu GCI_BlueBand)|].
    repeat split; vm_compute; reflexivity. }
  destruct (tile_pixels_flipped 0 0 d w 4 0 1 Hp) as [H _];
    [lia | vm_compute; split; [discriminate|reflexivity]
    | vm_compute; split; [discriminate|reflexivity] |].
  apply (H Gallery.redBand Gallery.greenBand Gallery.blueBand None);
    [apply (Hu GCI_RedBand) | apply (Hu GCI_GreenBand) | apply (Hu GCI_BlueBand) | exact I].
Defined.

Lemma colour_tiles_normalised_witness :
  exists img,
    createImage 0 0 (Demo.openedOn Gallery.rgbGlobe AVERAGE true) Demo.smallKey 2
                (mkIO false) = Some (Ok img)
    /\ pixelFormat img = R8G8B8A8_UNORM
    /\ Forall unit_colour (img_data img).
Proof.
  eexists. split; [vm_compute; reflexivity|]. split; [reflexivity|].
  apply (colour_tiles_normalised 0 0 (Demo.openedOn Gallery.rgbGlobe AVERAGE true)
           Demo.smallKey 2 (mkIO false)); [vm_compute; reflexivity | reflexivity].
Defined.

Lemma palette_ignores_interpolation_witness :
  let d := Demo.openedOn Demo.paletteGlobe AVERAGE true in
  createImage 0 0 (with_interpolation CUBIC d) Demo.smallKey 2 (mkIO false)
  = createImage 0 0 (with_interpolation NEAREST d) Demo.smallKey 2 (mkIO false).
Proof.
  cbv zeta.
  apply (palette_ignores_interpolation 0 0 (Demo.openedOn Demo.paletteGlobe AVERAGE true)
           Demo.paletteGlobe Demo.smallKey 2 (mkIO false) CUBIC NEAREST);
    vm_compute; reflexivity.
Defined.

Lemma colour_nodata_above_one_ignored_witness :
  let d := Demo.openedOn Gallery.rgbGlobe AVERAGE true in
  let w := planWindow d Gallery.rgbGlobe Demo.smallKey 2
             (intersectionSameSRS (extent Demo.smallKey) (_extents d)) in
  (placed w 2
   /\ resolveBands Gallery.rgbGlobe
      = mkRoles (Some Gallery.redBand) (Some Gallery.greenBand) (Some Gallery.blueBand)
                None None None
   /\ GetNoDataValue Gallery.redBand = Some 255)
  /\ createImage 0 0 d Demo.smallKey 2 (mkIO false)
     = Some (Ok (createImage_rgb 0 d w 2 Gallery.redBand Gallery.greenBand
                   Gallery.blueBand None))
  /\ exists c,
       pixelAt (createImage_rgb 0 d w 2 Gallery.redBand Gallery.greenBand
                  Gallery.blueBand None)
               (tile_offset_left w + 0) (2 - 1 - (tile_offset_top w + 0)) = Some c
       /\ a c == 1.
Proof.
  cbv zeta.
  assert (Hp : placed
                 (planWindow (Demo.openedOn Gallery.rgbGlobe AVERAGE true) Gallery.rgbGlobe
                    Demo.smallKey 2
                    (intersectionSameSRS (extent Demo.smallKey)
                       (_extents (Demo.openedOn Gallery.rgbGlobe AVERAGE true)))) 2)
    by (vm_compute; repeat split; discriminate).
  split; [split; [exact Hp|split; reflexivity]|].
  split; [vm_compute; reflexivity|].
  apply (colour_nodata_above_one_ignored 0
           (Demo.openedOn Gallery.rgbGlobe AVERAGE true) _ 2
           Gallery.redBand Gallery.greenBand Gallery.blueBand 0 0 Hp);
    try reflexivity; try lia;
    try (vm_compute; split; [reflexivity|reflexivity]);
    try (vm_compute; split; [discriminate|reflexivity]).
Defined.

Lemma createHeightfield_tile_shape_witness :
  exists hf,
    createHeightfield (- Demo.FLT_MAX) 0 false
      (Demo.openedOn (Gallery.plateau "Point") BILINEAR false) Demo.smallKey 3 (mkIO false)
    = Some (Ok hf)
    /\ hf_width hf = 3%Z /\ hf_height hf = 3%Z
    /\ length (hf_data hf) = Z.to_nat (3 * 3).
Proof.
  eexists. split; [vm_compute; reflexivity|].
  apply (createHeightfield_tile_shape (- Demo.FLT_MAX) 0 false
           (Demo.openedOn (Gallery.plateau "Point") BILINEAR false)
           Demo.smallKey 3 (mkIO false)).
  vm_compute. reflexivity.
Defined.

Lemma area_samples_by_point_witness :
  let d := Demo.openedOn (Gallery.plateau "Area") BILINEAR true in
  exists hf,
    createHeightfield (- Demo.FLT_MAX) 0 false d Demo.smallKey 3 (mkIO false)
    = Some (Ok hf)
    /\ heightAt hf 1 2
       = Some (getInterpolatedDEMValue (- Demo.FLT_MAX) 0 false d
                 (Gallery.plateau "Area") Gallery.plateauBand
                 (xmin (ge_box (extent Demo.smallKey))
                  + ge_width (extent Demo.smallKey) / inject_Z (3 - 1) * inject_Z 1)
                 (ymin (ge_box (extent Demo.smallKey))
                  + ge_height (extent Demo.smallKey) / inject_Z (3 - 1) * inject_Z 2)
                 true
               * _linearUnits d).
Proof.
  cbv zeta. eexists. split; [vm_compute; reflexivity|].
  apply (area_samples_by_point (- Demo.FLT_MAX) 0 false
           (Demo.openedOn (Gallery.plateau "Area") BILINEAR true)
           (Gallery.plateau "Area") Gallery.plateauBand Demo.smallKey 3 (mkIO false));
    try (vm_compute; reflexivity); try lia; try discriminate.
Defined.

Lemma workspace_height_within_samples_witness :
  let d := Demo.openedOn (Gallery.plateau "Point") BILINEAR false in
  let data := [100; 120; 140; 160] in
  (forall i, (0 <= i < 2 * 2)%Z -> 100 <= peek 0 data i <= 160)
  /\ let h := getInterpolatedDEMValueWorkspace (- Demo.FLT_MAX) 0 d Gallery.plateauBand
                (1 # 3) (1 # 4) data 2 2 in
     h = - Demo.FLT_MAX \/ (100 <= h <= 160).
Proof.
  cbv zeta.
  assert (Hdata : forall i, (0 <= i < 2 * 2)%Z -> 100 <= peek 0 [100; 120; 140; 160] i <= 160).
  { intros i Hi.
    assert (C : i = 0%Z \/ i = 1%Z \/ i = 2%Z \/ i = 3%Z) by lia.
    destruct C as [-> | [-> | [-> | ->]]]; vm_compute; split; discriminate. }
  split; [exact Hdata|].
  apply (workspace_height_within_samples (- Demo.FLT_MAX) 0
           (Demo.openedOn (Gallery.plateau "Point") BILINEAR false)
           Gallery.plateauBand (1 # 3) (1 # 4) [100; 120; 140; 160] 2 2 100 160);
    [lia | lia | exact Hdata].
Defined.

Lemma constant_workspace_constant_height_witness :
  let d := Demo.openedOn (Gallery.plateau "Point") BILINEAR false in
  (forall i, (0 <= i < 2 * 2)%Z -> peek 0 [100; 100; 100; 100] i = 100)
  /\ getInterpolatedDEMValueWorkspace (- Demo.FLT_MAX) 0 d Gallery.plateauBand
       (1 # 3) (1 # 4) [100; 100; 100; 100] 2 2 == 100.
Proof.
  cbv zeta.
  assert (Hdata : forall i, (0 <= i < 2 * 2)%Z -> peek 0 [100; 100; 100; 100] i = 100).
  { intros i Hi.
    assert (C : i = 0%Z \/ i = 1%Z \/ i = 2%Z \/ i = 3%Z) by lia.
    destruct C as [-> | [-> | [-> | ->]]]; reflexivity. }
  split; [exact Hdata|].
  apply (constant_workspace_constant_height (- Demo.FLT_MAX) 0
           (Demo.openedOn (Gallery.plateau "Point") BILINEAR false)
           Gallery.plateauBand (1 # 3) (1 # 4) [100; 100; 100; 100] 2 2 100);
    [lia | lia | exact Hdata | vm_compute; reflexivity].
Defined.

Lemma manual_cubic_is_zero_witness :
  let d := Demo.openedOn (Gallery.plateau "Area") CUBIC true in
  let h := getInterpolatedDEMValue (- Demo.FLT_MAX) 0 false d (Gallery.plateau "Area")
             Gallery.plateauBand 10 10 true in
  h = - Demo.FLT_MAX \/ h = 0.
Proof.
  cbv zeta.
  apply (manual_cubic_is_zero (- Demo.FLT_MAX) 0 false
           (Demo.openedOn (Gallery.plateau "Area") CUBIC true)
           (Gallery.plateau "Area") Gallery.plateauBand 10 10 true);
    left; reflexivity.
Defined.

Lemma manual_constant_band_witness :
  let d := Demo.openedOn (Gallery.plateau "Area") BILINEAR true in
  (forall col row before, readSample 0 Gallery.plateauBand col row before = 100)
  /\ binary32 100 = true
  /\ let h := getInterpolatedDEMValue (- Demo.FLT_MAX) 0 false d (Gallery.plateau "Area")
                Gallery.plateauBand (21 # 2) (41 # 4) true in
     h = - Demo.FLT_MAX \/ h == 100.
Proof.
  cbv zeta.
  assert (Hread : forall col row before,
             readSample 0 Gallery.plateauBand col row before = 100).
  { intros col row before. reflexivity. }
  split; [exact Hread|]. split; [reflexivity|].
  apply (manual_constant_band (- Demo.FLT_MAX) 0 false
           (Demo.openedOn (Gallery.plateau "Area") BILINEAR true)
           (Gallery.plateau "Area") Gallery.plateauBand (21 # 2) (41 # 4) true 100);
    [left; reflexivity | exact Hread | reflexivity | vm_compute; reflexivity
    | discriminate | discriminate | vm_compute; split; [reflexivity|discriminate]
    | vm_compute; split; [reflexivity|discriminate]].
Defined.

Lemma builders_fail_only_unavailable_witness :
  exists code,
    createImage 0 0 (Demo.openedOn Demo.degreeGlobe AVERAGE true) Demo.outsideKey 256
                (mkIO false) = Some (Failure code)
    /\ code = ResourceUnavailable.
Proof.
  eexists. split; [vm_compute; reflexivity|].
  apply (builders_fail_only_unavailable 0 0 false
           (Demo.openedOn Demo.degreeGlobe AVERAGE true) Demo.outsideKey 256 (mkIO false)).
  left. vm_compute. reflexivity.
Defined.

Lemma open_marks_only_success_witness :
  let res := Demo.openFile "degree.tif" 256 in
  let d' := snd (fst res) in
  fst (fst res) = NoError
  /\ _open d' = true /\ _linearUnits d' == 1
  /\ profile_valid (_profile d') = true.
Proof.
  cbv zeta. split; [vm_compute; reflexivity|].
  apply (open_marks_only_success (Demo.world Demo.files) Demo.freshDriver "degree.tif"
           (Demo.fileLayer "degree.tif" AVERAGE) 256 (Some []) (mkIO false)
           (fst (fst (Demo.openFile "degree.tif" 256)))
           (snd (fst (Demo.openFile "degree.tif" 256)))
           (snd (Demo.openFile "degree.tif" 256)));
    vm_compute; reflexivity.
Defined.

Lemma open_without_source_witness :
  open (Demo.world Demo.files) Demo.freshDriver "empty" (mkOptions None None None AVERAGE)
       256 (Some []) (mkIO false)
  = (ConfigurationError,
     set__layer (mkOptions None None None AVERAGE) (set__name "empty" Demo.freshDriver),
     Some []).
Proof.
  apply (open_without_source (Demo.world Demo.files) Demo.freshDriver "empty"
           (mkOptions None None None AVERAGE) 256 (Some []) (mkIO false));
    [reflexivity | exact I | exact I].
Defined.

Lemma open_keeps_configured_level_witness :
  let res := open (Demo.world Demo.files) Gallery.cappedDriver "degree.tif"
               (Demo.fileLayer "degree.tif" AVERAGE) 256 (Some []) (mkIO false) in
  fst (fst res) = NoError /\ maxDataLevel (snd (fst res)) = Some 5%Z.
Proof.
  cbv zeta. split; [vm_compute; reflexivity|].
  apply (open_keeps_configured_level (Demo.world Demo.files) Gallery.cappedDriver
           "degree.tif" (Demo.fileLayer "degree.tif" AVERAGE) 256 (Some []) (mkIO false)
           _ (snd (open (Demo.world Demo.files) Gallery.cappedDriver "degree.tif"
                     (Demo.fileLayer "degree.tif" AVERAGE) 256 (Some []) (mkIO false))));
    vm_compute; reflexivity.
Defined.

Lemma open_records_one_extent_witness :
  let res := Demo.openFile "degree.tif" 256 in
  let d' := snd (fst res) in
  fst (fst res) = NoError
  /\ exists m,
       maxDataLevel d' = Some m
       /\ snd res
          = Some ([] ++ [mkDataExtent
                           (transform (Demo.world Demo.files) (_extents d')
                                      (profile_srs (_profile d')))
                           (Some 0%Z) (Some m)])%list.
Proof.
  cbv zeta. split; [vm_compute; reflexivity|].
  apply (open_records_one_extent (Demo.world Demo.files) Demo.freshDriver "degree.tif"
           (Demo.fileLayer "degree.tif" AVERAGE) 256 [] (mkIO false)).
  vm_compute. reflexivity.
Defined.

Lemma geodetic_bounds_span_witness :
  let d' := snd (fst (Demo.openFile "fine.tif" 256)) in
  isGeodetic (ge_srs (_extents d')) = true
  /\ xmax (_bounds d') - xmin (_bounds d') <= 360
  /\ ymax (_bounds d') - ymin (_bounds d') <= 180.
Proof.
  cbv zeta. split; [vm_compute; reflexivity|].
  apply (geodetic_bounds_span (Demo.world Demo.files) Demo.freshDriver "fine.tif"
           (Demo.fileLayer "fine.tif" AVERAGE) 256 (Some []) (mkIO false)
           _ (snd (Demo.openFile "fine.tif" 256)));
    vm_compute; reflexivity.
Defined.

Lemma geographic_source_not_warped_witness :
  let d' := snd (fst (Demo.openFile "degree.tif" 256)) in
  _srcDS d' = Some Demo.degreeGlobe /\ _warpedDS d' = Some Demo.degreeGlobe.
Proof.
  cbv zeta. split; [vm_compute; reflexivity|].
  apply (geographic_source_not_warped (Demo.world Demo.files) Demo.freshDriver
           "degree.tif" (Demo.fileLayer "degree.tif" AVERAGE) 256 (Some []) (mkIO false)
           _ (snd (Demo.openFile "degree.tif" 256)));
    try (vm_compute; reflexivity); vm_compute; discriminate.
Defined.

Lemma singular_geotransform_tolerated_witness :
  let res := open (Demo.world Gallery.files) Demo.freshDriver "flat.tif"
               (Demo.fileLayer "flat.tif" AVERAGE) 256 (Some []) (mkIO false) in
  fst (fst res) = NoError
  /\ GDALInvGeoTransform (Demo.world Gallery.files) (_geotransform (snd (fst res))) = None
  /\ _invtransform (snd (fst res)) = _invtransform Demo.freshDriver.
Proof.
  cbv zeta. split; [vm_compute; reflexivity|]. split; [vm_compute; reflexivity|].
  apply (singular_geotransform_tolerated (Demo.world Gallery.files) Demo.freshDriver
           "flat.tif" (Demo.fileLayer "flat.tif" AVERAGE) 256 (Some []) (mkIO false)
           _ (snd (open (Demo.world Gallery.files) Demo.freshDriver "flat.tif"
                     (Demo.fileLayer "flat.tif" AVERAGE) 256 (Some []) (mkIO false))));
    vm_compute; reflexivity.
Defined.

Lemma unreferenced_source_unavailable_witness :
  let res := open (Demo.world Demo.files) Gallery.externalDriver "external"
               (mkOptions None None None AVERAGE) 256 (Some []) (mkIO false) in
  fst (fst res) = ResourceUnavailable
  /\ _open (snd (fst res)) = _open Gallery.externalDriver /\ snd res = Some [].
Proof.
  cbv zeta.
  apply (unreferenced_source_unavailable (Demo.world Demo.files) Gallery.externalDriver
           "external" (mkOptions None None None AVERAGE) 256 (Some []) (mkIO false)
           Demo.container);
    [left; reflexivity | reflexivity | vm_compute; discriminate | reflexivity].
Defined.

Lemma unopenable_source_unavailable_witness :
  let res := Demo.openFile "missing.tif" 256 in
  fst (fst res) = ResourceUnavailable
  /\ _srcDS (snd (fst res)) = None
  /\ _open (snd (fst res)) = _open Demo.freshDriver
  /\ snd res = Some [].
Proof.
  cbv zeta.
  apply (unopenable_source_unavailable (Demo.world Demo.files) Demo.freshDriver
           "missing.tif" (Demo.fileLayer "missing.tif" AVERAGE) 256 (Some []) (mkIO false)
           (mkURI "missing.tif" "missing.tif"));
    [reflexivity | reflexivity | discriminate | vm_compute; reflexivity].
Defined.

Lemma colour_channels_interleaved_witness :
  exists img,
    InMemory.readImage 0 Gallery.decode [] "rgba" = Some img
    /\ InMemory.numComponents (InMemory.pixelFormat img) = Z.of_nat 4
    /\ forall i, (i < Z.to_nat (2 * 1))%nat ->
         InMemory.components img !! (4 * i)%nat = [10; 20] !! i
         /\ InMemory.components img !! (4 * i + 1)%nat = [30; 40] !! i
         /\ InMemory.components img !! (4 * i + 2)%nat = [50; 60] !! i
         /\ InMemory.components img !! (4 * i + 3)%nat = [255; 0] !! i.
Proof.
  destruct (colour_channels_interleaved 0 Gallery.decode [] "rgba" Gallery.rgbaImage
              (Gallery.listBand GCI_RedBand GDT_Byte 1 0 Demo.noTable [10; 20])
              (Gallery.listBand GCI_GreenBand GDT_Byte 1 0 Demo.noTable [30; 40])
              (Gallery.listBand GCI_BlueBand GDT_Byte 1 0 Demo.noTable [50; 60])
              (Some (Gallery.listBand GCI_AlphaBand GDT_Byte 1 0 Demo.noTable [255; 0]))
              [10; 20] [30; 40] [50; 60] [255; 0]) as (img & E & H);
    try reflexivity; try (vm_compute; lia).
  - split; [reflexivity|]. vm_compute. lia.
  - exists img. split; [exact E|]. exact H.
Defined.

Lemma palette_indices_expanded_witness :
  exists img,
    InMemory.readImage 0 Gallery.decode [] "palette" = Some img
    /\ InMemory.pixelFormat img = InMemory.R8G8B8A8_SRGB
    /\ InMemory.components img !! (4 * 1 + 3)%nat = Some (inject_Z 1).
Proof.
  destruct (palette_indices_expanded 0 Gallery.decode [] "palette" Gallery.paletteImage
              (Gallery.listBand GCI_PaletteIndex GDT_Byte 1 0
                 (mkColorTable GPI_RGB [mkEntry 1 2 3 4]) [0; 7])
              [0; 7]) as (img & E & F & H);
    try reflexivity; try (vm_compute; lia).
  - vm_compute. split; [discriminate|reflexivity].
  - exists img. split; [exact E|]. split; [exact F|].
    destruct (H 1%nat 7 ltac:(vm_compute; lia) eq_refl) as (_ & _ & _ & H3 & _).
    exact H3.
Defined.

Lemma gray_samples_rescaled_witness :
  exists img,
    InMemory.readImage 0 Gallery.decode [] "gray" = Some img
    /\ InMemory.pixelFormat img = InMemory.R32_SFLOAT
    /\ InMemory.components img !! 1%nat
       = option_map (fun v => v * 2 + 1) ([5; 6] !! 1%nat).
Proof.
  destruct (gray_samples_rescaled 0 Gallery.decode [] "gray" Gallery.grayImage
              (Gallery.listBand GCI_GrayIndex GDT_Float32 2 1 Demo.noTable [5; 6])
              [5; 6]) as (img & E & F & H);
    try reflexivity; try (vm_compute; lia).
  - vm_compute. split; [discriminate|reflexivity].
  - exists img. split; [exact E|]. split; [exact F|].
    apply (H 1%nat). vm_compute. lia.
Defined.

Lemma subdataset_index_without_name_witness :
  let E := Demo.world Demo.files in
  let layer := mkOptions (Some (mkURI "container.nc" "container.nc")) None (Some 5%Z) AVERAGE in
  (GDALOpen E "container.nc" = Some Demo.container
   /\ Z.of_nat (length (SUBDATASETS Demo.container)) = (2 * 3)%Z
   /\ CSLFetchNameValue (SUBDATASETS Demo.container) "SUBDATASET_5_NAME" = None)
  /\ subDatasetIndex layer (Z.of_nat (length (SUBDATASETS Demo.container))) = 5%Z
  /\ openSource E layer "container.nc" = None
  /\ fst (fst (open E Demo.freshDriver "container" layer 256 (Some []) (mkIO false)))
     = ResourceUnavailable.
Proof.
  cbv zeta. split; [repeat split; vm_compute; reflexivity|].
  apply (subdataset_index_without_name (Demo.world Demo.files) Demo.freshDriver "container"
           (mkOptions (Some (mkURI "container.nc" "container.nc")) None (Some 5%Z) AVERAGE)
           256 (Some []) (mkIO false) (mkURI "container.nc" "container.nc")
           Demo.container 5);
    try reflexivity; try discriminate; try (vm_compute; reflexivity).
  - vm_compute. split; discriminate.
Defined.
